(** * own-tiny-ssb: the feed store and the version engine

    A shallow embedding of [src/feed.py] (class [Feed]) and of
    [update_poc/poc/version_util.py] (line diffs, their binary encoding and
    version jumps), with the properties of the specification proved or
    refuted on it.

    Python values are modelled as follows: [int] is [Z]; [bytes] is a list of
    [Byte.byte]; [str] is a list of Unicode code points; a raised exception
    is the [Raise] case of [result]; loops whose termination is not evident
    from the code take fuel and answer [OutOfFuel] when it is used up.
    Methods of [Feed] take the object and the files and return the new object
    and the new files with their answer; what a method had written before it
    raised is not kept, and no property below looks at it.

    [packet.py] and [ssb_util.py] are not part of the sources at hand: the
    packet codec, the varint codec and the packet kinds are parameters,
    declared as the classes [feed.Collaborators] and [VarInt]. *)

From Stdlib Require Import ZArith List Bool Lia.
From Stdlib Require Import Strings.Byte.
Import ListNotations.
Local Open Scope Z_scope.

(** ** Python runtime: exceptions and the error monad *)

Inductive exn : Type :=
| IndexError
| KeyError
| ValueError
| AssertionError
| AttributeError
| OverflowError
| UnicodeError.

Inductive result (A : Type) : Type :=
| Ok (a : A)
| Raise (e : exn)
| OutOfFuel.

Arguments Ok {A} a.
Arguments Raise {A} e.
Arguments OutOfFuel {A}.

Definition bind {A B : Type} (m : result A) (k : A -> result B) : result B :=
  match m with
  | Ok a => k a
  | Raise e => Raise e
  | OutOfFuel => OutOfFuel
  end.

Notation "x <- m ;; k" := (bind m (fun x => k))
  (at level 61, m at next level, right associativity).
Notation "' p <- m ;; k" := (bind m (fun p => k))
  (at level 61, p pattern, m at next level, right associativity).

(** [for x in xs: st = body(st, x)] with exceptions. *)
Fixpoint for_each {A S : Type} (xs : list A) (body : S -> A -> result S) (st : S)
  : result S :=
  match xs with
  | [] => Ok st
  | x :: xs' => st' <- body st x ;; for_each xs' body st'
  end.

(** ** Python sequences *)

Module Py.

Definition len {A : Type} (l : list A) : Z := Z.of_nat (length l).

(** [l[i:]] *)
Definition slice_from {A : Type} (l : list A) (i : Z) : list A :=
  if i <? 0 then skipn (Z.to_nat (len l + i)) l else skipn (Z.to_nat i) l.

(** [l[:j]] *)
Definition slice_to {A : Type} (l : list A) (j : Z) : list A :=
  if j <? 0 then firstn (Z.to_nat (len l + j)) l else firstn (Z.to_nat j) l.

(** [l[i:j]] *)
Definition slice {A : Type} (l : list A) (i j : Z) : list A :=
  let n := len l in
  let lo := if i <? 0 then Z.max 0 (n + i) else Z.min i n in
  let hi := if j <? 0 then Z.max 0 (n + j) else Z.min j n in
  firstn (Z.to_nat (hi - lo)) (skipn (Z.to_nat lo) l).

(** [l[i]] *)
Definition getitem {A : Type} (l : list A) (i : Z) : result A :=
  let k := if i <? 0 then len l + i else i in
  if k <? 0 then Raise IndexError
  else match nth_error l (Z.to_nat k) with
       | Some x => Ok x
       | None => Raise IndexError
       end.

(** [l[i] = x] *)
Definition setitem {A : Type} (l : list A) (i : Z) (x : A) : result (list A) :=
  let k := if i <? 0 then len l + i else i in
  if (0 <=? k) && (k <? len l)
  then Ok (firstn (Z.to_nat k) l ++ x :: skipn (S (Z.to_nat k)) l)
  else Raise IndexError.

(** [l.insert(i, x)]: the index is clamped to [0 .. len(l)]. *)
Definition insert {A : Type} (l : list A) (i : Z) (x : A) : list A :=
  let n := len l in
  let k := if i <? 0 then Z.max 0 (n + i) else Z.min i n in
  firstn (Z.to_nat k) l ++ x :: skipn (Z.to_nat k) l.

(** The indices that [list.insert] takes: those that fit [Py_ssize_t]. For
    any other index CPython raises [OverflowError] and leaves the list as it
    is; [insert] is [l.insert(i, x)] for the indices in this range. *)
Definition ssize_t (i : Z) : Prop := - 2 ^ 63 <= i < 2 ^ 63.

(** [del l[i]] *)
Definition delitem {A : Type} (l : list A) (i : Z) : result (list A) :=
  let k := if i <? 0 then len l + i else i in
  if (0 <=? k) && (k <? len l)
  then Ok (firstn (Z.to_nat k) l ++ skipn (S (Z.to_nat k)) l)
  else Raise IndexError.

(** [range(a, b)] *)
Definition range (a b : Z) : list Z :=
  map (fun k => a + Z.of_nat k) (seq 0 (Z.to_nat (b - a))).

(** [max(l)] *)
Definition max (l : list Z) : result Z :=
  match l with
  | [] => Raise ValueError
  | x :: xs => Ok (fold_left Z.max xs x)
  end.

(** [all(x < y for x, y in zip(l, l[1:]))] and its mirror image *)
Fixpoint all_adjacent (r : Z -> Z -> bool) (l : list Z) : bool :=
  match l with
  | x :: ((y :: _) as tl) => r x y && all_adjacent r tl
  | _ => true
  end.

End Py.

(** ** [bytes] and [str] *)

Definition bytes := list byte.

Definition byte_val (b : byte) : Z := Z.of_N (Byte.to_N b).

Definition byte_of (z : Z) : byte :=
  match Byte.of_N (Z.to_N z) with
  | Some b => b
  | None => x00
  end.

Definition bytes_eq_dec : forall a b : bytes, {a = b} + {a <> b} :=
  list_eq_dec Byte.byte_eq_dec.

Definition bytes_eqb (a b : bytes) : bool :=
  if bytes_eq_dec a b then true else false.

(** [bytes(n)] *)
Definition zeros (n : nat) : bytes := repeat x00 n.

(** [int.from_bytes(b, "big")] *)
Definition int_from_bytes_big (b : bytes) : Z :=
  fold_left (fun acc x => acc * 256 + byte_val x) b 0.

Fixpoint be_digits (n : nat) (z : Z) : bytes :=
  match n with
  | O => []
  | S n' => be_digits n' (z / 256) ++ [byte_of (z mod 256)]
  end.

(** [z.to_bytes(n, "big")] *)
Definition int_to_bytes_big (n : nat) (z : Z) : result bytes :=
  if (0 <=? z) && (z <? 256 ^ Z.of_nat n) then Ok (be_digits n z)
  else Raise OverflowError.

(** A [str] is its sequence of code points. *)
Definition char := Z.
Definition str := list char.

Definition str_eq_dec : forall a b : str, {a = b} + {a <> b} :=
  list_eq_dec Z.eq_dec.

Definition str_eqb (a b : str) : bool :=
  if str_eq_dec a b then true else false.

Definition newline : char := 10.
Definition str_I : str := [73].
Definition str_D : str := [68].

(** [s.split("\n")] *)
Fixpoint split_lines (s : str) : list str :=
  match s with
  | [] => [[]]
  | c :: s' =>
      if c =? newline then [] :: split_lines s'
      else match split_lines s' with
           | l :: ls => (c :: l) :: ls
           | [] => [[c]]
           end
  end.

(** ["\n".join(ls)] *)
Fixpoint join_lines (ls : list str) : str :=
  match ls with
  | [] => []
  | [l] => l
  | l :: ls' => l ++ newline :: join_lines ls'
  end.

(** [x in l] for a list of strings *)
Definition str_in (x : str) (l : list str) : bool := existsb (str_eqb x) l.

(** ** UTF-8: [str.encode()] and [bytes.decode()] *)

Definition utf8_encode_char (c : char) : result bytes :=
  if c <? 0 then Raise UnicodeError
  else if c <? 128 then Ok [byte_of c]
  else if c <? 2048 then
    Ok [byte_of (192 + c / 64); byte_of (128 + c mod 64)]
  else if c <? 65536 then
    if (55296 <=? c) && (c <=? 57343) then Raise UnicodeError
    else Ok [byte_of (224 + c / 4096); byte_of (128 + (c / 64) mod 64);
             byte_of (128 + c mod 64)]
  else if c <? 1114112 then
    Ok [byte_of (240 + c / 262144); byte_of (128 + (c / 4096) mod 64);
        byte_of (128 + (c / 64) mod 64); byte_of (128 + c mod 64)]
  else Raise UnicodeError.

Fixpoint utf8_encode (s : str) : result bytes :=
  match s with
  | [] => Ok []
  | c :: s' =>
      e <- utf8_encode_char c ;;
      es <- utf8_encode s' ;;
      Ok (e ++ es)
  end.

Definition is_cont (b : byte) : bool :=
  (128 <=? byte_val b) && (byte_val b <=? 191).

Definition cont_bits (b : byte) : Z := byte_val b - 128.

Fixpoint utf8_decode (bs : bytes) : result str :=
  match bs with
  | [] => Ok []
  | b0 :: r0 =>
      let v0 := byte_val b0 in
      if v0 <? 128 then
        s <- utf8_decode r0 ;; Ok (v0 :: s)
      else if v0 <? 194 then Raise UnicodeError
      else if v0 <? 224 then
        match r0 with
        | b1 :: r1 =>
            if is_cont b1 then
              s <- utf8_decode r1 ;;
              Ok (((v0 - 192) * 64 + cont_bits b1) :: s)
            else Raise UnicodeError
        | _ => Raise UnicodeError
        end
      else if v0 <? 240 then
        match r0 with
        | b1 :: b2 :: r2 =>
            if is_cont b1 && is_cont b2 then
              let c := (v0 - 224) * 4096 + cont_bits b1 * 64 + cont_bits b2 in
              if (c <? 2048) || ((55296 <=? c) && (c <=? 57343))
              then Raise UnicodeError
              else s <- utf8_decode r2 ;; Ok (c :: s)
            else Raise UnicodeError
        | _ => Raise UnicodeError
        end
      else if v0 <? 245 then
        match r0 with
        | b1 :: b2 :: b3 :: r3 =>
            if is_cont b1 && is_cont b2 && is_cont b3 then
              let c := (v0 - 240) * 262144 + cont_bits b1 * 4096
                       + cont_bits b2 * 64 + cont_bits b3 in
              if (c <? 65536) || (1114111 <? c) then Raise UnicodeError
              else s <- utf8_decode r3 ;; Ok (c :: s)
            else Raise UnicodeError
        | _ => Raise UnicodeError
        end
      else Raise UnicodeError
  end.

(** A code point that [str.encode()] accepts: a Unicode scalar value. *)
Definition scalar_value (c : char) : Prop :=
  0 <= c < 55296 \/ 57343 < c < 1114112.

(** ** The varint codec of [ssb_util], consumed through its interface

    [to_var_int(i)] returns the encoding of [i]; [from_var_int(b)] returns
    the decoded value and the number of bytes it took. *)

Class VarInt : Type := {
  to_var_int : Z -> result bytes;
  from_var_int : bytes -> result (Z * Z)
}.

(** A codec is lawful when decoding inverts encoding on every prefix. *)
Definition var_int_lawful (V : VarInt) : Prop :=
  forall n, 0 <= n ->
    exists bs, to_var_int n = Ok bs /\
               forall rest, from_var_int (bs ++ rest) = Ok (n, Py.len bs).

(** ** Python [dict] with integer keys, in insertion order *)

Definition dict (V : Type) : Type := list (Z * V).

Fixpoint dict_get {V : Type} (d : dict V) (k : Z) : option V :=
  match d with
  | [] => None
  | (k', v) :: d' => if k =? k' then Some v else dict_get d' k
  end.

Fixpoint dict_set {V : Type} (d : dict V) (k : Z) (v : V) : dict V :=
  match d with
  | [] => [(k, v)]
  | (k', v') :: d' =>
      if k =? k' then (k, v) :: d' else (k', v') :: dict_set d' k v
  end.

Definition dict_keys {V : Type} (d : dict V) : list Z := map fst d.

(** [d[k]] *)
Definition dict_getitem {V : Type} (d : dict V) (k : Z) : result V :=
  match dict_get d k with
  | Some v => Ok v
  | None => Raise KeyError
  end.

(** * [update_poc/poc/version_util.py] *)

Module version_util.

(** A change is [(line_number, operation, line)]. *)
Definition Change : Type := Z * str * str.

(** [takewhile(predicate, lst)]: the predicate sees the suffix [lst[i:]]. *)
Fixpoint takewhile (predicate : list Z -> bool) (lst : list Z) : list Z :=
  match lst with
  | [] => []
  | x :: tl => if predicate lst then x :: takewhile predicate tl else []
  end.

(** The [while] loop of [get_changes]; it returns the state at loop exit,
    [(old_lines, new_lines, line_num, changes)]. *)
Fixpoint get_changes_while (old_lines : list str)
  : list str -> Z -> list Change -> list str * list str * Z * list Change :=
  match old_lines with
  | [] => fun new_lines line_num changes => ([], new_lines, line_num, changes)
  | old_l :: old_rest =>
      fix inner (new_lines : list str) (line_num : Z) (changes : list Change) :=
        match new_lines with
        | [] => (old_l :: old_rest, [], line_num, changes)
        | new_l :: new_rest =>
            if str_eqb old_l new_l then
              get_changes_while old_rest new_rest (line_num + 1) changes
            else if negb (str_in old_l new_rest) then
              get_changes_while old_rest (new_l :: new_rest) line_num
                (changes ++ [(line_num, str_D, old_l)])
            else
              inner new_rest (line_num + 1)
                (changes ++ [(line_num, str_I, new_l)])
        end
  end.

(** [for line in old_lines: changes.append((line_num, "D", line))] *)
Definition delete_rest (old_lines : list str) (line_num : Z)
  (changes : list Change) : list Change :=
  fold_left (fun changes line => changes ++ [(line_num, str_D, line)])
    old_lines changes.

(** [for line in new_lines: changes.append((line_num, "I", line));
    line_num += 1] *)
Definition insert_rest (new_lines : list str) (line_num : Z)
  (changes : list Change) : list Change :=
  snd (fold_left (fun '(line_num, changes) line =>
                    (line_num + 1, changes ++ [(line_num, str_I, line)]))
         new_lines (line_num, changes)).

Definition get_changes_finish
  (st : list str * list str * Z * list Change) : list Change :=
  let '(old_lines, new_lines, line_num, changes) := st in
  insert_rest new_lines line_num (delete_rest old_lines line_num changes).

Definition get_changes (old_version new_version : str) : list Change :=
  get_changes_finish
    (get_changes_while (split_lines old_version) (split_lines new_version) 1 []).

(** One round of the [for] loop of [apply_changes]. *)
Definition apply_change (old_lines : list str) (change : Change)
  : result (list str) :=
  let '(line_num, op, content) := change in
  let line_num := line_num - 1 in
  let old_lines :=
    if str_eqb op str_I then Py.insert old_lines line_num content
    else old_lines in
  if str_eqb op str_D then Py.delitem old_lines line_num else Ok old_lines.

(** The [for] loop of [apply_changes], on the list of lines. *)
Definition apply_lines (old_lines : list str) (changes : list Change)
  : result (list str) :=
  for_each changes apply_change old_lines.

Definition apply_changes (content : str) (changes : list Change) : result str :=
  old_lines <- apply_lines (split_lines content) changes ;;
  Ok (join_lines old_lines).

Definition reverse_changes (changes : list Change) : list Change :=
  rev (map (fun '(a, b, c) =>
              if str_eqb b str_D then (a, str_I, c) else (a, str_D, c))
         changes).

(** [changes] leads from [l] to [l'] and its reversal leads back. *)
Definition transforms (l : list str) (changes : list Change) (l' : list str)
  : Prop :=
  apply_lines l changes = Ok l' /\
  apply_lines l' (reverse_changes changes) = Ok l.

(** A change as the claims about the codec take it: a line number that is
    not negative, an operation of one character, a line that UTF-8 can
    encode. [ascii_op] narrows the operation to one byte. *)
Definition one_char_op (op : str) : Prop :=
  exists c, op = [c] /\ scalar_value c.

Definition ascii_op (op : str) : Prop :=
  exists c, op = [c] /\ 0 <= c < 128.

Definition change_ok (op_ok : str -> Prop) (change : Change) : Prop :=
  let '(i, op, ln) := change in
  0 <= i /\ op_ok op /\ Forall scalar_value ln.

Section codec.
Context {V : VarInt}.

Definition encode_change (b : bytes) (change : Change) : result bytes :=
  let '(i, op, ln) := change in
  vi <- to_var_int i ;;
  op_b <- utf8_encode op ;;
  ln_b <- utf8_encode ln ;;
  let b_change := vi ++ op_b ++ ln_b in
  vl <- to_var_int (Py.len b_change) ;;
  Ok (b ++ vl ++ b_change).

Definition changes_to_bytes (changes : list Change) (dependency : Z)
  : result bytes :=
  b <- int_to_bytes_big 4 dependency ;;
  for_each changes encode_change b.

(** The [while len(changes) > 0] loop of [bytes_to_changes]. *)
Fixpoint bytes_to_changes_while (fuel : nat) (changes : bytes)
  (operations : list Change) : result (list Change) :=
  match changes with
  | [] => Ok operations
  | _ :: _ =>
      match fuel with
      | O => OutOfFuel
      | S fuel' =>
          '(size, size_b) <- from_var_int changes ;;
          let changes := Py.slice_from changes size_b in
          let change := Py.slice_to changes size in
          let changes := Py.slice_from changes size in
          '(line_num, num_b) <- from_var_int change ;;
          c <- Py.getitem change num_b ;;
          let operation := [byte_val c] in
          string <- utf8_decode (Py.slice_from change (num_b + 1)) ;;
          bytes_to_changes_while fuel' changes
            (operations ++ [(line_num, operation, string)])
      end
  end.

(** Every round that does not raise consumes a byte, so the length of
    the input is enough fuel. *)
Definition bytes_to_changes (changes : bytes) : result (list Change * Z) :=
  let dependency := int_from_bytes_big (Py.slice_to changes 4) in
  let changes := Py.slice_from changes 4 in
  operations <- bytes_to_changes_while (length changes) changes [] ;;
  Ok (operations, dependency).

End codec.

(** The feed of the update layer, seen through the accessors that
    [version_util] calls ([tinyssb.feed.Feed]). *)
Record Feed : Type := {
  get_upd_version : option Z;
  get_current_version_num : option Z;
  get_update_blob : Z -> result bytes;
  get_parent : option bytes
}.

(** [FeedManager.get_feed]; [None] when the feed is unknown. *)
Record FeedManager : Type := {
  get_feed : bytes -> option Feed
}.

(** The [while True] walk over the parent chain in
    [extract_version_tree]. *)
Fixpoint extract_access (fuel : nat) (feed_manager : FeedManager)
  (current_feed : Feed) (access_dict : dict Feed) (max_version : Z)
  : result (dict Feed * Z) :=
  match fuel with
  | O => OutOfFuel
  | S fuel' =>
      match get_upd_version current_feed with
      | None => Ok (access_dict, max_version)
      | Some minv =>
          match get_current_version_num current_feed with
          | None => Ok (access_dict, max_version)
          | Some maxv =>
              let max_version := Z.max maxv max_version in
              let access_dict :=
                fold_left (fun d i => dict_set d i current_feed)
                  (Py.range minv (maxv + 1)) access_dict in
              match get_parent current_feed with
              | None => Ok (access_dict, max_version)
              | Some parent_fid =>
                  match get_feed feed_manager parent_fid with
                  | None => Raise AttributeError
                  | Some parent =>
                      extract_access fuel' feed_manager parent
                        access_dict max_version
                  end
              end
          end
      end
  end.

(** [tree[k] = tree[k] + [v]] if [k in tree] else [tree[k] = [v]] *)
Definition tree_add (tree : dict (list Z)) (k v : Z) : dict (list Z) :=
  match dict_get tree k with
  | Some l => dict_set tree k (l ++ [v])
  | None => dict_set tree k [v]
  end.

Definition extract_version_tree (fuel : nat) (feed : Feed)
  (feed_manager : FeedManager) : result (dict (list Z) * dict Feed) :=
  '(access_dict, max_version) <-
    extract_access fuel feed_manager feed [] (-1) ;;
  tree <- for_each (Py.range 1 (max_version + 1))
            (fun tree i =>
               access_feed <- dict_getitem access_dict i ;;
               update <- get_update_blob access_feed i ;;
               let dep_on := int_from_bytes_big (Py.slice_to update 4) in
               let tree := tree_add tree i dep_on in
               Ok (tree_add tree dep_on i))
            [] ;;
  Ok (tree, access_dict).

(** The [for n in graph[current]] loop of [_dfs]. *)
Definition explore (path : list Z) (st : list bool * list (list Z)) (n : Z)
  : result (list bool * list (list Z)) :=
  let '(visited, queue) := st in
  seen <- Py.getitem visited n ;;
  if negb seen then
    visited <- Py.setitem visited n true ;;
    Ok (visited, queue ++ [path ++ [n]])
  else Ok (visited, queue).

(** The [while queue] loop of [_dfs]. *)
Fixpoint dfs_while (fuel : nat) (graph : dict (list Z)) (end_ : Z)
  (visited : list bool) (queue : list (list Z)) : result (list Z) :=
  match queue with
  | [] => Ok []
  | path :: queue =>
      match fuel with
      | O => OutOfFuel
      | S fuel' =>
          current <- Py.getitem path (-1) ;;
          if current =? end_ then Ok path
          else
            ns <- dict_getitem graph current ;;
            '(visited, queue) <- for_each ns (explore path) (visited, queue) ;;
            dfs_while fuel' graph end_ visited queue
      end
  end.

Definition _dfs (fuel : nat) (graph : dict (list Z)) (start end_ : Z)
  : result (list Z) :=
  max_v <- Py.max (dict_keys graph) ;;
  let visited := map (fun i => i =? start) (Py.range 0 (max_v + 1)) in
  dfs_while fuel graph end_ visited [[start]].

Definition mono_inc (lst : list Z) : bool := Py.all_adjacent Z.ltb lst.
Definition mono_dec (lst : list Z) : bool := Py.all_adjacent Z.gtb lst.

Section jump.
Context {V : VarInt}.

(** [for step in path: all_changes += f(changes of step)] *)
Definition collect (access_dict : dict Feed)
  (f : list Change -> list Change) (path : list Z)
  (all_changes : list Change) : result (list Change) :=
  for_each path
    (fun all_changes step =>
       access_feed <- dict_getitem access_dict step ;;
       blob <- get_update_blob access_feed step ;;
       '(changes, _) <- bytes_to_changes blob ;;
       Ok (all_changes ++ f changes))
    all_changes.

Definition jump_versions (fuel : nat) (start end_ : Z) (feed : Feed)
  (feed_manager : FeedManager) : result (list Change) :=
  if start =? end_ then Ok []
  else
    '(neighbors, access_dict) <- extract_version_tree fuel feed feed_manager ;;
    max_version <- Py.max (dict_keys access_dict) ;;
    if (start >? max_version) || (end_ >? max_version) then Ok []
    else
      update_path <- _dfs fuel neighbors start end_ ;;
      if mono_inc update_path then
        match update_path with
        | [] => Raise IndexError
        | _ :: update_path =>
            collect access_dict (fun c => c) update_path []
        end
      else if mono_dec update_path then
        match update_path with
        | [] => Raise IndexError
        | _ :: _ =>
            collect access_dict reverse_changes (removelast update_path) []
        end
      else
        let not_mono_inc := fun lst => negb (mono_inc lst) in
        let first_half := takewhile not_mono_inc update_path in
        let second_half :=
          Py.slice_from update_path (Py.len first_half + 1) in
        all_changes <- collect access_dict reverse_changes first_half [] ;;
        collect access_dict (fun c => c) second_half all_changes.

End jump.

(** What [get_changes] emits: the line number is at least 1; a deletion
    carries a line of the old text, an insertion a line of the new one. *)
Definition emitted (old_lines new_lines : list str) (change : Change) : Prop :=
  let '(n, op, line) := change in
  1 <= n /\
  ((op = str_D /\ In line old_lines) \/ (op = str_I /\ In line new_lines)).

(** An operation that [get_changes] emits. *)
Definition insert_or_delete (change : Change) : Prop :=
  let '(_, op, _) := change in op = str_I \/ op = str_D.

(** A line without a line break, and a change whose line has none. *)
Definition newline_free (line : str) : Prop := ~ In newline line.

Definition one_line (change : Change) : Prop :=
  let '(_, _, line) := change in newline_free line.

(** [j] is listed among the neighbours of [i]. *)
Definition adjacent (graph : dict (list Z)) (i j : Z) : Prop :=
  exists ns, dict_get graph i = Some ns /\ In j ns.

(** Each node of [path] is listed among the neighbours of the one before. *)
Fixpoint walk (graph : dict (list Z)) (path : list Z) : Prop :=
  match path with
  | x :: ((y :: _) as tl) => adjacent graph x y /\ walk graph tl
  | _ => True
  end.

(** What [_dfs] keeps in its queue: walks of the graph that begin at
    [start]. *)
Definition from_start (graph : dict (list Z)) (start : Z) (path : list Z)
  : Prop :=
  hd_error path = Some start /\ walk graph path.

End version_util.

(** * [src/feed.py] *)

Module feed.

(** What [feed.py] reads of a [Packet] and of a [Blob] of [packet.py]. *)
Record Packet : Type := {
  pkt_type : bytes;
  payload : bytes;
  mid : bytes;
  wire : bytes
}.

Record Blob : Type := {
  blob_payload : bytes;
  ptr : bytes;
  signature : bytes;
  blob_wire : bytes
}.

(** The collaborators of [packet.py] and the environment, consumed through
    their interfaces. [None] stands for Python's [None]. [blob_writable]
    tells whether the file of a blob can be opened and written. *)
Class Collaborators : Type := {
  pkt_from_bytes : bytes -> bytes -> bytes -> bytes -> option Packet;
  new_Packet : bytes -> bytes -> bytes -> bytes -> option Packet;
  create_chain : bytes -> bytes -> bytes -> bytes -> option Packet * list Blob;
  new_Blob : bytes -> bytes -> Blob;
  PacketType_plain48 : bytes;
  PacketType_chain20 : bytes;
  PacketType_ischild : bytes;
  PacketType_iscontn : bytes;
  PacketType_mkchild : bytes;
  PacketType_contdas : bytes;
  blob_writable : bytes -> bool
}.

(** The attributes of a [Feed] object. *)
Record Feed : Type := {
  fid : bytes;
  parent_id : bytes;
  parent_seq : Z;
  anchor_seq : Z;
  anchor_mid : bytes;
  front_seq : Z;
  front_mid : bytes;
  _mids : list bytes
}.

(** The files of a feed: its [.log] file and the blob files, keyed by the
    20 bytes whose hex form names them. *)
Record Disk : Type := {
  log : bytes;
  blob_files : list (bytes * bytes)
}.

Fixpoint blob_file (files : list (bytes * bytes)) (key : bytes) : option bytes :=
  match files with
  | [] => None
  | (k, content) :: files' =>
      if bytes_eqb key k then Some content else blob_file files' key
  end.

Definition set_front (f : Feed) (seq : Z) (m : bytes) : Feed :=
  {| fid := fid f; parent_id := parent_id f; parent_seq := parent_seq f;
     anchor_seq := anchor_seq f; anchor_mid := anchor_mid f;
     front_seq := seq; front_mid := m; _mids := _mids f |}.

Definition set_mids (f : Feed) (mids : list bytes) : Feed :=
  {| fid := fid f; parent_id := parent_id f; parent_seq := parent_seq f;
     anchor_seq := anchor_seq f; anchor_mid := anchor_mid f;
     front_seq := front_seq f; front_mid := front_mid f; _mids := mids |}.

Definition set_log (d : Disk) (content : bytes) : Disk :=
  {| log := content; blob_files := blob_files d |}.

(** [f.seek(pos); f.read(128)[8:]] on the log file *)
Definition read_frame (d : Disk) (pos : Z) : bytes :=
  Py.slice_from (firstn 128 (skipn (Z.to_nat pos) (log d))) 8.

(** [f.seek(0); f.write(content)] on a file opened with ["rb+"] *)
Definition overwrite (file content : bytes) : bytes :=
  content ++ skipn (length content) file.

Section methods.
Context {C : Collaborators} {V : VarInt}.

Definition __len__ (self : Feed) : Z := front_seq self.

(** [len(self)]: the built-in checks what [__len__] returns. *)
Definition len_ (self : Feed) : result Z :=
  let n := __len__ self in
  if n <? 0 then Raise ValueError
  else if 2 ^ 63 <=? n then Raise OverflowError
  else Ok n.

Definition __getitem__ (self : Feed) (d : Disk) (seq : Z)
  : result (option Packet) :=
  let seq := if seq <? 0 then front_seq self + seq + 1 else seq in
  if (seq >? front_seq self) || (seq <=? anchor_seq self)
  then Raise IndexError
  else
    let relative_seq := seq - anchor_seq self in
    let raw_pkt := read_frame d (128 * relative_seq) in
    seq_b <- int_to_bytes_big 4 seq ;;
    prev <- Py.getitem (_mids self) (relative_seq - 1) ;;
    Ok (pkt_from_bytes (fid self) seq_b prev raw_pkt).

(** [pkt.attr] where [pkt] may be [None] *)
Definition attr {A B : Type} (o : option A) (get : A -> B) : result B :=
  match o with
  | Some a => Ok (get a)
  | None => Raise AttributeError
  end.

Definition _get_mids (fid_ : bytes) (anchor front : Z) (d : Disk)
  : result (list bytes) :=
  for_each (Py.range (anchor + 1) (front + 1))
    (fun mids i =>
       let raw_pkt := read_frame d (128 * (i - anchor)) in
       i_b <- int_to_bytes_big 4 i ;;
       prev <- Py.getitem mids (-1) ;;
       m <- attr (pkt_from_bytes fid_ i_b prev raw_pkt) mid ;;
       Ok (mids ++ [m]))
    [Py.slice_to fid_ 20].

Definition __init__ (d : Disk) : result Feed :=
  let header := firstn 128 (log d) in
  let fid_ := Py.slice header 12 44 in
  let anchor := int_from_bytes_big (Py.slice header 80 84) in
  let front := int_from_bytes_big (Py.slice header 104 108) in
  mids <- _get_mids fid_ anchor front d ;;
  Ok {| fid := fid_;
        parent_id := Py.slice header 44 76;
        parent_seq := int_from_bytes_big (Py.slice header 76 80);
        anchor_seq := anchor;
        anchor_mid := Py.slice header 84 104;
        front_seq := front;
        front_mid := Py.slice header 108 128;
        _mids := mids |}.

Definition has_ended (self : Feed) (d : Disk) : result bool :=
  n <- len_ self ;;
  if n <? 1 then Ok false
  else
    last_pkt <- __getitem__ self d (-1) ;;
    t <- attr last_pkt pkt_type ;;
    Ok (bytes_eqb t PacketType_contdas).

Definition _update_header (self : Feed) (d : Disk) : result Disk :=
  seq_b <- int_to_bytes_big 4 (front_seq self) ;;
  let new_info := seq_b ++ front_mid self in
  if negb (Py.len new_info =? 24) then Raise AssertionError
  else
    let file_content := log d in
    let updated_content :=
      Py.slice_to file_content 104 ++ new_info
      ++ Py.slice_from file_content 128 in
    Ok (set_log d (overwrite file_content updated_content)).

Definition append_pkt (self : Feed) (d : Disk) (pkt : option Packet)
  : result (bool * Feed * Disk) :=
  ended <- has_ended self d ;;
  if ended then Ok (false, self, d)
  else
    match pkt with
    | None => Ok (false, self, d)
    | Some pkt =>
        let payload := zeros 8 ++ wire pkt in
        if negb (Py.len payload =? 128) then Raise AssertionError
        else
          let d := set_log d (log d ++ payload) in
          let self := set_front self (front_seq self + 1) (mid pkt) in
          d <- _update_header self d ;;
          let self := set_mids self (_mids self ++ [mid pkt]) in
          Ok (true, self, d)
    end.

Definition append_bytes (self : Feed) (d : Disk) (payload : bytes)
  : result (bool * Feed * Disk) :=
  let next_seq := front_seq self + 1 in
  seq_b <- int_to_bytes_big 4 next_seq ;;
  match new_Packet (fid self) seq_b (front_mid self) payload with
  | None => Ok (false, self, d)
  | Some pkt => append_pkt self d (Some pkt)
  end.

(** The [for] loop of [_write_blob]; [os.mkdir] of the shard directory is
    left to the environment. *)
Fixpoint _write_blob (blobs : list Blob) (d : Disk) : bool * Disk :=
  match blobs with
  | [] => (true, d)
  | blob :: blobs' =>
      if blob_writable (signature blob) then
        _write_blob blobs'
          {| log := log d;
             blob_files := (signature blob, blob_wire blob) :: blob_files d |}
      else (false, d)
  end.

Definition append_blob (self : Feed) (d : Disk) (payload : bytes)
  : result (bool * Feed * Disk) :=
  next_seq <- int_to_bytes_big 4 (front_seq self + 1) ;;
  let '(pkt, blobs) := create_chain (fid self) next_seq (front_mid self) payload in
  match pkt with
  | None => Ok (false, self, d)
  | Some pkt =>
      '(_, self, d) <- append_pkt self d (Some pkt) ;;
      let '(ok, d) := _write_blob blobs d in
      Ok (ok, self, d)
  end.

Definition _get_blob (d : Disk) (ptr_ : bytes) : result (option Blob) :=
  match blob_file (blob_files d) ptr_ with
  | None => Ok None
  | Some file =>
      let content := firstn 120 file in
      if negb (Py.len content =? 120) then Raise AssertionError
      else Ok (Some (new_Blob (Py.slice_to content 100)
                       (Py.slice_from content 100)))
  end.

(** The [for] loop of [_verify_chain]; [None] is the early [return None]. *)
Fixpoint verify_blobs (blobs : list Blob) (ptr_ content : bytes)
  : option bytes :=
  match blobs with
  | [] => Some content
  | blob :: blobs' =>
      if negb (bytes_eqb ptr_ (signature blob)) then None
      else verify_blobs blobs' (ptr blob) (content ++ blob_payload blob)
  end.

Definition _verify_chain (head : Packet) (blobs : list Blob)
  : result (option bytes) :=
  '(size, num_bytes) <- from_var_int (payload head) ;;
  let ptr_ := Py.slice_from (payload head) (-20) in
  let content := Py.slice (payload head) num_bytes (-20) in
  match verify_blobs blobs ptr_ content with
  | None => Ok None
  | Some content => Ok (Some (Py.slice_to content size))
  end.

(** The [while ptr != bytes(20)] loop of [get_blob_chain]. *)
Fixpoint collect_blobs (fuel : nat) (d : Disk) (ptr_ : bytes)
  (blobs : list Blob) : result (list Blob) :=
  if bytes_eqb ptr_ (zeros 20) then Ok blobs
  else
    match fuel with
    | O => OutOfFuel
    | S fuel' =>
        blob <- _get_blob d ptr_ ;;
        match blob with
        | None => Raise AttributeError
        | Some blob => collect_blobs fuel' d (ptr blob) (blobs ++ [blob])
        end
    end.

Definition get_blob_chain (fuel : nat) (d : Disk) (pkt : Packet)
  : result (option bytes) :=
  if negb (bytes_eqb (pkt_type pkt) PacketType_chain20)
  then Raise AssertionError
  else
    blobs <- collect_blobs fuel d (Py.slice_from (payload pkt) (-20)) [] ;;
    _verify_chain pkt blobs.

Definition get_bytes (fuel : nat) (self : Feed) (d : Disk) (i : Z)
  : result (option bytes) :=
  pkt <- __getitem__ self d i ;;
  match pkt with
  | None => Ok None
  | Some pkt =>
      if bytes_eqb (pkt_type pkt) PacketType_plain48 then Ok (Some (payload pkt))
      else if bytes_eqb (pkt_type pkt) PacketType_chain20
           then get_blob_chain fuel d pkt
      else if bytes_eqb (pkt_type pkt) PacketType_ischild then Ok (Some (payload pkt))
      else if bytes_eqb (pkt_type pkt) PacketType_iscontn then Ok (Some (payload pkt))
      else if bytes_eqb (pkt_type pkt) PacketType_mkchild then Ok (Some (payload pkt))
      else if bytes_eqb (pkt_type pkt) PacketType_contdas then Ok (Some (payload pkt))
      else Ok None
  end.

Definition get_contn (self : Feed) (d : Disk) : result (option bytes) :=
  last_pkt <- __getitem__ self d (-1) ;;
  t <- attr last_pkt pkt_type ;;
  if negb (bytes_eqb t PacketType_contdas) then Ok None
  else
    p <- attr last_pkt payload ;;
    Ok (Some (Py.slice_to p 32)).

Definition get_front (self : Feed) : Z * bytes :=
  (front_seq self, front_mid self).

End methods.

(** The blobs met when following pointers from [ptr_] until the all-zero
    pointer, each blob file being there. *)
Fixpoint follows {C : Collaborators} (d : Disk) (ptr_ : bytes)
  (blobs : list Blob) : Prop :=
  match blobs with
  | [] => ptr_ = zeros 20
  | blob :: blobs' =>
      ptr_ <> zeros 20 /\ _get_blob d ptr_ = Ok (Some blob) /\
      follows d (ptr blob) blobs'
  end.

(** Every followed pointer is the signature of the blob it leads to. *)
Fixpoint pointers_match (ptr_ : bytes) (blobs : list Blob) : Prop :=
  match blobs with
  | [] => True
  | blob :: blobs' => ptr_ = signature blob /\ pointers_match (ptr blob) blobs'
  end.

(** A feed object as the constructor leaves it: the sequence numbers fit
    the four bytes they are stored in, and the cache of message ids has
    one entry per stored packet after the entry of the feed id. *)
Definition mids_invariant (self : Feed) : Prop :=
  Py.len (_mids self) = Z.max 0 (front_seq self - anchor_seq self) + 1.

Definition well_formed (self : Feed) : Prop :=
  0 <= anchor_seq self /\ 0 <= front_seq self < 2 ^ 32 /\ mids_invariant self.

(** The sequence number [__getitem__] works with. *)
Definition remap (self : Feed) (seq : Z) : Z :=
  if seq <? 0 then front_seq self + seq + 1 else seq.

(** The file-size invariant of the specification. *)
Definition size_invariant (self : Feed) (d : Disk) : Prop :=
  Py.len (log d) = 128 * (front_seq self - anchor_seq self + 1).

(** What [__next__] answers: [StopIteration], or the packet it returns. *)
Inductive step : Type :=
| Stop
| Yield (pkt : option Packet).

Section queries.
Context {C : Collaborators} {V : VarInt}.

(** [__iter__]: [self._n = self.anchor_seq]. *)
Definition __iter__ (self : Feed) : Z := anchor_seq self.

(** [__next__], with the counter [self._n] passed in and out. *)
Definition __next__ (self : Feed) (d : Disk) (_n : Z) : Z * result step :=
  let _n := _n + 1 in
  if _n >? front_seq self then (_n, Ok Stop)
  else (_n, pkt <- __getitem__ self d _n ;; Ok (Yield pkt)).

(** [for pkt in self: st = body(st, pkt)], from the counter [_n] on. *)
Fixpoint for_next {S : Type} (fuel : nat) (self : Feed) (d : Disk) (_n : Z)
  (body : S -> option Packet -> result S) (st : S) : result S :=
  match fuel with
  | O => OutOfFuel
  | S fuel' =>
      let '(_n, r) := __next__ self d _n in
      s <- r ;;
      match s with
      | Stop => Ok st
      | Yield pkt => st' <- body st pkt ;; for_next fuel' self d _n body st'
      end
  end.

Definition for_feed {S : Type} (fuel : nat) (self : Feed) (d : Disk)
  (body : S -> option Packet -> result S) (st : S) : result S :=
  for_next fuel self d (__iter__ self) body st.

Definition get (self : Feed) (d : Disk) (i : Z) : result (option Packet) :=
  __getitem__ self d i.

(** The [while ptr != bytes(20)] loop of [get_bytes_quick]. *)
Fixpoint quick_blobs (fuel : nat) (d : Disk) (ptr_ content : bytes)
  : result bytes :=
  if bytes_eqb ptr_ (zeros 20) then Ok content
  else
    match fuel with
    | O => OutOfFuel
    | S fuel' =>
        blob <- _get_blob d ptr_ ;;
        match blob with
        | None => Raise AttributeError
        | Some blob =>
            quick_blobs fuel' d (ptr blob) (content ++ blob_payload blob)
        end
    end.

Definition get_bytes_quick (fuel : nat) (self : Feed) (d : Disk) (i : Z)
  : result bytes :=
  let i := if i <? 0 then front_seq self + i + 1 else i in
  if (i >? front_seq self) || (i <=? anchor_seq self) then Raise IndexError
  else
    let relative_i := i - anchor_seq self in
    let raw_pkt := read_frame d (128 * relative_i) in
    let pkt_type := Py.slice raw_pkt 7 8 in
    let payload := Py.slice raw_pkt 8 56 in
    if negb (bytes_eqb pkt_type PacketType_chain20) then Ok payload
    else
      '(size, num_bytes) <- from_var_int payload ;;
      let content := Py.slice payload num_bytes (-20) in
      let ptr_ := Py.slice_from payload (-20) in
      content <- quick_blobs fuel d ptr_ content ;;
      Ok (Py.slice_to content size).

Definition get_parent (self : Feed) (d : Disk) : result (option bytes) :=
  if negb (anchor_seq self =? 0) then Ok None
  else
    first_pkt <- __getitem__ self d 1 ;;
    t <- attr first_pkt pkt_type ;;
    if negb (bytes_eqb t PacketType_ischild) then Ok None
    else
      p <- attr first_pkt payload ;;
      Ok (Some (Py.slice_to p 32)).

(** The body of the loop of [get_children]. *)
Definition keep_mkchild (children : list Packet) (pkt : option Packet)
  : result (list Packet) :=
  match pkt with
  | None => Raise AttributeError
  | Some p =>
      if bytes_eqb (pkt_type p) PacketType_mkchild then Ok (children ++ [p])
      else Ok children
  end.

Definition get_children (fuel : nat) (self : Feed) (d : Disk)
  : result (list bytes) :=
  children <- for_feed fuel self d keep_mkchild [] ;;
  Ok (map (fun pkt => Py.slice_to (payload pkt) 32) children).

(** [try: first_pkt = self[1] except Exception: return None] *)
Definition get_prev (self : Feed) (d : Disk) : result (option bytes) :=
  match __getitem__ self d 1 with
  | Raise _ => Ok None
  | OutOfFuel => OutOfFuel
  | Ok first_pkt =>
      t <- attr first_pkt pkt_type ;;
      if negb (bytes_eqb t PacketType_iscontn) then Ok None
      else
        p <- attr first_pkt payload ;;
        Ok (Some (Py.slice_to p 32))
  end.

End queries.

End feed.

(** * Sample collaborators

    The definitions above are parametric in the collaborators that the
    repository consumes through interfaces. The instances below are used to
    run them on concrete inputs. *)

Module Sample.

(** A lawful varint codec: little-endian base 128 with a continuation
    bit. *)
Fixpoint base128 (fuel : nat) (n : Z) : bytes :=
  match fuel with
  | O => [byte_of n]
  | S fuel' =>
      if n <? 128 then [byte_of n]
      else byte_of (128 + n mod 128) :: base128 fuel' (n / 128)
  end.

Fixpoint unbase128 (b : bytes) : result (Z * Z) :=
  match b with
  | [] => Raise AssertionError
  | x :: b' =>
      if byte_val x <? 128 then Ok (byte_val x, 1)
      else '(v, k) <- unbase128 b' ;; Ok (byte_val x - 128 + 128 * v, k + 1)
  end.

Definition var_int : VarInt := {|
  to_var_int := fun n =>
    if n <? 0 then Raise AssertionError
    else Ok (base128 (Z.to_nat (Z.log2 n)) n);
  from_var_int := unbase128
|}.

(** A packet codec without cryptography: the message id of a packet is
    the first twenty bytes of the authentication field of its wire form,
    the signature of a blob is a marker byte and the first nineteen bytes
    of its wire form. *)
Definition pad (n : nat) (b : bytes) : bytes :=
  firstn n (b ++ zeros n).

Definition parse (raw : bytes) : option feed.Packet :=
  if (length raw =? 120)%nat then
    Some {| feed.pkt_type := Py.slice raw 7 8;
            feed.payload := Py.slice raw 8 56;
            feed.mid := Py.slice raw 56 76;
            feed.wire := raw |}
  else None.

Definition build (seq pkt_type payload : bytes) : option feed.Packet :=
  parse (zeros 7 ++ pad 1 pkt_type ++ pad 48 payload ++ pad 64 seq).

Definition blob_of (payload ptr : bytes) : feed.Blob :=
  let w := pad 100 payload ++ pad 20 ptr in
  {| feed.blob_payload := pad 100 payload;
     feed.ptr := pad 20 ptr;
     feed.signature := x01 :: firstn 19 w;
     feed.blob_wire := w |}.

Fixpoint chunks (fuel : nat) (b : bytes) : list bytes :=
  match fuel, b with
  | S fuel', _ :: _ => firstn 100 b :: chunks fuel' (skipn 100 b)
  | _, _ => []
  end.

Fixpoint chain (cs : list bytes) : list feed.Blob * bytes :=
  match cs with
  | [] => ([], zeros 20)
  | c :: cs' =>
      let '(blobs, next) := chain cs' in
      let blob := blob_of c next in
      (blob :: blobs, feed.signature blob)
  end.

Definition chain20 : bytes := [x01].

Definition make_chain (seq content : bytes) : option feed.Packet * list feed.Blob :=
  let size := base128 (Z.to_nat (Z.log2 (Py.len content))) (Py.len content) in
  let room := (28 - length size)%nat in
  let rest := skipn room content in
  let '(blobs, first) := chain (chunks (length rest) rest) in
  (build seq chain20 (size ++ pad room content ++ first), blobs).

Definition collaborators : feed.Collaborators := {|
  feed.pkt_from_bytes := fun _ _ _ raw => parse raw;
  feed.new_Packet := fun _ seq _ payload => build seq [x00] payload;
  feed.create_chain := fun _ seq _ payload => make_chain seq payload;
  feed.new_Blob := blob_of;
  feed.PacketType_plain48 := [x00];
  feed.PacketType_chain20 := chain20;
  feed.PacketType_ischild := [x02];
  feed.PacketType_iscontn := [x03];
  feed.PacketType_mkchild := [x04];
  feed.PacketType_contdas := [x05];
  feed.blob_writable := fun _ => true
|}.

(** A feed file with no packet: the header alone, anchor and front at 0. *)
Definition fid0 : bytes := repeat x0a 32.

Definition header (anchor front : Z) (front_mid : bytes) : bytes :=
  zeros 12 ++ fid0 ++ zeros 32 ++ zeros 4 ++ be_digits 4 anchor ++ zeros 20
  ++ be_digits 4 front ++ pad 20 front_mid.

Definition fresh_disk : feed.Disk :=
  {| feed.log := header 0 0 (firstn 20 fid0); feed.blob_files := [] |}.

Definition fresh_feed : feed.Feed :=
  {| feed.fid := fid0; feed.parent_id := zeros 32; feed.parent_seq := 0;
     feed.anchor_seq := 0; feed.anchor_mid := zeros 20;
     feed.front_seq := 0; feed.front_mid := firstn 20 fid0;
     feed._mids := [firstn 20 fid0] |}.

Definition after_append (st : feed.Feed * feed.Disk)
  (pkt : option feed.Packet) : feed.Feed * feed.Disk :=
  match feed.append_pkt (C := collaborators) (fst st) (snd st) pkt with
  | Ok (_, f, d) => (f, d)
  | _ => st
  end.

(** The same feed after a [plain48] packet, and after a [contdas] packet
    that ends it. *)
Definition plain_pkt : option feed.Packet :=
  build (be_digits 4 1) [x00] (repeat x68 13).

Definition contdas_pkt : option feed.Packet :=
  build (be_digits 4 2) [x05] (repeat x0b 32).

Definition one_packet : feed.Feed * feed.Disk :=
  Eval vm_compute in after_append (fresh_feed, fresh_disk) plain_pkt.

Definition ended : feed.Feed * feed.Disk :=
  Eval vm_compute in after_append one_packet contdas_pkt.

(** An ended feed whose front is the last sequence number of four bytes. *)
Definition last_seq : Z := 4294967295.

Definition full_feed : feed.Feed :=
  {| feed.fid := fid0; feed.parent_id := zeros 32; feed.parent_seq := 0;
     feed.anchor_seq := last_seq - 1; feed.anchor_mid := zeros 20;
     feed.front_seq := last_seq; feed.front_mid := zeros 20;
     feed._mids := [firstn 20 fid0; zeros 20] |}.

Definition full_disk : feed.Disk :=
  {| feed.log :=
       header (last_seq - 1) last_seq (zeros 20)
       ++ zeros 8 ++ zeros 7 ++ [x05] ++ repeat x0b 32 ++ zeros 16 ++ zeros 64;
     feed.blob_files := [] |}.

(** A chain of 250 bytes: the head packet and its blobs, written to the
    files of the fresh feed. *)
Definition content250 : bytes := repeat x41 100 ++ repeat x42 100 ++ repeat x43 50.

Definition chain250 : option feed.Packet * list feed.Blob :=
  Eval vm_compute in make_chain (be_digits 4 1) content250.

Definition head250 : feed.Packet :=
  match fst chain250 with
  | Some p => p
  | None => {| feed.pkt_type := []; feed.payload := []; feed.mid := [];
               feed.wire := [] |}
  end.

Definition disk250 : feed.Disk :=
  Eval vm_compute in
    snd (feed._write_blob (C := collaborators) (rev (snd chain250)) fresh_disk).

(** The same files after the first byte of every blob was overwritten. *)
Definition tampered250 : feed.Disk :=
  {| feed.log := feed.log disk250;
     feed.blob_files :=
       map (fun '(k, w) => (k, x5a :: skipn 1 w)) (feed.blob_files disk250) |}.

(** Scenario S5 of the specification: the adjacency
    [0-1, 1-2, 2-3, 1-4, 4-5, 5-6] as [extract_version_tree] builds it,
    the owners of the versions, and two feeds that realise it. *)
Definition S5_tree : dict (list Z) :=
  [(1, [0; 2; 4]); (0, [1]); (2, [1; 3]); (3, [2]); (4, [1; 5]); (5, [4; 6]);
   (6, [5])].

Definition S5_access (F1 F2 : version_util.Feed) : dict version_util.Feed :=
  [(1, F1); (2, F1); (3, F1); (4, F2); (5, F2); (6, F2)].

Definition S5_changes (i : Z) : list version_util.Change :=
  [(i, str_I, [48 + i])].

Definition S5_dep (i : Z) : Z :=
  if i =? 1 then 0 else if i =? 4 then 1 else i - 1.

Definition S5_blob (i : Z) : bytes :=
  match version_util.changes_to_bytes (V := var_int) (S5_changes i) (S5_dep i) with
  | Ok b => b
  | _ => []
  end.

Definition S5_fid2 : bytes := repeat x0c 32.

Definition S5_F2 : version_util.Feed :=
  {| version_util.get_upd_version := Some 4;
     version_util.get_current_version_num := Some 6;
     version_util.get_update_blob := fun i => Ok (S5_blob i);
     version_util.get_parent := None |}.

Definition S5_F1 : version_util.Feed :=
  {| version_util.get_upd_version := Some 1;
     version_util.get_current_version_num := Some 3;
     version_util.get_update_blob := fun i => Ok (S5_blob i);
     version_util.get_parent := Some S5_fid2 |}.

Definition S5_feed_manager : version_util.FeedManager :=
  {| version_util.get_feed :=
       fun fid => if bytes_eqb fid S5_fid2 then Some S5_F2 else None |}.

(** More sample feeds: the packets as values, a feed whose first packet is
    the head of the chain of 250 bytes, a child feed, a feed that announces
    a child, and the collaborators with a blob directory that cannot be
    written. *)
Definition no_packet : feed.Packet :=
  {| feed.pkt_type := []; feed.payload := []; feed.mid := []; feed.wire := [] |}.

Definition packet_of (pkt : option feed.Packet) : feed.Packet :=
  match pkt with
  | Some p => p
  | None => no_packet
  end.

Definition plain : feed.Packet := Eval vm_compute in packet_of plain_pkt.

Definition chained : feed.Feed * feed.Disk :=
  Eval vm_compute in
    let st := after_append (fresh_feed, fresh_disk) (fst chain250) in
    (fst st,
     {| feed.log := feed.log (snd st);
        feed.blob_files := feed.blob_files disk250 |}).

Definition ischild_pkt : option feed.Packet :=
  build (be_digits 4 1) [x02] (repeat x0d 32).

Definition child : feed.Feed * feed.Disk :=
  Eval vm_compute in after_append (fresh_feed, fresh_disk) ischild_pkt.

Definition mkchild_pkt : option feed.Packet :=
  build (be_digits 4 2) [x04] (repeat x0e 32).

Definition with_child : feed.Feed * feed.Disk :=
  Eval vm_compute in after_append one_packet mkchild_pkt.

(** The fresh feed object with another front, and the files after its
    header was rewritten; a file that is too short for a header. *)
Definition moved_front : feed.Feed :=
  feed.set_front fresh_feed 5 (repeat x11 20).

Definition disk_of (r : result feed.Disk) : feed.Disk :=
  match r with
  | Ok d => d
  | _ => fresh_disk
  end.

Definition rewritten : feed.Disk :=
  Eval vm_compute in
    disk_of (feed._update_header moved_front fresh_disk).

Definition short_disk : feed.Disk :=
  {| feed.log := repeat x2a 10; feed.blob_files := [] |}.

Definition short_rewritten : feed.Disk :=
  Eval vm_compute in
    disk_of (feed._update_header moved_front short_disk).

End Sample.

(* ================================================================== *)
(** * Properties *)

(** ** Lists, slices and lines *)

Lemma for_each_app {A S : Type} (xs ys : list A) (body : S -> A -> result S) (st : S) :
  for_each (xs ++ ys) body st = (st' <- for_each xs body st ;; for_each ys body st').
Proof.
  revert st. induction xs as [|x xs IH]; intros st; simpl.
  - reflexivity.
  - destruct (body st x); simpl; auto.
Qed.

Lemma split_lines_nonempty (s : str) : split_lines s <> [].
Proof.
  destruct s as [|c s]; simpl; [discriminate|].
  destruct (c =? newline); [discriminate|].
  destruct (split_lines s); discriminate.
Qed.

Lemma join_split_lines (s : str) : join_lines (split_lines s) = s.
Proof.
  induction s as [|c s IH]; simpl; [reflexivity|].
  destruct (c =? newline) eqn:E.
  - apply Z.eqb_eq in E. subst c.
    pose proof (split_lines_nonempty s) as Hne.
    destruct (split_lines s) as [|l ls]; [contradiction|].
    simpl. simpl in IH. rewrite IH. reflexivity.
  - pose proof (split_lines_nonempty s) as Hne.
    destruct (split_lines s) as [|l ls]; [contradiction|].
    destruct ls as [|l' ls]; simpl in *; rewrite <- IH; reflexivity.
Qed.

Lemma str_eqb_eq (a b : str) : str_eqb a b = true <-> a = b.
Proof. unfold str_eqb. destruct (str_eq_dec a b); split; congruence. Qed.

(** Inserting at the end of a prefix [p], and deleting there. *)
Lemma insert_at_prefix {A : Type} (p l : list A) (x : A) :
  Py.insert (p ++ l) (Py.len p) x = p ++ x :: l.
Proof.
  unfold Py.insert, Py.len. rewrite length_app.
  destruct (Z.of_nat (length p) <? 0) eqn:E; [apply Z.ltb_lt in E; lia|].
  rewrite Z.min_l by lia. rewrite Nat2Z.id.
  rewrite firstn_app, skipn_app, Nat.sub_diag, firstn_all, skipn_all. simpl.
  rewrite app_nil_r. reflexivity.
Qed.

Lemma skipn_S_prefix {A : Type} (p l : list A) (x : A) :
  skipn (S (length p)) (p ++ x :: l) = l.
Proof. induction p as [|y p IH]; simpl; auto. Qed.

Lemma firstn_prefix {A : Type} (p l : list A) :
  firstn (length p) (p ++ l) = p.
Proof. induction p as [|y p IH]; simpl; [destruct l|]; congruence. Qed.

Lemma skipn_prefix {A : Type} (p l : list A) :
  skipn (length p) (p ++ l) = l.
Proof. induction p as [|y p IH]; simpl; auto. Qed.

Lemma delitem_at_prefix {A : Type} (p l : list A) (x : A) :
  Py.delitem (p ++ x :: l) (Py.len p) = Ok (p ++ l).
Proof.
  unfold Py.delitem, Py.len. rewrite length_app. simpl length.
  destruct (Z.of_nat (length p) <? 0) eqn:E; [apply Z.ltb_lt in E; lia|].
  replace ((0 <=? Z.of_nat (length p)) &&
           (Z.of_nat (length p) <? Z.of_nat (length p + S (length l)))) with true
    by (symmetry; apply andb_true_iff; split; [apply Z.leb_le|apply Z.ltb_lt]; lia).
  rewrite Nat2Z.id, firstn_prefix, skipn_S_prefix. reflexivity.
Qed.

(** ** The line diff: [get_changes], [apply_changes], [reverse_changes] *)

Section diff.
Import version_util.

Lemma reverse_changes_app (c1 c2 : list Change) :
  reverse_changes (c1 ++ c2) = reverse_changes c2 ++ reverse_changes c1.
Proof. unfold reverse_changes. rewrite map_app, rev_app_distr. reflexivity. Qed.

Lemma apply_lines_app (l : list str) (c1 c2 : list Change) :
  apply_lines l (c1 ++ c2) = (l' <- apply_lines l c1 ;; apply_lines l' c2).
Proof. apply for_each_app. Qed.

Lemma transforms_nil (l : list str) : transforms l [] l.
Proof. split; reflexivity. Qed.

Lemma transforms_app (l l1 l2 : list str) (c1 c2 : list Change) :
  transforms l c1 l1 -> transforms l1 c2 l2 -> transforms l (c1 ++ c2) l2.
Proof.
  intros [F1 B1] [F2 B2]. split.
  - rewrite apply_lines_app, F1. exact F2.
  - rewrite reverse_changes_app, apply_lines_app, B2. exact B1.
Qed.

Lemma transforms_delete (p l : list str) (x : str) :
  transforms (p ++ x :: l) [(Py.len p + 1, str_D, x)] (p ++ l).
Proof.
  split; unfold apply_lines, reverse_changes; simpl;
    replace (Py.len p + 1 - 1) with (Py.len p) by lia.
  - rewrite delitem_at_prefix. reflexivity.
  - rewrite insert_at_prefix. reflexivity.
Qed.

Lemma transforms_insert (p l : list str) (x : str) :
  transforms (p ++ l) [(Py.len p + 1, str_I, x)] (p ++ x :: l).
Proof.
  split; unfold apply_lines, reverse_changes; simpl;
    replace (Py.len p + 1 - 1) with (Py.len p) by lia.
  - rewrite insert_at_prefix. reflexivity.
  - rewrite delitem_at_prefix. reflexivity.
Qed.

Lemma len_snoc {A : Type} (p : list A) (x : A) : Py.len (p ++ [x]) = Py.len p + 1.
Proof. unfold Py.len. rewrite length_app. simpl. lia. Qed.

Lemma delete_rest_cons (x : str) (l : list str) (n : Z) (changes : list Change) :
  delete_rest (x :: l) n changes = delete_rest l n (changes ++ [(n, str_D, x)]).
Proof. reflexivity. Qed.

Lemma insert_rest_cons (x : str) (l : list str) (n : Z) (changes : list Change) :
  insert_rest (x :: l) n changes
  = insert_rest l (n + 1) (changes ++ [(n, str_I, x)]).
Proof. reflexivity. Qed.

Lemma delete_rest_spec (old_lines p : list str) (changes : list Change) :
  exists delta,
    delete_rest old_lines (Py.len p + 1) changes = changes ++ delta /\
    transforms (p ++ old_lines) delta p.
Proof.
  revert changes. induction old_lines as [|x old_lines IH]; intros changes.
  - exists []. rewrite !app_nil_r. split; [reflexivity|apply transforms_nil].
  - destruct (IH (changes ++ [(Py.len p + 1, str_D, x)])) as (delta & E & T).
    exists ((Py.len p + 1, str_D, x) :: delta). split.
    + rewrite delete_rest_cons, E, <- app_assoc. reflexivity.
    + change ((Py.len p + 1, str_D, x) :: delta)
        with ([(Py.len p + 1, str_D, x)] ++ delta).
      eapply transforms_app; [apply transforms_delete|exact T].
Qed.

Lemma insert_rest_spec (new_lines p : list str) (changes : list Change) :
  exists delta,
    insert_rest new_lines (Py.len p + 1) changes = changes ++ delta /\
    transforms p delta (p ++ new_lines).
Proof.
  revert p changes. induction new_lines as [|x new_lines IH]; intros p changes.
  - exists []. rewrite !app_nil_r. split; [reflexivity|apply transforms_nil].
  - destruct (IH (p ++ [x]) (changes ++ [(Py.len p + 1, str_I, x)]))
      as (delta & E & T).
    exists ((Py.len p + 1, str_I, x) :: delta). split.
    + rewrite len_snoc in E.
      rewrite insert_rest_cons, E, <- app_assoc. reflexivity.
    + change ((Py.len p + 1, str_I, x) :: delta)
        with ([(Py.len p + 1, str_I, x)] ++ delta).
      eapply transforms_app.
      * pose proof (transforms_insert p [] x) as T0.
        rewrite app_nil_r in T0. exact T0.
      * rewrite <- app_assoc in T. exact T.
Qed.

(** The loop invariant: with [p] the lines already settled (so that
    [line_num = len p + 1]), the changes emitted from here on lead from
    [p ++ old_lines] to [p ++ new_lines], and back when reversed. *)
Lemma get_changes_while_spec (old_lines new_lines p : list str)
  (changes : list Change) :
  exists delta,
    get_changes_finish
      (get_changes_while old_lines new_lines (Py.len p + 1) changes)
    = changes ++ delta /\
    transforms (p ++ old_lines) delta (p ++ new_lines).
Proof.
  revert new_lines p changes.
  induction old_lines as [|old_l old_rest IHo]; intros new_lines p changes.
  - simpl. destruct (insert_rest_spec new_lines p changes) as (delta & E & T).
    exists delta. rewrite app_nil_r. auto.
  - revert p changes.
    induction new_lines as [|new_l new_rest IHn]; intros p changes.
    + simpl. destruct (delete_rest_spec (old_l :: old_rest) p changes)
        as (delta & E & T).
      exists delta. rewrite app_nil_r. auto.
    + simpl. destruct (str_eqb old_l new_l) eqn:Eq.
      * apply str_eqb_eq in Eq. subst new_l.
        destruct (IHo new_rest (p ++ [old_l]) changes) as (delta & E & T).
        rewrite len_snoc in E. exists delta. split; [exact E|].
        rewrite <- !app_assoc in T. exact T.
      * destruct (negb (str_in old_l new_rest)).
        -- destruct (IHo (new_l :: new_rest) p
                       (changes ++ [(Py.len p + 1, str_D, old_l)]))
             as (delta & E & T).
           exists ([(Py.len p + 1, str_D, old_l)] ++ delta). split.
           ++ rewrite E, <- app_assoc. reflexivity.
           ++ eapply transforms_app; [apply transforms_delete|exact T].
        -- destruct (IHn (p ++ [new_l])
                       (changes ++ [(Py.len p + 1, str_I, new_l)]))
             as (delta & E & T).
           exists ([(Py.len p + 1, str_I, new_l)] ++ delta). split.
           ++ rewrite len_snoc in E. simpl in E.
              rewrite E, <- app_assoc. reflexivity.
           ++ eapply transforms_app; [apply transforms_insert|].
              rewrite <- !app_assoc in T. exact T.
Qed.

Lemma get_changes_transforms (old_version new_version : str) :
  transforms (split_lines old_version) (get_changes old_version new_version)
    (split_lines new_version).
Proof.
  destruct (get_changes_while_spec (split_lines old_version)
              (split_lines new_version) [] []) as (delta & E & T).
  unfold get_changes. change (Py.len (@nil str) + 1) with 1 in E.
  rewrite E. exact T.
Qed.

End diff.

(** C1. For every pair of texts [old] and [new], applying the diff computed
    by [get_changes] to [old] gives [new]:
    [apply_changes(old, get_changes(old, new)) == new]. *)
Theorem apply_get_changes (old_version new_version : str) :
  version_util.apply_changes old_version
    (version_util.get_changes old_version new_version) = Ok new_version.
Proof.
  unfold version_util.apply_changes.
  destruct (get_changes_transforms old_version new_version) as [F _].
  rewrite F. simpl. rewrite join_split_lines. reflexivity.
Qed.

(** Scenario S4 of the specification: ["a\nb\nc"] against ["a\nB\nc\nd"]. *)
Example get_changes_S4 :
  version_util.get_changes [97; 10; 98; 10; 99] [97; 10; 66; 10; 99; 10; 100]
  = [(2, str_D, [98]); (2, str_I, [66]); (4, str_I, [100])].
Proof. reflexivity. Qed.

(** C5, as stated, fails: the reversed diff applied to the OLD text does not
    give the old text back. With [t = "a\nb"] and [t' = "a"] the diff is
    [(2, "D", "b")], its reversal is [(2, "I", "b")], and applying that to
    [t] gives ["a\nb\nb"]. *)
Lemma reversed_diff_on_old_text_differs :
  version_util.apply_changes [97; 10; 98]
    (version_util.reverse_changes (version_util.get_changes [97; 10; 98] [97]))
  = Ok [97; 10; 98; 10; 98]
  /\ ~ (forall t t' : str,
          version_util.apply_changes t
            (version_util.reverse_changes (version_util.get_changes t t'))
          = Ok t).
Proof.
  split; [reflexivity|].
  intros H. specialize (H [97; 10; 98] [97]). vm_compute in H. discriminate H.
Qed.

(** C5, amended. For every pair of texts [t] and [t'], applying the reversed
    diff to the NEW text [t'] gives the old text [t]:
    [apply_changes(t', reverse_changes(get_changes(t, t'))) == t]. *)
Theorem apply_reverse_get_changes (t t' : str) :
  version_util.apply_changes t'
    (version_util.reverse_changes (version_util.get_changes t t')) = Ok t.
Proof.
  unfold version_util.apply_changes.
  destruct (get_changes_transforms t t') as [_ B].
  rewrite B. simpl. rewrite join_split_lines. reflexivity.
Qed.

(** ** Bytes, big-endian integers and UTF-8 *)

Lemma byte_val_of (z : Z) : 0 <= z < 256 -> byte_val (byte_of z) = z.
Proof.
  intros Hz. unfold byte_val, byte_of.
  destruct (Byte.of_N (Z.to_N z)) as [b|] eqn:E.
  - apply Byte.to_of_N in E. rewrite E. lia.
  - apply Byte.of_N_None_iff in E. lia.
Qed.

Lemma byte_val_range (b : byte) : 0 <= byte_val b < 256.
Proof.
  unfold byte_val. pose proof (Byte.to_N_bounded b). lia.
Qed.

Lemma int_from_bytes_big_snoc (b : bytes) (x : byte) :
  int_from_bytes_big (b ++ [x]) = int_from_bytes_big b * 256 + byte_val x.
Proof. unfold int_from_bytes_big. rewrite fold_left_app. reflexivity. Qed.

Lemma int_from_be_digits (n : nat) (z : Z) :
  0 <= z < 256 ^ Z.of_nat n -> int_from_bytes_big (be_digits n z) = z.
Proof.
  revert z. induction n as [|n IH]; intros z Hz.
  - simpl in *. unfold int_from_bytes_big. simpl. lia.
  - cbn [be_digits]. rewrite int_from_bytes_big_snoc.
    rewrite Nat2Z.inj_succ, Z.pow_succ_r in Hz by lia.
    rewrite IH.
    + rewrite byte_val_of by (apply Z.mod_pos_bound; lia).
      pose proof (Z.div_mod z 256). lia.
    + split; [apply Z.div_pos; lia|].
      apply Z.div_lt_upper_bound; lia.
Qed.

Lemma length_be_digits (n : nat) (z : Z) : length (be_digits n z) = n.
Proof.
  revert z. induction n as [|n IH]; intros z; simpl; [reflexivity|].
  rewrite length_app, IH. simpl. lia.
Qed.

Ltac zbool :=
  repeat match goal with
    | |- context [?a <? ?b] =>
        let E := fresh "E" in
        destruct (Z.ltb_spec a b) as [E|E]; try lia
    | |- context [?a <=? ?b] =>
        let E := fresh "E" in
        destruct (Z.leb_spec a b) as [E|E]; try lia
    end.

Lemma utf8_char_roundtrip (c : char) :
  scalar_value c ->
  exists e, utf8_encode_char c = Ok e /\ e <> [] /\
            forall rest, utf8_decode (e ++ rest)
                         = (s <- utf8_decode rest ;; Ok (c :: s)).
Proof.
  intros Hc. unfold utf8_encode_char, scalar_value in *.
  assert (0 <= c mod 64 < 64) by (apply Z.mod_pos_bound; lia).
  assert (0 <= (c / 64) mod 64 < 64) by (apply Z.mod_pos_bound; lia).
  assert (0 <= (c / 4096) mod 64 < 64) by (apply Z.mod_pos_bound; lia).
  assert (Hd1 : c / 4096 = c / 64 / 64)
    by (rewrite Z.div_div by lia; reflexivity).
  assert (Hd2 : c / 262144 = c / 4096 / 64)
    by (rewrite Z.div_div by lia; reflexivity).
  pose proof (Z.div_mod c 64) as M1.
  pose proof (Z.div_mod (c / 64) 64) as M2.
  pose proof (Z.div_mod (c / 4096) 64) as M3.
  destruct (Z.ltb_spec c 0); [lia|].
  destruct (Z.ltb_spec c 128).
  { eexists; split; [reflexivity|]. split; [discriminate|]. intros rest.
    cbn [app utf8_decode]. rewrite byte_val_of by lia.
    zbool. reflexivity. }
  destruct (Z.ltb_spec c 2048).
  { eexists; split; [reflexivity|]. split; [discriminate|]. intros rest.
    cbn [app utf8_decode]. unfold is_cont, cont_bits.
    rewrite !byte_val_of by lia.
    replace ((192 + c / 64 - 192) * 64 + (128 + c mod 64 - 128)) with c by lia.
    zbool. reflexivity. }
  destruct (Z.ltb_spec c 65536).
  { replace ((55296 <=? c) && (c <=? 57343)) with false
      by (zbool; reflexivity).
    eexists; split; [reflexivity|]. split; [discriminate|]. intros rest.
    cbn [app utf8_decode]. unfold is_cont, cont_bits.
    rewrite !byte_val_of by lia.
    replace ((224 + c / 4096 - 224) * 4096 + (128 + (c / 64) mod 64 - 128) * 64
             + (128 + c mod 64 - 128)) with c by lia.
    zbool; reflexivity. }
  destruct (Z.ltb_spec c 1114112); [|lia].
  eexists; split; [reflexivity|]. split; [discriminate|]. intros rest.
  cbn [app utf8_decode]. unfold is_cont, cont_bits.
  rewrite !byte_val_of by lia.
  replace ((240 + c / 262144 - 240) * 262144
           + (128 + (c / 4096) mod 64 - 128) * 4096
           + (128 + (c / 64) mod 64 - 128) * 64 + (128 + c mod 64 - 128))
    with c by lia.
  zbool; reflexivity.
Qed.

Lemma utf8_roundtrip_app (s : str) (rest : bytes) :
  Forall scalar_value s ->
  exists e, utf8_encode s = Ok e /\
            utf8_decode (e ++ rest) = (t <- utf8_decode rest ;; Ok (s ++ t)).
Proof.
  induction 1 as [|c s Hc Hs IH].
  - exists []. split; [reflexivity|]. simpl. destruct (utf8_decode rest); reflexivity.
  - destruct IH as (es & Ees & Des).
    destruct (utf8_char_roundtrip c Hc) as (e & Ee & _ & De).
    exists (e ++ es). split.
    + cbn [utf8_encode]. rewrite Ee, Ees. reflexivity.
    + rewrite <- app_assoc, De, Des.
      destruct (utf8_decode rest); reflexivity.
Qed.

Lemma utf8_roundtrip (s : str) :
  Forall scalar_value s ->
  exists e, utf8_encode s = Ok e /\ utf8_decode e = Ok s.
Proof.
  intros Hs. destruct (utf8_roundtrip_app s [] Hs) as (e & Ee & De).
  exists e. split; [exact Ee|].
  rewrite app_nil_r in De. rewrite De. simpl. rewrite app_nil_r. reflexivity.
Qed.

Lemma slice_from_len_app {A : Type} (a b : list A) :
  Py.slice_from (a ++ b) (Py.len a) = b.
Proof.
  unfold Py.slice_from, Py.len.
  destruct (Z.ltb_spec (Z.of_nat (length a)) 0); [lia|].
  rewrite Nat2Z.id. apply skipn_prefix.
Qed.

Lemma slice_to_len_app {A : Type} (a b : list A) :
  Py.slice_to (a ++ b) (Py.len a) = a.
Proof.
  unfold Py.slice_to, Py.len.
  destruct (Z.ltb_spec (Z.of_nat (length a)) 0); [lia|].
  rewrite Nat2Z.id. apply firstn_prefix.
Qed.

Lemma getitem_len_app {A : Type} (a b : list A) (x : A) :
  Py.getitem (a ++ x :: b) (Py.len a) = Ok x.
Proof.
  unfold Py.getitem, Py.len.
  destruct (Z.ltb_spec (Z.of_nat (length a)) 0); [lia|].
  destruct (Z.ltb_spec (Z.of_nat (length a)) 0); [lia|].
  rewrite Nat2Z.id, nth_error_app2, Nat.sub_diag by lia. reflexivity.
Qed.

(** ** The sample varint codec is lawful *)

Lemma base128_roundtrip (fuel : nat) (n : Z) (rest : bytes) :
  0 <= n < 128 * 128 ^ Z.of_nat fuel ->
  Sample.unbase128 (Sample.base128 fuel n ++ rest)
  = Ok (n, Py.len (Sample.base128 fuel n)).
Proof.
  revert n. induction fuel as [|fuel IH]; intros n Hn.
  - simpl in *. rewrite byte_val_of by lia.
    destruct (Z.ltb_spec n 128); [reflexivity|lia].
  - cbn [Sample.base128]. destruct (Z.ltb_spec n 128).
    + simpl. rewrite byte_val_of by lia.
      destruct (Z.ltb_spec n 128); [reflexivity|lia].
    + rewrite Nat2Z.inj_succ, Z.pow_succ_r in Hn by lia.
      assert (0 <= n mod 128 < 128) by (apply Z.mod_pos_bound; lia).
      cbn [app Sample.unbase128]. rewrite byte_val_of by lia.
      destruct (Z.ltb_spec (128 + n mod 128) 128); [lia|].
      rewrite IH.
      * cbn [bind]. f_equal. f_equal.
        -- pose proof (Z.div_mod n 128). lia.
        -- unfold Py.len. cbn [length]. lia.
      * split; [apply Z.div_pos; lia|apply Z.div_lt_upper_bound; lia].
Qed.

Lemma sample_var_int_lawful : var_int_lawful Sample.var_int.
Proof.
  intros n Hn. cbn [to_var_int from_var_int Sample.var_int].
  destruct (Z.ltb_spec n 0); [lia|].
  eexists. split; [reflexivity|]. intros rest.
  apply base128_roundtrip. split; [lia|].
  assert (Hl : 0 <= Z.log2 n) by apply Z.log2_nonneg.
  rewrite Z2Nat.id by exact Hl.
  assert (n < 2 * 2 ^ Z.log2 n).
  { destruct (Z.eq_dec n 0) as [->|]; [simpl; lia|].
    pose proof (Z.log2_spec n ltac:(lia)) as [_ Hu].
    rewrite Z.pow_succ_r in Hu by exact Hl. exact Hu. }
  assert (2 ^ Z.log2 n <= 128 ^ Z.log2 n) by (apply Z.pow_le_mono_l; lia).
  lia.
Qed.

(** ** The diff codec: [changes_to_bytes] and [bytes_to_changes] *)

Section diff_codec.
Import version_util.
Context {V : VarInt}.
Hypothesis lawful : var_int_lawful V.

(** One record: what [encode_change] appends, and one round of the
    decoding loop reads it back. *)
Lemma encode_change_spec (change : Change) :
  change_ok ascii_op change ->
  exists rec,
    rec <> [] /\
    (forall b, encode_change b change = Ok (b ++ rec)) /\
    (forall fuel rest operations,
        bytes_to_changes_while (S fuel) (rec ++ rest) operations
        = bytes_to_changes_while fuel rest (operations ++ [change])).
Proof.
  destruct change as [[i op] ln]. intros (Hi & (c & -> & Hc) & Hln).
  destruct (lawful i Hi) as (vi & Evi & Dvi).
  destruct (utf8_roundtrip ln Hln) as (ln_b & Eln & Dln).
  set (b_change := vi ++ [byte_of c] ++ ln_b).
  destruct (lawful (Py.len b_change)) as (vl & Evl & Dvl);
    [unfold Py.len; lia|].
  assert (Eop : utf8_encode [c] = Ok [byte_of c]).
  { cbn [utf8_encode]. unfold utf8_encode_char.
    destruct (Z.ltb_spec c 0); [lia|].
    destruct (Z.ltb_spec c 128); [reflexivity|lia]. }
  exists (vl ++ b_change). split; [|split].
  - unfold b_change. destruct vl, vi; discriminate.
  - intros b. unfold encode_change. rewrite Evi. cbn [bind].
    rewrite Eop. cbn [bind]. rewrite Eln. cbn [bind].
    fold b_change. rewrite Evl. reflexivity.
  - intros fuel rest operations.
    assert (Hne : exists x tl, (vl ++ b_change) ++ rest = x :: tl).
    { unfold b_change. destruct vl; [destruct vi|]; simpl; eauto. }
    destruct Hne as (x & tl & Hne).
    cbn [bytes_to_changes_while]. rewrite Hne, <- Hne.
    rewrite <- app_assoc, Dvl. cbn [bind].
    rewrite slice_from_len_app, slice_to_len_app, slice_from_len_app.
    unfold b_change at 1. rewrite Dvi. cbn [bind].
    unfold b_change at 1. cbn [app]. rewrite getitem_len_app. cbn [bind].
    unfold b_change. rewrite app_assoc.
    rewrite <- (len_snoc vi (byte_of c)), slice_from_len_app, Dln. cbn [bind].
    rewrite byte_val_of by lia. reflexivity.
Qed.

Lemma encode_changes_spec (changes : list Change) :
  Forall (change_ok ascii_op) changes ->
  exists recs,
    (length changes <= length recs)%nat /\
    (forall b, for_each changes encode_change b = Ok (b ++ recs)) /\
    (forall fuel operations,
        (length changes <= fuel)%nat ->
        bytes_to_changes_while fuel recs operations
        = Ok (operations ++ changes)).
Proof.
  induction 1 as [|change changes Hc Hcs IH].
  - exists []. split; [simpl; lia|]. split.
    + intros b. rewrite app_nil_r. reflexivity.
    + intros fuel operations _. rewrite app_nil_r.
      destruct fuel; reflexivity.
  - destruct IH as (recs & Hlen & Henc & Hdec).
    destruct (encode_change_spec change Hc) as (rec & Hne & Erec & Drec).
    exists (rec ++ recs). split; [|split].
    + rewrite length_app. destruct rec; [contradiction|]. simpl. lia.
    + intros b. cbn [for_each]. rewrite Erec. cbn [bind].
      rewrite Henc, <- app_assoc. reflexivity.
    + intros fuel operations Hfuel. destruct fuel as [|fuel]; [simpl in Hfuel; lia|].
      rewrite Drec, Hdec by (simpl in Hfuel; lia).
      rewrite <- app_assoc. reflexivity.
Qed.

Lemma codec_roundtrip (changes : list Change) (dependency : Z) :
  Forall (change_ok ascii_op) changes ->
  0 <= dependency < 2 ^ 32 ->
  exists b,
    changes_to_bytes changes dependency = Ok b /\
    bytes_to_changes b = Ok (changes, dependency).
Proof.
  intros Hcs Hd.
  destruct (encode_changes_spec changes Hcs) as (recs & Hlen & Henc & Hdec).
  exists (be_digits 4 dependency ++ recs). split.
  - unfold changes_to_bytes, int_to_bytes_big.
    replace ((0 <=? dependency) && (dependency <? 256 ^ Z.of_nat 4)) with true
      by (symmetry; apply andb_true_iff; split;
          [apply Z.leb_le|apply Z.ltb_lt]; change (256 ^ Z.of_nat 4) with (2 ^ 32); lia).
    cbn [bind]. apply Henc.
  - unfold bytes_to_changes.
    assert (H4 : Py.len (be_digits 4 dependency) = 4)
      by (unfold Py.len; rewrite length_be_digits; reflexivity).
    rewrite <- H4 at 1 2.
    rewrite slice_to_len_app, slice_from_len_app.
    rewrite Hdec by exact Hlen. cbn [bind app].
    rewrite int_from_be_digits; [reflexivity|].
    change (256 ^ Z.of_nat 4) with (2 ^ 32). lia.
Qed.

(** C7, amended. Decoding inverts encoding: for every change list whose
    tuples have a line number that is not negative, an operation of one
    ASCII character (as ["I"] and ["D"] are) and a line that UTF-8 can
    encode, and for every dependency [0 <= d < 2^32],
    [bytes_to_changes(changes_to_bytes(cs, d)) == (cs, d)]; hence
    re-encoding the decoding of such an encoded diff [b] gives bytes of the
    length of [b]. The varint codec is any lawful one. *)
Theorem bytes_to_changes_to_bytes (changes : list Change) (dependency : Z) :
  Forall (change_ok ascii_op) changes ->
  0 <= dependency < 2 ^ 32 ->
  exists b,
    changes_to_bytes changes dependency = Ok b /\
    bytes_to_changes b = Ok (changes, dependency) /\
    exists b',
      ('(cs, d) <- bytes_to_changes b ;; changes_to_bytes cs d) = Ok b' /\
      length b' = length b.
Proof.
  intros Hcs Hd.
  destruct (codec_roundtrip changes dependency Hcs Hd) as (b & Eb & Db).
  exists b. split; [exact Eb|]. split; [exact Db|].
  exists b. rewrite Db. cbn [bind]. split; [exact Eb|reflexivity].
Qed.

(** With any lawful varint codec, an operation of one character that takes
    two bytes is not read back: decoding raises. *)
Lemma two_byte_op_raises :
  exists b,
    changes_to_bytes [(1, [233], [])] 0 = Ok b /\
    bytes_to_changes b = Raise UnicodeError.
Proof.
  destruct (lawful 1 ltac:(lia)) as (vi & Evi & Dvi).
  set (b_change := vi ++ [xc3; xa9] ++ []).
  destruct (lawful (Py.len b_change)) as (vl & Evl & Dvl);
    [unfold Py.len; lia|].
  exists (be_digits 4 0 ++ vl ++ b_change). split.
  - unfold changes_to_bytes. cbn [int_to_bytes_big Z.leb Z.ltb andb bind].
    cbn [for_each encode_change]. rewrite Evi. cbn [bind].
    change (utf8_encode [233]) with (@Ok bytes [xc3; xa9]).
    change (utf8_encode []) with (@Ok bytes []). cbn [bind].
    fold b_change. rewrite Evl. reflexivity.
  - unfold bytes_to_changes.
    pose proof (slice_to_len_app (be_digits 4 0) (vl ++ b_change)) as S1.
    pose proof (slice_from_len_app (be_digits 4 0) (vl ++ b_change)) as S2.
    change (Py.len (be_digits 4 0)) with 4 in S1, S2. rewrite S1, S2.
    assert (Hne : exists x tl, vl ++ b_change = x :: tl).
    { unfold b_change. destruct vl; [destruct vi|]; simpl; eauto. }
    destruct Hne as (x & tl & Hne).
    rewrite Hne. cbn [length bytes_to_changes_while]. rewrite <- Hne.
    rewrite Dvl. cbn [bind].
    rewrite slice_from_len_app.
    pose proof (slice_to_len_app b_change []) as S3.
    rewrite app_nil_r in S3. rewrite !S3.
    unfold b_change at 1. rewrite Dvi. cbn [bind].
    unfold b_change at 1. cbn [app]. rewrite getitem_len_app. cbn [bind].
    unfold b_change. cbn [app].
    change (vi ++ [xc3; xa9]) with (vi ++ [xc3] ++ [xa9]).
    rewrite app_assoc, <- (len_snoc vi xc3), slice_from_len_app.
    reflexivity.
Qed.

Lemma slice_split_shrinks {A : Type} (l : list A) (j : Z) :
  Py.slice_to l j <> [] ->
  (length (Py.slice_from l j) < length l)%nat.
Proof.
  unfold Py.slice_to, Py.slice_from. intros H.
  destruct (j <? 0).
  - destruct (Z.to_nat (Py.len l + j)) as [|k]; [contradiction H; reflexivity|].
    destruct l; [contradiction H; reflexivity|].
    rewrite length_skipn. cbn [length]. lia.
  - destruct (Z.to_nat j) as [|k]; [contradiction H; reflexivity|].
    destruct l; [contradiction H; reflexivity|].
    rewrite length_skipn. cbn [length]. lia.
Qed.

Lemma slice_from_length {A : Type} (l : list A) (i : Z) :
  (length (Py.slice_from l i) <= length l)%nat.
Proof.
  unfold Py.slice_from. destruct (i <? 0); rewrite length_skipn; lia.
Qed.

Lemma getitem_nonempty {A : Type} (l : list A) (i : Z) (x : A) :
  Py.getitem l i = Ok x -> l <> [].
Proof.
  intros H ->. unfold Py.getitem in H.
  destruct (_ <? 0); [discriminate H|].
  destruct (Z.to_nat _); discriminate H.
Qed.

Lemma utf8_decode_returns (b : bytes) : utf8_decode b <> OutOfFuel.
Proof.
  assert (H : forall n b, (length b <= n)%nat -> utf8_decode b <> OutOfFuel).
  { clear b. induction n as [|n IH]; intros b Hb.
    - destruct b; [discriminate|simpl in Hb; lia].
    - destruct b as [|b0 r0]; [discriminate|]. cbn [length] in Hb.
      cbn [utf8_decode].
      repeat match goal with
             | |- (if ?c then _ else _) <> _ => destruct c
             | |- Raise _ <> _ => discriminate
             | |- match ?r with [] => _ | _ :: _ => _ end <> _ =>
                 destruct r; cbn [length] in Hb
             | |- bind (utf8_decode ?r) _ <> _ =>
                 let E := fresh "E" in
                 pose proof (IH r ltac:(lia)) as E;
                 destruct (utf8_decode r); [discriminate|discriminate|contradiction]
             end. }
  apply (H (length b)). lia.
Qed.

(** Decoding returns or raises whenever the varint decoder does: the length
    of the input is enough fuel for the loop. *)
Hypothesis from_var_int_returns : forall b, from_var_int b <> OutOfFuel.

Lemma bytes_to_changes_while_returns (fuel : nat) :
  forall (changes : bytes) (operations : list Change),
    (length changes <= fuel)%nat ->
    bytes_to_changes_while fuel changes operations <> OutOfFuel.
Proof.
  induction fuel as [|fuel IH]; intros changes operations Hlen.
  - destruct changes; [discriminate|simpl in Hlen; lia].
  - destruct changes as [|x tl]; [discriminate|].
    cbn [bytes_to_changes_while].
    pose proof (from_var_int_returns (x :: tl)) as R1.
    destruct (from_var_int (x :: tl)) as [[size size_b]| |];
      cbn [bind]; [|discriminate|contradiction].
    set (c1 := Py.slice_from (x :: tl) size_b).
    pose proof (from_var_int_returns (Py.slice_to c1 size)) as R2.
    destruct (from_var_int (Py.slice_to c1 size)) as [[line_num num_b]| |];
      cbn [bind]; [|discriminate|contradiction].
    destruct (Py.getitem (Py.slice_to c1 size) num_b) as [c| |] eqn:G;
      cbn [bind]; [|discriminate|].
    + pose proof (utf8_decode_returns
                    (Py.slice_from (Py.slice_to c1 size) (num_b + 1))) as R3.
      destruct (utf8_decode _); cbn [bind]; [|discriminate|contradiction].
      apply IH.
      pose proof (slice_split_shrinks c1 size (getitem_nonempty _ _ _ G)).
      pose proof (slice_from_length (x :: tl) size_b). fold c1 in H0. lia.
    + exfalso. unfold Py.getitem in G.
      destruct (_ <? 0); [discriminate G|].
      destruct (nth_error _ _); discriminate G.
Qed.

Lemma bytes_to_changes_returns (b : bytes) : bytes_to_changes b <> OutOfFuel.
Proof.
  unfold bytes_to_changes.
  pose proof (bytes_to_changes_while_returns
                (length (Py.slice_from b 4)) (Py.slice_from b 4) []
                ltac:(lia)) as R.
  destruct (bytes_to_changes_while _ _ _); cbn [bind];
    [discriminate|discriminate|contradiction].
Qed.

End diff_codec.

Lemma bytes_to_changes_to_bytes_witness :
  exists b,
    version_util.changes_to_bytes (V := Sample.var_int)
      [(2, str_D, [98]); (2, str_I, [66]); (4, str_I, [100])] 1 = Ok b /\
    version_util.bytes_to_changes (V := Sample.var_int) b
    = Ok ([(2, str_D, [98]); (2, str_I, [66]); (4, str_I, [100])], 1) /\
    exists b',
      ('(cs, d) <- version_util.bytes_to_changes (V := Sample.var_int) b ;;
       version_util.changes_to_bytes (V := Sample.var_int) cs d) = Ok b' /\
      length b' = length b.
Proof.
  apply (bytes_to_changes_to_bytes (V := Sample.var_int) sample_var_int_lawful).
  - repeat constructor; try (eexists; split; [reflexivity|lia]);
      unfold scalar_value; lia.
  - lia.
Defined.

(** C7, as stated, fails for an operation that is one character but not one
    byte: ["\u00e9"] is encoded in two bytes, [bytes_to_changes] takes the
    first of them for the operation and the second for the start of the
    line, which is not valid UTF-8. *)
Lemma one_char_op_not_decoded :
  version_util.changes_to_bytes (V := Sample.var_int) [(1, [233], [])] 0
  = Ok [x00; x00; x00; x00; x03; x01; xc3; xa9]
  /\ version_util.bytes_to_changes (V := Sample.var_int)
       [x00; x00; x00; x00; x03; x01; xc3; xa9]
     = Raise UnicodeError
  /\ ~ (forall (V : VarInt), var_int_lawful V ->
        forall (cs : list version_util.Change) (d : Z),
          Forall (version_util.change_ok version_util.one_char_op) cs ->
          0 <= d < 2 ^ 32 ->
          (b <- version_util.changes_to_bytes cs d ;;
           version_util.bytes_to_changes b) = Ok (cs, d)).
Proof.
  split; [reflexivity|]. split; [reflexivity|].
  intros H.
  specialize (H Sample.var_int sample_var_int_lawful [(1, [233], [])] 0).
  assert (Hok : Forall (version_util.change_ok version_util.one_char_op)
                  [(1, [233], [])]).
  { repeat constructor; try lia.
    exists 233. split; [reflexivity|]. unfold scalar_value. lia. }
  specialize (H Hok ltac:(lia)). vm_compute in H. discriminate H.
Qed.


(** ** Version jumps *)

Section jump_S5.
Import version_util.
Context {V : VarInt}.

Lemma bytes_to_changes_dependency (b : bytes) (cs : list Change) (d : Z) :
  bytes_to_changes b = Ok (cs, d) -> int_from_bytes_big (Py.slice_to b 4) = d.
Proof.
  unfold bytes_to_changes.
  destruct (bytes_to_changes_while _ _ _); cbn [bind]; congruence.
Qed.

(** Scenario S5: feed [F1] carries versions 1 to 3, its parent [F2]
    versions 4 to 6; version [i] has update blob [blob i], which decodes
    to the changes [ch i] and depends on [0, 1, 2, 1, 4, 5] for
    [i = 1 .. 6]. *)
Variables (F1 F2 : Feed) (feed_manager : FeedManager) (fid2 : bytes).
Variables (blob : Z -> bytes) (ch : Z -> list Change).

Hypothesis F1_min : get_upd_version F1 = Some 1.
Hypothesis F1_max : get_current_version_num F1 = Some 3.
Hypothesis F1_parent : get_parent F1 = Some fid2.
Hypothesis F2_known : get_feed feed_manager fid2 = Some F2.
Hypothesis F2_min : get_upd_version F2 = Some 4.
Hypothesis F2_max : get_current_version_num F2 = Some 6.
Hypothesis F2_parent : get_parent F2 = None.
Hypothesis F1_blobs : forall i, 1 <= i <= 3 -> get_update_blob F1 i = Ok (blob i).
Hypothesis F2_blobs : forall i, 4 <= i <= 6 -> get_update_blob F2 i = Ok (blob i).
Hypothesis blob1 : bytes_to_changes (blob 1) = Ok (ch 1, 0).
Hypothesis blob2 : bytes_to_changes (blob 2) = Ok (ch 2, 1).
Hypothesis blob3 : bytes_to_changes (blob 3) = Ok (ch 3, 2).
Hypothesis blob4 : bytes_to_changes (blob 4) = Ok (ch 4, 1).
Hypothesis blob5 : bytes_to_changes (blob 5) = Ok (ch 5, 4).
Hypothesis blob6 : bytes_to_changes (blob 6) = Ok (ch 6, 5).

Lemma S5_extract_access (fuel : nat) :
  extract_access (S (S fuel)) feed_manager F1 [] (-1)
  = Ok (Sample.S5_access F1 F2, 6).
Proof.
  cbn [extract_access].
  rewrite F1_min, F1_max, F1_parent, F2_known, F2_min, F2_max, F2_parent.
  reflexivity.
Qed.

Lemma S5_extract (fuel : nat) :
  (2 <= fuel)%nat ->
  extract_version_tree fuel F1 feed_manager
  = Ok (Sample.S5_tree, Sample.S5_access F1 F2).
Proof.
  intros Hf. destruct fuel as [|[|fuel]]; try lia.
  unfold extract_version_tree. rewrite S5_extract_access. cbn [bind].
  change (Py.range 1 (6 + 1)) with [1; 2; 3; 4; 5; 6].
  cbn [for_each].
  change (dict_getitem (Sample.S5_access F1 F2) 1) with (Ok F1).
  change (dict_getitem (Sample.S5_access F1 F2) 2) with (Ok F1).
  change (dict_getitem (Sample.S5_access F1 F2) 3) with (Ok F1).
  change (dict_getitem (Sample.S5_access F1 F2) 4) with (Ok F2).
  change (dict_getitem (Sample.S5_access F1 F2) 5) with (Ok F2).
  change (dict_getitem (Sample.S5_access F1 F2) 6) with (Ok F2).
  cbn [bind].
  rewrite !F1_blobs, !F2_blobs by lia. cbn [bind].
  rewrite (bytes_to_changes_dependency _ _ _ blob1).
  rewrite (bytes_to_changes_dependency _ _ _ blob2).
  rewrite (bytes_to_changes_dependency _ _ _ blob3).
  rewrite (bytes_to_changes_dependency _ _ _ blob4).
  rewrite (bytes_to_changes_dependency _ _ _ blob5).
  rewrite (bytes_to_changes_dependency _ _ _ blob6).
  reflexivity.
Qed.

Lemma S5_path (fuel : nat) :
  (7 <= fuel)%nat -> _dfs fuel Sample.S5_tree 3 6 = Ok [3; 2; 1; 4; 5; 6].
Proof.
  intros Hf. do 7 (destruct fuel as [|fuel]; [lia|]). reflexivity.
Qed.

Lemma S5_collect (f : list Change -> list Change) (path : list Z)
  (all_changes : list Change) :
  Forall (fun v => 1 <= v <= 6) path ->
  collect (Sample.S5_access F1 F2) f path all_changes
  = Ok (all_changes ++ concat (map (fun v => f (ch v)) path)).
Proof.
  intros Hp. revert all_changes.
  induction Hp as [|v path Hv Hp IH]; intros all_changes.
  - cbn. rewrite app_nil_r. reflexivity.
  - unfold collect in *. cbn [for_each map concat].
    assert (Hstep : (access_feed <- dict_getitem (Sample.S5_access F1 F2) v ;;
                     blob <- get_update_blob access_feed v ;;
                     '(changes, _) <- bytes_to_changes blob ;;
                     Ok (all_changes ++ f changes))
                    = Ok (all_changes ++ f (ch v))).
    { assert (Hc : v = 1 \/ v = 2 \/ v = 3 \/ v = 4 \/ v = 5 \/ v = 6) by lia.
      destruct Hc as [-> | [-> | [-> | [-> | [-> | ->]]]]];
        cbn [dict_getitem dict_get Sample.S5_access Z.eqb Pos.eqb bind];
        rewrite ?F1_blobs, ?F2_blobs by lia; cbn [bind];
        rewrite ?blob1, ?blob2, ?blob3, ?blob4, ?blob5, ?blob6; reflexivity. }
    rewrite Hstep. cbn [bind]. rewrite IH, <- app_assoc. reflexivity.
Qed.

(** C2. In scenario S5, [jump_versions(3, 6)] finds the path
    [3, 2, 1, 4, 5, 6] and returns, in this order, the reversed changes of
    version 3, the reversed changes of version 2, nothing for the pivot 1,
    and the changes of versions 4, 5 and 6. *)
Theorem jump_versions_S5 (fuel : nat) :
  (7 <= fuel)%nat ->
  extract_version_tree fuel F1 feed_manager
  = Ok (Sample.S5_tree, Sample.S5_access F1 F2) /\
  _dfs fuel Sample.S5_tree 3 6 = Ok [3; 2; 1; 4; 5; 6] /\
  jump_versions fuel 3 6 F1 feed_manager
  = Ok (reverse_changes (ch 3) ++ reverse_changes (ch 2)
        ++ ch 4 ++ ch 5 ++ ch 6).
Proof.
  intros Hf. split; [apply S5_extract; lia|]. split; [apply S5_path; exact Hf|].
  unfold jump_versions. cbn [Z.eqb Pos.eqb].
  rewrite S5_extract by lia. cbn [bind].
  change (Py.max (dict_keys (Sample.S5_access F1 F2))) with (@Ok Z 6). cbn [bind].
  change ((3 >? 6) || (6 >? 6)) with false. cbv iota.
  rewrite S5_path by exact Hf. cbn [bind].
  change (mono_inc [3; 2; 1; 4; 5; 6]) with false.
  change (mono_dec [3; 2; 1; 4; 5; 6]) with false. cbv iota.
  change (takewhile (fun lst => negb (mono_inc lst)) [3; 2; 1; 4; 5; 6])
    with [3; 2].
  change (Py.slice_from [3; 2; 1; 4; 5; 6] (Py.len [3; 2] + 1))
    with [4; 5; 6].
  cbv zeta.
  rewrite S5_collect by (repeat constructor; lia). cbn [bind].
  rewrite S5_collect by (repeat constructor; lia).
  cbn [map concat app]. rewrite !app_nil_r, <- !app_assoc. reflexivity.
Qed.

End jump_S5.

(** ** The feed: reading *)

Section feed_read.
Import feed.
Context {C : Collaborators} {V : VarInt}.

Lemma int_to_bytes_big_ok (n : nat) (z : Z) :
  0 <= z < 256 ^ Z.of_nat n -> int_to_bytes_big n z = Ok (be_digits n z).
Proof.
  intros Hz. unfold int_to_bytes_big.
  destruct (Z.leb_spec 0 z); [|lia].
  destruct (Z.ltb_spec z (256 ^ Z.of_nat n)); [reflexivity|lia].
Qed.

Lemma int_to_bytes_big_cases (n : nat) (z : Z) :
  int_to_bytes_big n z = Ok (be_digits n z)
  \/ int_to_bytes_big n z = Raise OverflowError.
Proof.
  unfold int_to_bytes_big.
  destruct ((0 <=? z) && (z <? 256 ^ Z.of_nat n)); auto.
Qed.

Lemma getitem_in_range {A : Type} (l : list A) (i : Z) :
  0 <= i < Py.len l -> exists x, Py.getitem l i = Ok x.
Proof.
  intros Hi. unfold Py.getitem, Py.len in *.
  destruct (Z.ltb_spec i 0); [lia|].
  destruct (Z.ltb_spec i 0); [lia|].
  destruct (nth_error l (Z.to_nat i)) as [x|] eqn:E; [eauto|].
  apply nth_error_None in E. lia.
Qed.

Lemma getitem_out_of_range (self : Feed) (d : Disk) (seq : Z) :
  remap self seq <= anchor_seq self \/ remap self seq > front_seq self ->
  __getitem__ self d seq = Raise IndexError.
Proof.
  intros H. unfold __getitem__. fold (remap self seq).
  replace ((remap self seq >? front_seq self)
           || (remap self seq <=? anchor_seq self)) with true; [reflexivity|].
  symmetry. apply orb_true_iff.
  destruct H; [right; apply Z.leb_le|left; apply Z.gtb_lt]; lia.
Qed.

Lemma getitem_within (self : Feed) (d : Disk) (seq : Z) :
  mids_invariant self ->
  anchor_seq self < remap self seq <= front_seq self ->
  exists prev,
    Py.getitem (_mids self) (remap self seq - anchor_seq self - 1) = Ok prev /\
    __getitem__ self d seq =
      (seq_b <- int_to_bytes_big 4 (remap self seq) ;;
       Ok (pkt_from_bytes (fid self) seq_b prev
             (read_frame d (128 * (remap self seq - anchor_seq self))))).
Proof.
  intros Hm Hr.
  destruct (getitem_in_range (_mids self)
              (remap self seq - anchor_seq self - 1)) as (prev & Hprev).
  { unfold mids_invariant in Hm. lia. }
  exists prev. split; [exact Hprev|].
  unfold __getitem__. fold (remap self seq).
  replace ((remap self seq >? front_seq self)
           || (remap self seq <=? anchor_seq self)) with false.
  - rewrite Hprev.
    destruct (int_to_bytes_big 4 (remap self seq)); reflexivity.
  - symmetry. apply orb_false_iff.
    split; [rewrite Z.gtb_ltb; apply Z.ltb_ge|apply Z.leb_gt]; lia.
Qed.

(** C9. [__getitem__] first remaps a negative [seq] to
    [front_seq + seq + 1] and then raises [IndexError] exactly when the
    remapped [seq] is [<= anchor_seq] or [> front_seq]; on a feed that is
    not empty, [self[-1]] is the packet at sequence [front_seq]. *)
Theorem getitem_bounds (self : Feed) (d : Disk) :
  well_formed self ->
  (forall seq,
      __getitem__ self d seq = Raise IndexError <->
      (remap self seq <= anchor_seq self \/ remap self seq > front_seq self))
  /\ (anchor_seq self < front_seq self ->
      exists prev,
        Py.getitem (_mids self) (front_seq self - anchor_seq self - 1) = Ok prev /\
        __getitem__ self d (-1)
        = Ok (pkt_from_bytes (fid self) (be_digits 4 (front_seq self)) prev
                (read_frame d (128 * (front_seq self - anchor_seq self)))) /\
        __getitem__ self d (-1) = __getitem__ self d (front_seq self)).
Proof.
  intros (Ha & Hf & Hm). split.
  - intros seq. split; [|apply getitem_out_of_range].
    intros Hraise.
    destruct (Z_le_gt_dec (remap self seq) (anchor_seq self)); [auto|].
    destruct (Z_le_gt_dec (remap self seq) (front_seq self)); [|auto].
    destruct (getitem_within self d seq Hm ltac:(lia)) as (prev & _ & E).
    rewrite E in Hraise.
    destruct (int_to_bytes_big_cases 4 (remap self seq)) as [E'|E'];
      rewrite E' in Hraise; discriminate Hraise.
  - intros Hne.
    assert (R1 : remap self (-1) = front_seq self) by (unfold remap; simpl; lia).
    assert (R2 : remap self (front_seq self) = front_seq self).
    { unfold remap. destruct (Z.ltb_spec (front_seq self) 0); [lia|reflexivity]. }
    destruct (getitem_within self d (-1) Hm ltac:(lia)) as (prev & Hp & E1).
    destruct (getitem_within self d (front_seq self) Hm ltac:(lia))
      as (prev' & Hp' & E2).
    rewrite R1 in *. rewrite R2 in *.
    assert (prev' = prev) by congruence. subst prev'.
    exists prev. split; [exact Hp|].
    rewrite E1, E2, int_to_bytes_big_ok
      by (change (256 ^ Z.of_nat 4) with (2 ^ 32); lia).
    split; reflexivity.
Qed.

(** C10. On a feed that holds no packet ([front_seq == anchor_seq]),
    [get_contn] raises [IndexError]: it reads [self[-1]] before it looks at
    any packet kind. *)
Theorem get_contn_empty (self : Feed) (d : Disk) :
  front_seq self = anchor_seq self ->
  get_contn self d = Raise IndexError.
Proof.
  intros He. unfold get_contn.
  rewrite getitem_out_of_range; [reflexivity|].
  left. unfold remap. simpl. lia.
Qed.

End feed_read.

(** ** The feed: appending *)

Section feed_append.
Import feed.
Context {C : Collaborators} {V : VarInt}.

Lemma header_rewrite (file new_info : bytes) :
  length new_info = 24%nat ->
  (128 <= length file)%nat ->
  let updated := Py.slice_to file 104 ++ new_info ++ Py.slice_from file 128 in
  overwrite file updated = updated /\
  length updated = length file /\
  (forall i, (i < 104 \/ 128 <= i)%nat -> nth_error updated i = nth_error file i) /\
  firstn 24 (skipn 104 updated) = new_info.
Proof.
  intros Hn Hf updated.
  assert (Hto : Py.slice_to file 104 = firstn 104 file) by reflexivity.
  assert (Hfrom : Py.slice_from file 128 = skipn 128 file) by reflexivity.
  assert (H104 : length (firstn 104 file) = 104%nat)
    by (apply firstn_length_le; lia).
  assert (Hlen : length updated = length file).
  { unfold updated. rewrite Hto, Hfrom, !length_app, H104, Hn, length_skipn. lia. }
  split; [|split; [exact Hlen|split]].
  - unfold overwrite. rewrite Hlen, skipn_all, app_nil_r. reflexivity.
  - intros i Hi. unfold updated. rewrite Hto, Hfrom.
    destruct Hi as [Hi|Hi].
    + rewrite nth_error_app1 by lia. rewrite nth_error_firstn.
      destruct (Nat.ltb_spec i 104); [reflexivity|lia].
    + rewrite nth_error_app2 by lia. rewrite nth_error_app2 by lia.
      rewrite nth_error_skipn. f_equal. lia.
  - unfold updated. rewrite Hto.
    rewrite skipn_app, H104, Nat.sub_diag, skipn_all2 by lia.
    cbn [skipn app]. rewrite <- Hn. apply firstn_prefix.
Qed.

(** What a successful [append_pkt] did. *)
Lemma append_pkt_success (self self' : Feed) (d d' : Disk) (pkt : option Packet) :
  append_pkt self d pkt = Ok (true, self', d') ->
  exists p seq_b,
    pkt = Some p /\
    has_ended self d = Ok false /\
    length (zeros 8 ++ wire p) = 128%nat /\
    int_to_bytes_big 4 (front_seq self + 1) = Ok seq_b /\
    length (seq_b ++ mid p) = 24%nat /\
    self' = set_mids (set_front self (front_seq self + 1) (mid p))
              (_mids self ++ [mid p]) /\
    d' = set_log d
           (overwrite (log d ++ zeros 8 ++ wire p)
              (Py.slice_to (log d ++ zeros 8 ++ wire p) 104 ++ (seq_b ++ mid p)
               ++ Py.slice_from (log d ++ zeros 8 ++ wire p) 128)).
Proof.
  unfold append_pkt. intros H.
  destruct (has_ended self d) as [[|]| |]; cbn [bind] in H; try discriminate H.
  destruct pkt as [p|]; [|discriminate H].
  destruct (Py.len (zeros 8 ++ wire p) =? 128) eqn:E128;
    cbn [negb] in H; [|discriminate H].
  unfold _update_header in H. cbn [front_seq front_mid set_front log set_log] in H.
  destruct (int_to_bytes_big 4 (front_seq self + 1)) as [seq_b| |];
    cbn [bind] in H; try discriminate H.
  destruct (Py.len (seq_b ++ mid p) =? 24) eqn:E24;
    cbn [negb bind] in H; [|discriminate H].
  apply Z.eqb_eq in E128, E24. unfold Py.len in E128, E24.
  exists p, seq_b. repeat split; try reflexivity; try lia.
  - inversion H. reflexivity.
  - inversion H. reflexivity.
Qed.

Lemma int_to_bytes_big_inv (n : nat) (z : Z) (b : bytes) :
  int_to_bytes_big n z = Ok b -> b = be_digits n z /\ 0 <= z < 256 ^ Z.of_nat n.
Proof.
  unfold int_to_bytes_big.
  destruct (Z.leb_spec 0 z); [|discriminate].
  destruct (Z.ltb_spec z (256 ^ Z.of_nat n)); [|discriminate].
  cbn [andb]. intros Hb. inversion Hb. split; [reflexivity|lia].
Qed.

(** C8. A successful [append_pkt] keeps the file-size invariant
    [file_size = 128 * (front_seq - anchor_seq + 1)]: the file grows by the
    one frame of 128 bytes written at its end (eight zero bytes and the
    wire form of the packet), and the header rewrite changes no byte
    outside [104 .. 128), where it stores the new [front_seq] and
    [front_mid], so that every frame and the length stay as they are. *)
Theorem append_pkt_size_invariant (self self' : Feed) (d d' : Disk)
  (pkt : option Packet) :
  size_invariant self d ->
  append_pkt self d pkt = Ok (true, self', d') ->
  size_invariant self' d' /\
  front_seq self' = front_seq self + 1 /\
  anchor_seq self' = anchor_seq self /\
  exists p,
    pkt = Some p /\
    length (zeros 8 ++ wire p) = 128%nat /\
    length (log d') = (length (log d) + 128)%nat /\
    (forall i, (i < 104 \/ 128 <= i)%nat ->
               nth_error (log d') i = nth_error (log d ++ zeros 8 ++ wire p) i) /\
    firstn 24 (skipn 104 (log d'))
    = be_digits 4 (front_seq self') ++ front_mid self'.
Proof.
  intros Hinv H.
  destruct (append_pkt_success _ _ _ _ _ H)
    as (p & seq_b & -> & _ & H128 & Hseq & H24 & -> & ->).
  apply int_to_bytes_big_inv in Hseq. destruct Hseq as [-> _].
  assert (Hfile : (128 <= length (log d ++ zeros 8 ++ wire p))%nat)
    by (rewrite length_app; lia).
  destruct (header_rewrite _ _ H24 Hfile) as (Ho & Hl & Hn & Hh).
  cbn [log set_log front_seq front_mid anchor_seq set_mids set_front].
  rewrite Ho.
  assert (Hlen : length (Py.slice_to (log d ++ zeros 8 ++ wire p) 104
                         ++ (be_digits 4 (front_seq self + 1) ++ mid p)
                         ++ Py.slice_from (log d ++ zeros 8 ++ wire p) 128)
                 = (length (log d) + 128)%nat)
    by (rewrite Hl, length_app; lia).
  split; [|split; [reflexivity|split; [reflexivity|]]].
  - unfold size_invariant, Py.len in *.
    cbn [log set_log front_seq anchor_seq set_mids set_front].
    rewrite Hlen. lia.
  - exists p. split; [reflexivity|]. split; [exact H128|].
    split; [exact Hlen|]. split; [exact Hn|exact Hh].
Qed.

Lemma has_ended_front (self : Feed) (d : Disk) :
  has_ended self d = Ok true -> 1 <= front_seq self.
Proof.
  unfold has_ended, len_, __len__.
  destruct (Z.ltb_spec (front_seq self) 0); [discriminate|].
  destruct (2 ^ 63 <=? front_seq self); [discriminate|]. cbn [bind].
  destruct (Z.ltb_spec (front_seq self) 1); [discriminate|lia].
Qed.

Lemma append_pkt_ended (self : Feed) (d : Disk) (pkt : option Packet) :
  has_ended self d = Ok true ->
  append_pkt self d pkt = Ok (false, self, d).
Proof. intros He. unfold append_pkt. rewrite He. reflexivity. Qed.

(** On a feed that has ended, [append_pkt(p)] returns [False] for every
    packet [p], and so does [append_bytes] for every payload when the next
    sequence number still fits four bytes ([front_seq + 1 < 2^32]); both
    leave the file, [front_seq], [front_mid] and the cache of message ids
    as they were. *)
Lemma append_refused_when_ended (self : Feed) (d : Disk) :
  has_ended self d = Ok true ->
  (forall pkt, append_pkt self d pkt = Ok (false, self, d)) /\
  (front_seq self + 1 < 2 ^ 32 ->
   forall payload, append_bytes self d payload = Ok (false, self, d)).
Proof.
  intros He. split.
  - intros pkt. apply append_pkt_ended. exact He.
  - intros Hseq payload. unfold append_bytes.
    pose proof (has_ended_front _ _ He).
    rewrite int_to_bytes_big_ok
      by (change (256 ^ Z.of_nat 4) with (2 ^ 32); lia).
    cbn [bind]. destruct (new_Packet _ _ _ _); [|reflexivity].
    apply append_pkt_ended. exact He.
Qed.

(** C6. On a feed that has ended, [append_pkt(p)] returns [False] for
    every packet [p] and leaves the feed as it was, and so does
    [append_bytes] as long as [front_seq + 1 < 2^32]. At the last sequence
    number of four bytes [append_bytes] does not return [False]: it builds
    the packet before [append_pkt] looks at [has_ended], and
    [next_seq.to_bytes(4, "big")] raises [OverflowError], for every
    payload. *)
Theorem append_bytes_ended_raises (self : Feed) (d : Disk) :
  has_ended self d = Ok true ->
  (forall pkt, append_pkt self d pkt = Ok (false, self, d)) /\
  (forall payload,
      append_bytes self d payload
      = if front_seq self + 1 <? 2 ^ 32 then Ok (false, self, d)
        else Raise OverflowError).
Proof.
  intros He. pose proof (has_ended_front _ _ He) as Hf. split.
  - intros pkt. apply append_pkt_ended. exact He.
  - intros payload. unfold append_bytes, int_to_bytes_big.
    change (256 ^ Z.of_nat 4) with (2 ^ 32).
    destruct (Z.leb_spec 0 (front_seq self + 1)); [|lia].
    destruct (front_seq self + 1 <? 2 ^ 32); cbn [andb bind]; [|reflexivity].
    destruct (new_Packet _ _ _ _); [|reflexivity].
    apply append_pkt_ended. exact He.
Qed.

Lemma write_blob_writable (blobs : list Blob) (d : Disk) :
  forallb (fun b => blob_writable (signature b)) blobs = true ->
  fst (_write_blob blobs d) = true /\ log (snd (_write_blob blobs d)) = log d.
Proof.
  revert d. induction blobs as [|b blobs IH]; intros d Hw.
  - split; reflexivity.
  - cbn [forallb] in Hw. apply andb_true_iff in Hw. destruct Hw as [Hb Hw].
    cbn [_write_blob]. rewrite Hb.
    destruct (IH {| log := log d;
                    blob_files := (signature b, blob_wire b) :: blob_files d |} Hw)
      as [H1 H2].
    split; [exact H1|exact H2].
Qed.

(** C4. [append_blob] on a feed that has ended: [append_pkt] refuses the
    head packet, its answer is dropped, and the answer of [_write_blob]
    is returned. When the blobs can be written, [append_blob] returns
    [True] although no frame was appended to the feed. *)
Theorem append_blob_ended_returns_true (self : Feed) (d : Disk)
  (payload : bytes) (pkt : Packet) (blobs : list Blob) :
  has_ended self d = Ok true ->
  front_seq self + 1 < 2 ^ 32 ->
  create_chain (fid self) (be_digits 4 (front_seq self + 1)) (front_mid self)
    payload = (Some pkt, blobs) ->
  forallb (fun b => blob_writable (signature b)) blobs = true ->
  append_blob self d payload = Ok (true, self, snd (_write_blob blobs d)) /\
  log (snd (_write_blob blobs d)) = log d.
Proof.
  intros He Hseq Hc Hw. unfold append_blob.
  pose proof (has_ended_front _ _ He).
  rewrite int_to_bytes_big_ok
    by (change (256 ^ Z.of_nat 4) with (2 ^ 32); lia).
  cbn [bind]. rewrite Hc, append_pkt_ended by exact He. cbn [bind].
  destruct (write_blob_writable blobs d Hw) as [H1 H2].
  destruct (_write_blob blobs d) as [ok d']. cbn [fst snd] in *.
  subst ok. split; [reflexivity|exact H2].
Qed.

End feed_append.

(** ** Feed objects are well formed *)

Section feed_well_formed.
Import feed.
Context {C : Collaborators} {V : VarInt}.

Lemma int_from_bytes_big_range (b : bytes) :
  0 <= int_from_bytes_big b < 256 ^ Z.of_nat (length b).
Proof.
  induction b as [|x b IH] using rev_ind.
  - unfold int_from_bytes_big. simpl. lia.
  - rewrite int_from_bytes_big_snoc, length_app, Nat2Z.inj_add.
    cbn [length]. rewrite Z.pow_add_r by lia.
    pose proof (byte_val_range x). change (256 ^ Z.of_nat 1) with 256. nia.
Qed.

Lemma slice_length {A : Type} (l : list A) (i j : Z) :
  0 <= i <= j -> (length (Py.slice l i j) <= Z.to_nat (j - i))%nat.
Proof.
  intros H. unfold Py.slice.
  destruct (Z.ltb_spec i 0); [lia|]. destruct (Z.ltb_spec j 0); [lia|].
  rewrite length_firstn. lia.
Qed.

Lemma u32_field (l : bytes) (i : Z) :
  0 <= i -> 0 <= int_from_bytes_big (Py.slice l i (i + 4)) < 2 ^ 32.
Proof.
  intros Hi.
  pose proof (int_from_bytes_big_range (Py.slice l i (i + 4))) as [H0 H1].
  pose proof (slice_length l i (i + 4) ltac:(lia)) as Hl.
  split; [exact H0|].
  eapply Z.lt_le_trans; [exact H1|].
  change (2 ^ 32) with (256 ^ 4). apply Z.pow_le_mono_r; lia.
Qed.

Lemma for_each_grows {A B : Type} (xs : list A)
  (body : list B -> A -> result (list B)) :
  (forall st x st', body st x = Ok st' -> length st' = S (length st)) ->
  forall st st', for_each xs body st = Ok st' ->
                 length st' = (length st + length xs)%nat.
Proof.
  intros Hbody. induction xs as [|x xs IH]; intros st st' H.
  - cbn in H. inversion H. cbn. lia.
  - cbn [for_each] in H. destruct (body st x) as [st1| |] eqn:E;
      cbn [bind] in H; try discriminate H.
    apply Hbody in E. apply IH in H. cbn [length]. lia.
Qed.

Lemma length_range (a b : Z) : length (Py.range a b) = Z.to_nat (b - a).
Proof. unfold Py.range. rewrite length_map, length_seq. reflexivity. Qed.

Lemma get_mids_length (fid_ : bytes) (anchor front : Z) (d : Disk)
  (mids : list bytes) :
  _get_mids fid_ anchor front d = Ok mids ->
  Py.len mids = Z.max 0 (front - anchor) + 1.
Proof.
  unfold _get_mids. intros H. apply for_each_grows in H.
  - unfold Py.len. rewrite H, length_range. cbn [length]. lia.
  - clear. intros st x st' H.
    destruct (int_to_bytes_big 4 x); cbn [bind] in H; try discriminate H.
    destruct (Py.getitem st (-1)); cbn [bind] in H; try discriminate H.
    destruct (attr _ _); cbn [bind] in H; try discriminate H.
    inversion H. rewrite length_app. cbn. lia.
Qed.

(** The constructor yields a well-formed feed object. *)
Lemma init_well_formed (d : Disk) (self : Feed) :
  __init__ d = Ok self -> well_formed self.
Proof.
  unfold __init__. intros H.
  destruct (_get_mids _ _ _ d) as [mids| |] eqn:E; cbn [bind] in H;
    try discriminate H.
  inversion H. subst self. clear H.
  unfold well_formed, mids_invariant. cbn [anchor_seq front_seq _mids].
  split; [apply (u32_field _ 80); lia|].
  split; [apply (u32_field _ 104); lia|].
  apply get_mids_length in E. exact E.
Qed.

(** A successful [append_pkt] on a well-formed feed, whose front is not
    before its anchor, leaves it well formed. *)
Lemma append_pkt_well_formed (self self' : Feed) (d d' : Disk)
  (pkt : option Packet) :
  well_formed self ->
  anchor_seq self <= front_seq self ->
  append_pkt self d pkt = Ok (true, self', d') ->
  well_formed self'.
Proof.
  intros (Ha & Hf & Hm) Hle H.
  destruct (append_pkt_success _ _ _ _ _ H)
    as (p & seq_b & _ & _ & _ & Hseq & _ & -> & _).
  unfold well_formed, mids_invariant in *.
  cbn [anchor_seq front_seq _mids set_mids set_front].
  unfold int_to_bytes_big in Hseq.
  destruct (Z.leb_spec 0 (front_seq self + 1)); [|discriminate Hseq].
  destruct (Z.ltb_spec (front_seq self + 1) (256 ^ Z.of_nat 4));
    [|discriminate Hseq].
  change (256 ^ Z.of_nat 4) with (2 ^ 32) in *.
  rewrite len_snoc. lia.
Qed.

End feed_well_formed.

(** ** The feed: blob chains *)

Section feed_chain.
Import feed.
Context {C : Collaborators} {V : VarInt}.

Lemma bytes_eqb_eq (a b : bytes) : bytes_eqb a b = true <-> a = b.
Proof. unfold bytes_eqb. destruct (bytes_eq_dec a b); split; congruence. Qed.

Lemma bytes_eqb_neq (a b : bytes) : bytes_eqb a b = false <-> a <> b.
Proof. unfold bytes_eqb. destruct (bytes_eq_dec a b); split; congruence. Qed.

Lemma collect_blobs_follows (d : Disk) (blobs : list Blob) :
  forall (fuel : nat) (ptr_ : bytes) (acc : list Blob),
    follows d ptr_ blobs ->
    (length blobs <= fuel)%nat ->
    collect_blobs fuel d ptr_ acc = Ok (acc ++ blobs).
Proof.
  induction blobs as [|b blobs IH]; intros fuel ptr_ acc Hf Hfuel.
  - cbn [follows] in Hf. subst ptr_. rewrite app_nil_r.
    destruct fuel; reflexivity.
  - destruct Hf as (Hnz & Hget & Hf).
    destruct fuel as [|fuel]; [simpl in Hfuel; lia|].
    cbn [collect_blobs].
    replace (bytes_eqb ptr_ (zeros 20)) with false
      by (symmetry; apply bytes_eqb_neq; exact Hnz).
    rewrite Hget. cbn [bind].
    rewrite IH by (simpl in Hfuel; try exact Hf; lia).
    rewrite <- app_assoc. reflexivity.
Qed.

Lemma verify_blobs_match (blobs : list Blob) :
  forall ptr_ content,
    pointers_match ptr_ blobs ->
    verify_blobs blobs ptr_ content
    = Some (content ++ concat (map blob_payload blobs)).
Proof.
  induction blobs as [|b blobs IH]; intros ptr_ content Hm.
  - cbn. rewrite app_nil_r. reflexivity.
  - destruct Hm as [-> Hm]. cbn [verify_blobs map concat].
    replace (bytes_eqb (signature b) (signature b)) with true
      by (symmetry; apply bytes_eqb_eq; reflexivity).
    cbn [negb]. rewrite IH by exact Hm. rewrite <- app_assoc. reflexivity.
Qed.

Lemma verify_blobs_mismatch (blobs : list Blob) :
  forall ptr_ content,
    ~ pointers_match ptr_ blobs ->
    verify_blobs blobs ptr_ content = None.
Proof.
  induction blobs as [|b blobs IH]; intros ptr_ content Hm.
  - exfalso. apply Hm. exact I.
  - cbn [verify_blobs].
    destruct (bytes_eq_dec ptr_ (signature b)) as [E|E].
    + replace (bytes_eqb ptr_ (signature b)) with true
        by (symmetry; apply bytes_eqb_eq; exact E).
      cbn [negb]. apply IH. intros Hm'. apply Hm. split; assumption.
    + replace (bytes_eqb ptr_ (signature b)) with false
        by (symmetry; apply bytes_eqb_neq; exact E).
      reflexivity.
Qed.

(** The slices of a payload of 48 bytes. *)
Lemma payload_pointer (b : bytes) :
  length b = 48%nat -> Py.slice_from b (-20) = skipn 28 b.
Proof. intros H. unfold Py.slice_from, Py.len. rewrite H. reflexivity. Qed.

Lemma payload_head (b : bytes) (vlen : Z) :
  length b = 48%nat -> 0 <= vlen ->
  Py.slice b vlen (-20) = skipn (Z.to_nat vlen) (firstn 28 b).
Proof.
  intros H Hv. unfold Py.slice, Py.len. rewrite H.
  destruct (Z.ltb_spec vlen 0); [lia|].
  change (if -20 <? 0 then Z.max 0 (Z.of_nat 48 + -20) else Z.min (-20) (Z.of_nat 48))
    with 28.
  destruct (Z_le_gt_dec vlen 28).
  - rewrite Z.min_l by lia. rewrite firstn_skipn_comm. f_equal. f_equal. lia.
  - replace (Z.to_nat (28 - Z.min vlen (Z.of_nat 48))) with 0%nat by lia.
    rewrite firstn_O. symmetry. apply skipn_all2. rewrite length_firstn. lia.
Qed.

Lemma slice_to_nonneg {A : Type} (l : list A) (j : Z) :
  0 <= j -> Py.slice_to l j = firstn (Z.to_nat j) l.
Proof.
  intros Hj. unfold Py.slice_to. destruct (Z.ltb_spec j 0); [lia|reflexivity].
Qed.

(** C3. Let [p] be a [chain20] head packet with a payload of 48 bytes that
    decodes to [(size, vlen)], and let [blobs] be the chain reached by
    following pointers from [p.payload[28..48)] until the all-zero
    pointer, every blob file being there. If every followed pointer is the
    signature of its blob, [get_blob_chain(p)] returns the first [size]
    bytes of [p.payload[vlen..28)] followed by the payloads of the blobs;
    if some pointer is not, it returns [None]. *)
Theorem get_blob_chain_verified (fuel : nat) (d : Disk) (p : Packet)
  (size vlen : Z) (blobs : list Blob) :
  pkt_type p = PacketType_chain20 ->
  length (payload p) = 48%nat ->
  from_var_int (payload p) = Ok (size, vlen) ->
  0 <= size -> 0 <= vlen ->
  follows d (skipn 28 (payload p)) blobs ->
  (length blobs <= fuel)%nat ->
  (pointers_match (skipn 28 (payload p)) blobs ->
   get_blob_chain fuel d p
   = Ok (Some (firstn (Z.to_nat size)
                 (skipn (Z.to_nat vlen) (firstn 28 (payload p))
                  ++ concat (map blob_payload blobs))))) /\
  (~ pointers_match (skipn 28 (payload p)) blobs ->
   get_blob_chain fuel d p = Ok None).
Proof.
  intros Ht Hlen Hvar Hsize Hvlen Hf Hfuel.
  assert (Hrun : get_blob_chain fuel d p
                 = match verify_blobs blobs (skipn 28 (payload p))
                           (skipn (Z.to_nat vlen) (firstn 28 (payload p))) with
                   | None => Ok None
                   | Some content => Ok (Some (firstn (Z.to_nat size) content))
                   end).
  { unfold get_blob_chain. rewrite Ht.
    replace (bytes_eqb PacketType_chain20 PacketType_chain20) with true
      by (symmetry; apply bytes_eqb_eq; reflexivity).
    cbn [negb]. rewrite payload_pointer by exact Hlen.
    rewrite (collect_blobs_follows d blobs fuel _ [] Hf Hfuel).
    cbn [bind app]. unfold _verify_chain. rewrite Hvar. cbn [bind].
    rewrite payload_pointer, payload_head by assumption.
    destruct (verify_blobs _ _ _); [|reflexivity].
    rewrite slice_to_nonneg by exact Hsize. reflexivity. }
  split; intros Hm; rewrite Hrun.
  - rewrite verify_blobs_match by exact Hm. reflexivity.
  - rewrite verify_blobs_mismatch by exact Hm. reflexivity.
Qed.

End feed_chain.

(** ** The theorems at concrete inputs *)

Lemma jump_versions_S5_witness :
  version_util.extract_version_tree 7 Sample.S5_F1 Sample.S5_feed_manager
  = Ok (Sample.S5_tree, Sample.S5_access Sample.S5_F1 Sample.S5_F2) /\
  version_util._dfs 7 Sample.S5_tree 3 6 = Ok [3; 2; 1; 4; 5; 6] /\
  version_util.jump_versions (V := Sample.var_int) 7 3 6
    Sample.S5_F1 Sample.S5_feed_manager
  = Ok (version_util.reverse_changes (Sample.S5_changes 3)
        ++ version_util.reverse_changes (Sample.S5_changes 2)
        ++ Sample.S5_changes 4 ++ Sample.S5_changes 5 ++ Sample.S5_changes 6).
Proof.
  apply (jump_versions_S5 (V := Sample.var_int) Sample.S5_F1 Sample.S5_F2
           Sample.S5_feed_manager Sample.S5_fid2 Sample.S5_blob Sample.S5_changes);
    try reflexivity; try (intros; reflexivity); lia.
Defined.

Lemma get_blob_chain_verified_witness :
  feed.get_blob_chain (C := Sample.collaborators) (V := Sample.var_int) 3
    Sample.disk250 Sample.head250
  = Ok (Some Sample.content250).
Proof.
  refine (proj1 (get_blob_chain_verified (C := Sample.collaborators)
                   (V := Sample.var_int) 3 Sample.disk250 Sample.head250 250 2
                   (snd Sample.chain250) _ _ _ _ _ _ _) _);
    try reflexivity; try lia.
  - cbn; repeat split; try discriminate; reflexivity.
  - cbn; repeat split; reflexivity.
Defined.

(** A blob that was changed on disk no longer has the signature that points
    to it: the chain yields no content. *)
Example get_blob_chain_tampered :
  feed.get_blob_chain (C := Sample.collaborators) (V := Sample.var_int) 3
    Sample.tampered250 Sample.head250
  = Ok None.
Proof. vm_compute. reflexivity. Qed.

Lemma append_blob_ended_returns_true_witness :
  feed.append_blob (C := Sample.collaborators) (fst Sample.ended)
    (snd Sample.ended) Sample.content250
  = Ok (true, fst Sample.ended,
        snd (feed._write_blob (C := Sample.collaborators)
               (snd (Sample.make_chain (be_digits 4 3) Sample.content250))
               (snd Sample.ended)))
  /\ feed.log
       (snd (feed._write_blob (C := Sample.collaborators)
               (snd (Sample.make_chain (be_digits 4 3) Sample.content250))
               (snd Sample.ended)))
     = feed.log (snd Sample.ended).
Proof.
  eapply (append_blob_ended_returns_true (C := Sample.collaborators)
            (fst Sample.ended) (snd Sample.ended) Sample.content250).
  - vm_compute. reflexivity.
  - vm_compute. reflexivity.
  - vm_compute. reflexivity.
  - vm_compute. reflexivity.
Defined.

Lemma append_refused_when_ended_witness :
  (forall pkt,
      feed.append_pkt (C := Sample.collaborators) (fst Sample.ended)
        (snd Sample.ended) pkt
      = Ok (false, fst Sample.ended, snd Sample.ended)) /\
  (feed.front_seq (fst Sample.ended) + 1 < 2 ^ 32 ->
   forall payload,
     feed.append_bytes (C := Sample.collaborators) (fst Sample.ended)
       (snd Sample.ended) payload
     = Ok (false, fst Sample.ended, snd Sample.ended)).
Proof.
  apply (append_refused_when_ended (C := Sample.collaborators)).
  vm_compute. reflexivity.
Defined.

Lemma append_bytes_ended_raises_witness :
  (forall pkt,
      feed.append_pkt (C := Sample.collaborators) Sample.full_feed
        Sample.full_disk pkt
      = Ok (false, Sample.full_feed, Sample.full_disk)) /\
  (forall payload,
      feed.append_bytes (C := Sample.collaborators) Sample.full_feed
        Sample.full_disk payload
      = Raise OverflowError).
Proof.
  apply (append_bytes_ended_raises (C := Sample.collaborators)
           Sample.full_feed Sample.full_disk).
  vm_compute. reflexivity.
Defined.

(** The ended feed read from [Sample.full_disk] has [front_seq = 2^32 - 1]:
    [append_bytes] raises [OverflowError] on it, so it does not return
    [False] on every ended feed. *)
Example append_bytes_ended_overflow :
  feed.__init__ (C := Sample.collaborators) Sample.full_disk = Ok Sample.full_feed
  /\ feed.has_ended (C := Sample.collaborators) Sample.full_feed Sample.full_disk
     = Ok true
  /\ feed.append_bytes (C := Sample.collaborators) Sample.full_feed
       Sample.full_disk (repeat x68 48)
     = Raise OverflowError
  /\ ~ (forall (C : feed.Collaborators) (self : feed.Feed) (d : feed.Disk),
          feed.has_ended self d = Ok true ->
          forall payload,
            feed.append_bytes self d payload = Ok (false, self, d)).
Proof.
  split; [vm_compute; reflexivity|]. split; [vm_compute; reflexivity|].
  split; [vm_compute; reflexivity|].
  intros H.
  specialize (H Sample.collaborators Sample.full_feed Sample.full_disk).
  assert (He : feed.has_ended (C := Sample.collaborators) Sample.full_feed
                 Sample.full_disk = Ok true) by (vm_compute; reflexivity).
  specialize (H He (repeat x68 48)). vm_compute in H. discriminate H.
Qed.

Lemma append_pkt_size_invariant_witness :
  feed.size_invariant (fst Sample.one_packet) (snd Sample.one_packet) /\
  feed.front_seq (fst Sample.one_packet) = feed.front_seq Sample.fresh_feed + 1 /\
  feed.anchor_seq (fst Sample.one_packet) = feed.anchor_seq Sample.fresh_feed /\
  exists p,
    Sample.plain_pkt = Some p /\
    length (zeros 8 ++ feed.wire p) = 128%nat /\
    length (feed.log (snd Sample.one_packet))
    = (length (feed.log Sample.fresh_disk) + 128)%nat /\
    (forall i, (i < 104 \/ 128 <= i)%nat ->
               nth_error (feed.log (snd Sample.one_packet)) i
               = nth_error (feed.log Sample.fresh_disk ++ zeros 8 ++ feed.wire p) i) /\
    firstn 24 (skipn 104 (feed.log (snd Sample.one_packet)))
    = be_digits 4 (feed.front_seq (fst Sample.one_packet))
      ++ feed.front_mid (fst Sample.one_packet).
Proof.
  apply (append_pkt_size_invariant (C := Sample.collaborators)
           Sample.fresh_feed (fst Sample.one_packet)
           Sample.fresh_disk (snd Sample.one_packet) Sample.plain_pkt).
  - vm_compute. reflexivity.
  - vm_compute. reflexivity.
Defined.

Lemma getitem_bounds_witness :
  (forall seq,
      feed.__getitem__ (C := Sample.collaborators) (fst Sample.ended)
        (snd Sample.ended) seq = Raise IndexError <->
      (feed.remap (fst Sample.ended) seq <= feed.anchor_seq (fst Sample.ended)
       \/ feed.remap (fst Sample.ended) seq > feed.front_seq (fst Sample.ended)))
  /\ (feed.anchor_seq (fst Sample.ended) < feed.front_seq (fst Sample.ended) ->
      exists prev,
        Py.getitem (feed._mids (fst Sample.ended))
          (feed.front_seq (fst Sample.ended) - feed.anchor_seq (fst Sample.ended) - 1)
        = Ok prev /\
        feed.__getitem__ (C := Sample.collaborators) (fst Sample.ended)
          (snd Sample.ended) (-1)
        = Ok (feed.pkt_from_bytes (Collaborators := Sample.collaborators)
                (feed.fid (fst Sample.ended))
                (be_digits 4 (feed.front_seq (fst Sample.ended))) prev
                (feed.read_frame (snd Sample.ended)
                   (128 * (feed.front_seq (fst Sample.ended)
                           - feed.anchor_seq (fst Sample.ended))))) /\
        feed.__getitem__ (C := Sample.collaborators) (fst Sample.ended)
          (snd Sample.ended) (-1)
        = feed.__getitem__ (C := Sample.collaborators) (fst Sample.ended)
            (snd Sample.ended) (feed.front_seq (fst Sample.ended))).
Proof.
  apply (getitem_bounds (C := Sample.collaborators)).
  unfold feed.well_formed, feed.mids_invariant. cbn. lia.
Defined.

Lemma get_contn_empty_witness :
  feed.get_contn (C := Sample.collaborators) Sample.fresh_feed Sample.fresh_disk
  = Raise IndexError.
Proof.
  apply (get_contn_empty (C := Sample.collaborators)). reflexivity.
Defined.

(** Scenarios S1 and S3 of the specification on the sample feed. *)
Example S1_read_back :
  feed.__getitem__ (C := Sample.collaborators) (fst Sample.one_packet)
    (snd Sample.one_packet) 1 = Ok Sample.plain_pkt
  /\ feed.__getitem__ (C := Sample.collaborators) (fst Sample.one_packet)
       (snd Sample.one_packet) (-1) = Ok Sample.plain_pkt
  /\ feed.__getitem__ (C := Sample.collaborators) (fst Sample.one_packet)
       (snd Sample.one_packet) 2 = Raise IndexError.
Proof. vm_compute. repeat split; reflexivity. Qed.

Example S3_ended :
  feed.has_ended (C := Sample.collaborators) (fst Sample.ended) (snd Sample.ended)
  = Ok true
  /\ feed.get_contn (C := Sample.collaborators) (fst Sample.ended)
       (snd Sample.ended)
     = Ok (Some (repeat x0b 32)).
Proof. vm_compute. split; reflexivity. Qed.

(** The sample feed objects are what the constructor reads from the sample
    files. *)
Example sample_feeds_loaded :
  feed.__init__ (C := Sample.collaborators) Sample.fresh_disk
  = Ok Sample.fresh_feed
  /\ feed.__init__ (C := Sample.collaborators) (snd Sample.one_packet)
     = Ok (fst Sample.one_packet)
  /\ feed.__init__ (C := Sample.collaborators) (snd Sample.ended)
     = Ok (fst Sample.ended).
Proof. vm_compute. repeat split; reflexivity. Qed.

(* ================================================================== *)
(** * Further properties of [version_util.py] *)

Section diff_more.
Import version_util.

Lemma str_eqb_refl (s : str) : str_eqb s s = true.
Proof. apply str_eqb_eq. reflexivity. Qed.

Lemma get_changes_while_same (l : list str) (n : Z) (changes : list Change) :
  get_changes_while l l n changes = ([], [], n + Py.len l, changes).
Proof.
  revert n. induction l as [|x l IH]; intros n.
  - cbn. rewrite Z.add_0_r. reflexivity.
  - cbn [get_changes_while]. rewrite str_eqb_refl, IH.
    replace (n + 1 + Py.len l) with (n + Py.len (x :: l))
      by (unfold Py.len; cbn [length]; lia).
    reflexivity.
Qed.

Lemma split_lines_inj (a b : str) : split_lines a = split_lines b -> a = b.
Proof.
  intros H. rewrite <- (join_split_lines a), <- (join_split_lines b), H.
  reflexivity.
Qed.

(** X1. The diff of two texts is empty exactly when the texts are equal. *)
Theorem get_changes_empty_iff (old_version new_version : str) :
  get_changes old_version new_version = [] <-> old_version = new_version.
Proof.
  split.
  - intros H. destruct (get_changes_transforms old_version new_version) as [F _].
    rewrite H in F. cbn in F. inversion F as [E].
    apply split_lines_inj. exact E.
  - intros <-. unfold get_changes. rewrite get_changes_while_same. reflexivity.
Qed.

Lemma delete_rest_emitted (O N old_lines : list str) (n : Z)
  (changes : list Change) :
  incl old_lines O -> 1 <= n -> Forall (emitted O N) changes ->
  Forall (emitted O N) (delete_rest old_lines n changes).
Proof.
  revert changes. induction old_lines as [|x l IH]; intros changes Hi Hn Hc.
  - exact Hc.
  - rewrite delete_rest_cons. apply IH; [intros y Hy; apply Hi; right; exact Hy|exact Hn|].
    apply Forall_app. split; [exact Hc|]. constructor; [|constructor].
    split; [exact Hn|]. left. split; [reflexivity|apply Hi; left; reflexivity].
Qed.

Lemma insert_rest_emitted (O N new_lines : list str) (n : Z)
  (changes : list Change) :
  incl new_lines N -> 1 <= n -> Forall (emitted O N) changes ->
  Forall (emitted O N) (insert_rest new_lines n changes).
Proof.
  revert n changes. induction new_lines as [|x l IH]; intros n changes Hi Hn Hc.
  - exact Hc.
  - rewrite insert_rest_cons.
    apply IH; [intros y Hy; apply Hi; right; exact Hy|lia|].
    apply Forall_app. split; [exact Hc|]. constructor; [|constructor].
    split; [exact Hn|]. right. split; [reflexivity|apply Hi; left; reflexivity].
Qed.

Lemma get_changes_while_emitted (O N old_lines new_lines : list str) (n : Z)
  (changes : list Change) :
  incl old_lines O -> incl new_lines N -> 1 <= n ->
  Forall (emitted O N) changes ->
  Forall (emitted O N)
    (get_changes_finish (get_changes_while old_lines new_lines n changes)).
Proof.
  revert new_lines n changes.
  induction old_lines as [|old_l old_rest IHo]; intros new_lines n changes Ho Hn H1 Hc.
  - cbn. apply insert_rest_emitted; assumption.
  - revert n changes H1 Hc Hn.
    induction new_lines as [|new_l new_rest IHn]; intros n changes H1 Hc Hn.
    + cbn - [delete_rest]. apply delete_rest_emitted; assumption.
    + cbn [get_changes_while].
      assert (Ho' : incl old_rest O) by (intros y Hy; apply Ho; right; exact Hy).
      assert (Hn' : incl new_rest N) by (intros y Hy; apply Hn; right; exact Hy).
      destruct (str_eqb old_l new_l).
      * apply IHo; try assumption. lia.
      * destruct (negb (str_in old_l new_rest)).
        -- apply IHo; try assumption.
           apply Forall_app. split; [exact Hc|]. constructor; [|constructor].
           split; [exact H1|]. left. split; [reflexivity|apply Ho; left; reflexivity].
        -- apply IHn; try assumption; [lia|].
           apply Forall_app. split; [exact Hc|]. constructor; [|constructor].
           split; [exact H1|]. right. split; [reflexivity|apply Hn; left; reflexivity].
Qed.

(** X2. Every change that [get_changes] emits has a line number of at least
    1 and is either a deletion ["D"] of a line of the old text or an
    insertion ["I"] of a line of the new text. *)
Theorem get_changes_emitted (old_version new_version : str) :
  Forall (emitted (split_lines old_version) (split_lines new_version))
    (get_changes old_version new_version).
Proof.
  unfold get_changes. apply get_changes_while_emitted;
    try (intros y Hy; exact Hy); try lia. constructor.
Qed.

End diff_more.

Section diff_wire.
Import version_util.
Context {V : VarInt}.
Hypothesis lawful : var_int_lawful V.

Lemma split_lines_scalar (s : str) :
  Forall scalar_value s -> Forall (Forall scalar_value) (split_lines s).
Proof.
  induction 1 as [|c s Hc Hs IH]; cbn [split_lines].
  - repeat constructor.
  - destruct (c =? newline); [constructor; [constructor|exact IH]|].
    destruct (split_lines s) as [|l ls].
    + constructor; [constructor; [exact Hc|constructor]|constructor].
    + inversion IH; subst. constructor; [constructor; assumption|assumption].
Qed.

Lemma emitted_change_ok (O N : list str) (change : Change) :
  Forall (Forall scalar_value) O -> Forall (Forall scalar_value) N ->
  emitted O N change -> change_ok ascii_op change.
Proof.
  intros HO HN. destruct change as [[n op] line]. intros (Hn & Hop).
  rewrite Forall_forall in HO, HN.
  split; [lia|]. destruct Hop as [[-> Hin]|[-> Hin]].
  - split; [exists 68; split; [reflexivity|lia]|apply HO; exact Hin].
  - split; [exists 73; split; [reflexivity|lia]|apply HN; exact Hin].
Qed.

(** X3. A diff survives the wire: for two texts that UTF-8 can encode and a
    dependency of four bytes, the diff computed by [get_changes] is encoded
    by [changes_to_bytes], decoded again by [bytes_to_changes] to the same
    change list and dependency, and applying the decoded changes to the old
    text gives the new text. *)
Theorem diff_over_the_wire (old_version new_version : str) (dependency : Z) :
  Forall scalar_value old_version ->
  Forall scalar_value new_version ->
  0 <= dependency < 2 ^ 32 ->
  exists b,
    changes_to_bytes (get_changes old_version new_version) dependency = Ok b /\
    bytes_to_changes b = Ok (get_changes old_version new_version, dependency) /\
    ('(changes, _) <- bytes_to_changes b ;; apply_changes old_version changes)
    = Ok new_version.
Proof.
  intros Ho Hn Hd.
  assert (Hok : Forall (change_ok ascii_op) (get_changes old_version new_version)).
  { eapply Forall_impl;
      [intros c;
       apply (emitted_change_ok (split_lines old_version)
                (split_lines new_version));
       apply split_lines_scalar; assumption|].
    unfold get_changes. apply get_changes_while_emitted;
      try (intros y Hy; exact Hy); try lia. constructor. }
  destruct (codec_roundtrip lawful _ _ Hok Hd) as (b & Eb & Db).
  exists b. split; [exact Eb|]. split; [exact Db|].
  rewrite Db. cbn [bind]. unfold apply_changes.
  destruct (get_changes_transforms old_version new_version) as [F _].
  rewrite F. cbn [bind]. rewrite join_split_lines. reflexivity.
Qed.

End diff_wire.

Lemma diff_over_the_wire_witness :
  exists b,
    version_util.changes_to_bytes (V := Sample.var_int)
      (version_util.get_changes [97; 10; 98; 10; 99]
         [97; 10; 66; 10; 99; 10; 100]) 7 = Ok b /\
    version_util.bytes_to_changes (V := Sample.var_int) b
    = Ok (version_util.get_changes [97; 10; 98; 10; 99]
            [97; 10; 66; 10; 99; 10; 100], 7) /\
    ('(changes, _) <- version_util.bytes_to_changes (V := Sample.var_int) b ;;
     version_util.apply_changes [97; 10; 98; 10; 99] changes)
    = Ok [97; 10; 66; 10; 99; 10; 100].
Proof.
  apply (diff_over_the_wire (V := Sample.var_int) sample_var_int_lawful).
  - repeat constructor; unfold scalar_value; lia.
  - repeat constructor; unfold scalar_value; lia.
  - lia.
Defined.

Section diff_algebra.
Import version_util.

Lemma reverse_changes_map (changes : list Change) :
  reverse_changes (reverse_changes changes)
  = map (fun ch : Change =>
           let '(a, b, c) := ch in
           if str_eqb (if str_eqb b str_D then str_I else str_D) str_D
           then (a, str_I, c) else (a, str_D, c))
      changes.
Proof.
  unfold reverse_changes. rewrite map_rev, rev_involutive, map_map.
  apply map_ext. intros [[a b] c]. destruct (str_eqb b str_D); reflexivity.
Qed.

(** X4. [reverse_changes] is an involution on lists of insertions and
    deletions: reversing twice gives the list back. *)
Theorem reverse_changes_involutive (changes : list Change) :
  Forall insert_or_delete changes ->
  reverse_changes (reverse_changes changes) = changes.
Proof.
  intros H. rewrite reverse_changes_map.
  induction H as [|[[a b] c] changes Hc Hcs IH]; [reflexivity|].
  cbn [map]. rewrite IH. f_equal.
  destruct Hc as [-> | ->]; reflexivity.
Qed.

Lemma split_lines_newline_free (s : str) :
  Forall newline_free (split_lines s).
Proof.
  induction s as [|c s IH]; cbn [split_lines].
  - constructor; [intros []|constructor].
  - destruct (Z.eqb_spec c newline) as [E|E].
    + constructor; [intros []|exact IH].
    + destruct (split_lines s) as [|l ls].
      * constructor; [|constructor]. intros [H|[]]. congruence.
      * inversion IH; subst. constructor; [|assumption].
        intros [H|H]; [congruence|contradiction].
Qed.

Lemma split_lines_one_line (l : str) :
  newline_free l -> split_lines l = [l].
Proof.
  induction l as [|c l IH]; intros H; [reflexivity|].
  cbn [split_lines]. destruct (Z.eqb_spec c newline) as [E|E].
  - exfalso. apply H. left. exact E.
  - rewrite IH; [reflexivity|]. intros Hin. apply H. right. exact Hin.
Qed.

Lemma split_lines_app (l rest : str) :
  newline_free l ->
  split_lines (l ++ newline :: rest) = l :: split_lines rest.
Proof.
  induction l as [|c l IH]; intros H.
  - reflexivity.
  - cbn [app split_lines]. destruct (Z.eqb_spec c newline) as [E|E].
    + exfalso. apply H. left. exact E.
    + rewrite IH; [reflexivity|]. intros Hin. apply H. right. exact Hin.
Qed.

Lemma split_join_lines (ls : list str) :
  ls <> [] -> Forall newline_free ls -> split_lines (join_lines ls) = ls.
Proof.
  intros Hne H. induction H as [|l ls Hl Hls IH]; [contradiction|].
  destruct ls as [|l' ls].
  - cbn. apply split_lines_one_line. exact Hl.
  - change (join_lines (l :: l' :: ls)) with (l ++ newline :: join_lines (l' :: ls)).
    rewrite split_lines_app by exact Hl. rewrite IH by discriminate. reflexivity.
Qed.

Lemma Forall_firstn {A : Type} (P : A -> Prop) (n : nat) (l : list A) :
  Forall P l -> Forall P (firstn n l).
Proof.
  intros H. revert n. induction H as [|x l Hx Hl IH]; intros [|n]; cbn;
    constructor; auto.
Qed.

Lemma Forall_skipn {A : Type} (P : A -> Prop) (n : nat) (l : list A) :
  Forall P l -> Forall P (skipn n l).
Proof.
  intros H. revert n. induction H as [|x l Hx Hl IH]; intros [|n]; cbn;
    try constructor; auto.
Qed.

Lemma insert_Forall {A : Type} (P : A -> Prop) (l : list A) (i : Z) (x : A) :
  Forall P l -> P x -> Forall P (Py.insert l i x).
Proof.
  intros Hl Hx. unfold Py.insert. apply Forall_app. split.
  - apply Forall_firstn. exact Hl.
  - constructor; [exact Hx|apply Forall_skipn; exact Hl].
Qed.

Lemma delitem_Forall {A : Type} (P : A -> Prop) (l l' : list A) (i : Z) :
  Forall P l -> Py.delitem l i = Ok l' -> Forall P l'.
Proof.
  intros Hl. unfold Py.delitem.
  destruct (_ && _); [|discriminate]. intros H.
  assert (E : firstn (Z.to_nat (if i <? 0 then Py.len l + i else i)) l
              ++ skipn (S (Z.to_nat (if i <? 0 then Py.len l + i else i))) l = l')
    by congruence.
  rewrite <- E.
  apply Forall_app. split; [apply Forall_firstn|apply Forall_skipn]; exact Hl.
Qed.

Lemma apply_lines_newline_free (changes : list Change) :
  Forall one_line changes ->
  forall l l', Forall newline_free l -> apply_lines l changes = Ok l' ->
               Forall newline_free l'.
Proof.
  unfold apply_lines.
  induction 1 as [|[[n op] c] changes Hc Hcs IH]; intros l l' Hl H.
  - cbn in H. inversion H. subst. exact Hl.
  - cbn [for_each] in H.
    destruct (apply_change l (n, op, c)) as [l1| |] eqn:E; cbn [bind] in H;
      try discriminate H.
    apply (IH l1 l'); [|exact H].
    unfold apply_change in E.
    assert (Hi : Forall newline_free
                   (if str_eqb op str_I then Py.insert l (n - 1) c else l))
      by (destruct (str_eqb op str_I); [apply insert_Forall|]; assumption).
    destruct (str_eqb op str_D).
    + eapply delitem_Forall; [exact Hi|exact E].
    + inversion E. subst. exact Hi.
Qed.

(** X5. Applying two change lists one after the other is applying their
    concatenation, as long as the lines of the first list hold no line
    break and the first list leaves at least one line. *)
Theorem apply_changes_app (content : str) (c1 c2 : list Change) (l : list str) :
  Forall one_line c1 ->
  apply_lines (split_lines content) c1 = Ok l ->
  l <> [] ->
  apply_changes content (c1 ++ c2)
  = (content' <- apply_changes content c1 ;; apply_changes content' c2).
Proof.
  intros H1 Hl Hne. unfold apply_changes.
  rewrite apply_lines_app, Hl. cbn [bind].
  rewrite split_join_lines; [reflexivity|exact Hne|].
  eapply apply_lines_newline_free; [exact H1|apply split_lines_newline_free|exact Hl].
Qed.

Lemma join_lines_snoc (ls : list str) (c : str) :
  ls <> [] -> join_lines (ls ++ [c]) = join_lines ls ++ newline :: c.
Proof.
  induction ls as [|l ls IH]; intros Hne; [contradiction|].
  destruct ls as [|l' ls]; [reflexivity|].
  change (join_lines ((l :: l' :: ls) ++ [c]))
    with (l ++ newline :: join_lines ((l' :: ls) ++ [c])).
  rewrite IH by discriminate.
  change (join_lines (l :: l' :: ls)) with (l ++ newline :: join_lines (l' :: ls)).
  rewrite <- app_assoc. reflexivity.
Qed.

(** X6. Past the last line: a deletion whose line number is greater than
    the number of lines raises [IndexError]; an insertion there, with an
    index [line_num - 1] that [list.insert] takes (it fits [Py_ssize_t]),
    adds the line at the end of the text. *)
Theorem apply_changes_past_end (content line : str) (n : Z) :
  Py.len (split_lines content) < n ->
  apply_changes content [(n, str_D, line)] = Raise IndexError /\
  (Py.ssize_t (n - 1) ->
   apply_changes content [(n, str_I, line)] = Ok (content ++ newline :: line)).
Proof.
  intros Hn. unfold apply_changes, apply_lines. cbn [for_each apply_change].
  change (str_eqb str_D str_I) with false. change (str_eqb str_D str_D) with true.
  change (str_eqb str_I str_I) with true. change (str_eqb str_I str_D) with false.
  cbv iota. split.
  - unfold Py.delitem.
    destruct (Z.ltb_spec (n - 1) 0); [unfold Py.len in *; lia|].
    destruct (Z.ltb_spec (n - 1) (Py.len (split_lines content))); [lia|].
    rewrite andb_false_r. reflexivity.
  - intros _. unfold Py.insert.
    destruct (Z.ltb_spec (n - 1) 0); [unfold Py.len in *; lia|].
    rewrite Z.min_r by lia. unfold Py.len. rewrite Nat2Z.id.
    rewrite firstn_all, skipn_all. cbn [bind].
    rewrite join_lines_snoc by apply split_lines_nonempty.
    rewrite join_split_lines. reflexivity.
Qed.

End diff_algebra.

Lemma reverse_changes_involutive_witness :
  version_util.reverse_changes
    (version_util.reverse_changes
       [(2, str_D, [98]); (2, str_I, [66]); (4, str_I, [100])])
  = [(2, str_D, [98]); (2, str_I, [66]); (4, str_I, [100])].
Proof.
  apply reverse_changes_involutive.
  repeat (apply Forall_cons; [cbn; auto|]). constructor.
Defined.

Lemma apply_changes_app_witness :
  version_util.apply_changes [97; 10; 98] ([(2, str_D, [98])] ++ [(2, str_I, [99])])
  = (content' <- version_util.apply_changes [97; 10; 98] [(2, str_D, [98])] ;;
     version_util.apply_changes content' [(2, str_I, [99])]).
Proof.
  apply (apply_changes_app [97; 10; 98] [(2, str_D, [98])] [(2, str_I, [99])] [[97]]).
  - repeat constructor. cbn. unfold version_util.newline_free, newline.
    intros [H|[]]. discriminate H.
  - reflexivity.
  - discriminate.
Defined.

(** Without a line left, the two ways differ: ["a"] with its only line
    deleted is the empty text, which splits into one empty line. *)
Example apply_changes_app_needs_a_line :
  version_util.apply_changes [97] ([(1, str_D, [97])] ++ [(1, str_I, [98])])
  = Ok [98]
  /\ (content' <- version_util.apply_changes [97] [(1, str_D, [97])] ;;
      version_util.apply_changes content' [(1, str_I, [98])])
     = Ok [98; 10].
Proof. split; reflexivity. Qed.

Lemma apply_changes_past_end_witness :
  version_util.apply_changes [97; 10; 98] [(5, str_D, [99])] = Raise IndexError /\
  version_util.apply_changes [97; 10; 98] [(5, str_I, [99])]
  = Ok ([97; 10; 98] ++ newline :: [99]).
Proof.
  assert (Hn : Py.len (split_lines [97; 10; 98]) < 5) by (cbn; lia).
  destruct (apply_changes_past_end [97; 10; 98] [99] 5 Hn) as [HD HI].
  split; [exact HD|]. apply HI. unfold Py.ssize_t. lia.
Defined.

Section jump_more.
Import version_util.
Context {V : VarInt}.





End jump_more.


Section graph_more.
Import version_util.

Lemma getitem_last_cons {A : Type} (x y : A) (l : list A) :
  Py.getitem (x :: y :: l) (-1) = Py.getitem (y :: l) (-1).
Proof.
  unfold Py.getitem, Py.len. cbn [length Z.ltb Z.compare].
  replace (Z.of_nat (S (S (length l))) + -1) with (Z.of_nat (S (length l))) by lia.
  replace (Z.of_nat (S (length l)) + -1) with (Z.of_nat (length l)) by lia.
  destruct (Z.ltb_spec (Z.of_nat (S (length l))) 0); [lia|].
  destruct (Z.ltb_spec (Z.of_nat (length l)) 0); [lia|].
  rewrite !Nat2Z.id. reflexivity.
Qed.

Lemma getitem_last_one {A : Type} (x : A) : Py.getitem [x] (-1) = Ok x.
Proof. reflexivity. Qed.

Lemma walk_snoc (graph : dict (list Z)) (path : list Z) (current n : Z) :
  walk graph path ->
  Py.getitem path (-1) = Ok current ->
  adjacent graph current n ->
  walk graph (path ++ [n]).
Proof.
  intros Hw Hl Ha. induction path as [|x path IH]; [discriminate Hl|].
  destruct path as [|y path].
  - rewrite getitem_last_one in Hl. inversion Hl. subst. cbn. auto.
  - rewrite getitem_last_cons in Hl. destruct Hw as [Hxy Hw].
    change (walk graph (x :: (y :: path) ++ [n])). cbn [app walk].
    split; [exact Hxy|]. apply IH; assumption.
Qed.

Lemma explore_from_start (graph : dict (list Z)) (start current : Z)
  (path : list Z) (ns : list Z) :
  from_start graph start path ->
  Py.getitem path (-1) = Ok current ->
  (forall n, In n ns -> adjacent graph current n) ->
  forall st st',
    for_each ns (explore path) st = Ok st' ->
    Forall (from_start graph start) (snd st) ->
    Forall (from_start graph start) (snd st').
Proof.
  intros [Hh Hw] Hl. induction ns as [|n ns IH]; intros Hadj st st' H Hq.
  - cbn in H. inversion H. subst. exact Hq.
  - cbn [for_each] in H.
    destruct (explore path st n) as [st1| |] eqn:E; cbn [bind] in H;
      try discriminate H.
    apply (IH (fun m Hm => Hadj m (or_intror Hm)) st1 st' H).
    unfold explore in E. destruct st as [visited queue].
    destruct (Py.getitem visited n) as [seen| |]; cbn [bind] in E;
      try discriminate E.
    destruct seen; cbn [negb] in E.
    + inversion E. subst. exact Hq.
    + destruct (Py.setitem visited n true); cbn [bind] in E; try discriminate E.
      inversion E. subst. cbn [snd] in *.
      apply Forall_app. split; [exact Hq|]. constructor; [|constructor].
      split.
      * destruct path; [discriminate Hh|exact Hh].
      * eapply walk_snoc; [exact Hw|exact Hl|]. apply Hadj. left. reflexivity.
Qed.

Lemma dfs_while_path (graph : dict (list Z)) (start end_ : Z) (fuel : nat) :
  forall visited queue path,
    Forall (from_start graph start) queue ->
    dfs_while fuel graph end_ visited queue = Ok path ->
    path = [] \/
    (from_start graph start path /\ Py.getitem path (-1) = Ok end_).
Proof.
  induction fuel as [|fuel IH]; intros visited queue path Hq H.
  - destruct queue; cbn in H; [inversion H; auto|discriminate H].
  - destruct queue as [|p queue]; cbn [dfs_while] in H; [inversion H; auto|].
    inversion Hq as [|? ? Hp Hq']. subst.
    destruct (Py.getitem p (-1)) as [current| |] eqn:El; cbn [bind] in H;
      try discriminate H.
    destruct (Z.eqb_spec current end_) as [->|Hne].
    + inversion H. subst. right. split; assumption.
    + unfold dict_getitem in H.
      destruct (dict_get graph current) as [ns|] eqn:Eg; cbn [bind] in H;
        [|discriminate H].
      destruct (for_each ns (explore p) (visited, queue)) as [[visited' queue']| |]
        eqn:Ef; cbn [bind] in H; try discriminate H.
      apply (IH visited' queue' path); [|exact H].
      apply (explore_from_start graph start current p ns Hp El
               (fun n Hn => ex_intro _ ns (conj Eg Hn)) _ _ Ef Hq').
Qed.

(** X8. What [_dfs] returns is either the empty list (no path found) or a
    path of the graph from [start] to [end]: it begins with [start], ends
    with [end], and each node is listed among the neighbours of the node
    before it. *)
Theorem dfs_returns_path (fuel : nat) (graph : dict (list Z))
  (start end_ : Z) (path : list Z) :
  _dfs fuel graph start end_ = Ok path ->
  path = [] \/
  (hd_error path = Some start /\ Py.getitem path (-1) = Ok end_
   /\ walk graph path).
Proof.
  unfold _dfs. intros H.
  destruct (Py.max (dict_keys graph)) as [max_v| |]; cbn [bind] in H;
    try discriminate H.
  apply (dfs_while_path graph start) in H.
  - destruct H as [H|[[Hh Hw] Hl]]; [left; exact H|right; auto].
  - constructor; [|constructor]. split; [reflexivity|exact I].
Qed.

Lemma dict_get_set {A : Type} (d : dict A) (k k' : Z) (v : A) :
  dict_get (dict_set d k v) k' = if k' =? k then Some v else dict_get d k'.
Proof.
  induction d as [|[k0 v0] d IH]; cbn [dict_set dict_get].
  - destruct (k' =? k); reflexivity.
  - destruct (Z.eqb_spec k k0) as [->|Hk]; cbn [dict_get].
    + destruct (k' =? k0); reflexivity.
    + rewrite IH. destruct (Z.eqb_spec k' k0) as [->|Hk'].
      * destruct (Z.eqb_spec k0 k); [congruence|reflexivity].
      * reflexivity.
Qed.

Lemma adjacent_tree_add (tree : dict (list Z)) (k v i j : Z) :
  adjacent (tree_add tree k v) i j <-> adjacent tree i j \/ (i = k /\ j = v).
Proof.
  unfold adjacent, tree_add.
  destruct (dict_get tree k) as [l|] eqn:E.
  - split.
    + intros (ns & Hg & Hin). rewrite dict_get_set in Hg.
      destruct (Z.eqb_spec i k) as [->|Hik].
      * inversion Hg. subst. apply in_app_iff in Hin.
        destruct Hin as [Hin|[<-|[]]]; [left; eauto|right; auto].
      * left. eauto.
    + intros [(ns & Hg & Hin)|[-> ->]].
      * destruct (Z.eqb_spec i k) as [->|Hik].
        -- exists (l ++ [v]). rewrite dict_get_set, Z.eqb_refl.
           split; [reflexivity|]. apply in_app_iff. left. congruence.
        -- exists ns. rewrite dict_get_set.
           destruct (Z.eqb_spec i k); [contradiction|auto].
      * exists (l ++ [v]). rewrite dict_get_set, Z.eqb_refl.
        split; [reflexivity|]. apply in_app_iff. right. left. reflexivity.
  - split.
    + intros (ns & Hg & Hin). rewrite dict_get_set in Hg.
      destruct (Z.eqb_spec i k) as [->|Hik].
      * inversion Hg. subst. destruct Hin as [<-|[]]. right. auto.
      * left. eauto.
    + intros [(ns & Hg & Hin)|[-> ->]].
      * destruct (Z.eqb_spec i k) as [->|Hik]; [congruence|].
        exists ns. rewrite dict_get_set.
        destruct (Z.eqb_spec i k); [contradiction|auto].
      * exists [v]. rewrite dict_get_set, Z.eqb_refl.
        split; [reflexivity|left; reflexivity].
Qed.

(** X9. The adjacency that [extract_version_tree] builds is undirected:
    whenever [j] is listed among the neighbours of [i], [i] is listed among
    the neighbours of [j]. *)
Theorem extract_version_tree_undirected (fuel : nat) (feed : Feed)
  (feed_manager : FeedManager) (tree : dict (list Z)) (access_dict : dict Feed) :
  extract_version_tree fuel feed feed_manager = Ok (tree, access_dict) ->
  forall i j, adjacent tree i j -> adjacent tree j i.
Proof.
  unfold extract_version_tree. intros H.
  destruct (extract_access fuel feed_manager feed [] (-1))
    as [[access max_version]| |]; cbn [bind] in H; try discriminate H.
  match type of H with
  | bind (for_each ?xs ?body ?st) _ = _ =>
      destruct (for_each xs body st) as [t| |] eqn:E; cbn [bind] in H;
      try discriminate H;
      assert (Hsym : forall i j, adjacent t i j -> adjacent t j i);
      [|inversion H; subst; exact Hsym];
      assert (Hgen : forall xs0 t0 t1,
                 for_each xs0 body t0 = Ok t1 ->
                 (forall i j, adjacent t0 i j -> adjacent t0 j i) ->
                 forall i j, adjacent t1 i j -> adjacent t1 j i)
  end.
  - clear. induction xs0 as [|x xs0 IH]; intros t0 t1 H Hs.
    + cbn in H. inversion H. subst. exact Hs.
    + cbn [for_each] in H.
      destruct (dict_getitem access x) as [f| |]; cbn [bind] in H;
        try discriminate H.
      destruct (get_update_blob f x) as [u| |]; cbn [bind] in H;
        try discriminate H.
      apply (IH _ _ H). intros i j Ha.
      apply adjacent_tree_add in Ha. apply adjacent_tree_add.
      rewrite adjacent_tree_add in Ha. rewrite adjacent_tree_add.
      destruct Ha as [[Ha|[-> ->]]|[-> ->]]; auto.
  - apply (Hgen _ _ _ E). intros i j (ns & Hg & _). discriminate Hg.
Qed.

End graph_more.

Lemma dfs_returns_path_witness :
  [3; 2; 1; 4; 5; 6] = [] \/
  (hd_error [3; 2; 1; 4; 5; 6] = Some 3
   /\ Py.getitem [3; 2; 1; 4; 5; 6] (-1) = Ok 6
   /\ version_util.walk Sample.S5_tree [3; 2; 1; 4; 5; 6]).
Proof.
  apply (dfs_returns_path 7 Sample.S5_tree 3 6). reflexivity.
Defined.

Lemma extract_version_tree_undirected_witness :
  version_util.adjacent Sample.S5_tree 4 1.
Proof.
  apply (extract_version_tree_undirected 2 Sample.S5_F1 Sample.S5_feed_manager
           Sample.S5_tree (Sample.S5_access Sample.S5_F1 Sample.S5_F2)).
  - reflexivity.
  - eexists. split; [reflexivity|]. cbn. auto.
Defined.

Section decode_more.
Import version_util.
Context {V : VarInt}.

(** X10. An input of at most four bytes holds no change: [bytes_to_changes]
    returns the empty change list and the bytes read as the dependency,
    without calling the varint decoder. *)
Theorem bytes_to_changes_header_only (b : bytes) :
  (length b <= 4)%nat ->
  bytes_to_changes b = Ok ([], int_from_bytes_big b).
Proof.
  intros H. unfold bytes_to_changes, Py.slice_to, Py.slice_from.
  cbn [Z.ltb Z.compare]. change (Z.to_nat 4) with 4%nat.
  rewrite firstn_all2, skipn_all2 by lia. reflexivity.
Qed.

(** X11. Decoding always answers: when the varint decoder returns or raises
    on every input, so does [bytes_to_changes]; its loop ends, because every
    round consumes at least one byte of the input. *)
Theorem bytes_to_changes_answers (b : bytes) :
  (forall c, from_var_int c <> OutOfFuel) ->
  (exists r, bytes_to_changes b = Ok r) \/ (exists e, bytes_to_changes b = Raise e).
Proof.
  intros Hv. pose proof (bytes_to_changes_returns Hv b) as H.
  destruct (bytes_to_changes b) as [r|e|];
    [left; exists r; reflexivity|right; exists e; reflexivity|contradiction].
Qed.

End decode_more.

Lemma bytes_to_changes_header_only_witness :
  version_util.bytes_to_changes (V := Sample.var_int) [x00; x00; x01; x02]
  = Ok ([], int_from_bytes_big [x00; x00; x01; x02]).
Proof.
  apply bytes_to_changes_header_only. cbn. lia.
Defined.

Lemma unbase128_returns (b : bytes) : Sample.unbase128 b <> OutOfFuel.
Proof.
  induction b as [|x b IH]; cbn [Sample.unbase128]; [discriminate|].
  destruct (byte_val x <? 128); [discriminate|].
  destruct (Sample.unbase128 b) as [[v k]| |]; cbn [bind];
    [discriminate|discriminate|contradiction].
Qed.

Lemma bytes_to_changes_answers_witness :
  (exists r,
      version_util.bytes_to_changes (V := Sample.var_int)
        [xff; xff; xff; xff; xff; x80; x05; x01] = Ok r) \/
  (exists e,
      version_util.bytes_to_changes (V := Sample.var_int)
        [xff; xff; xff; xff; xff; x80; x05; x01] = Raise e).
Proof.
  apply (bytes_to_changes_answers (V := Sample.var_int)).
  exact unbase128_returns.
Defined.

(* ================================================================== *)
(** * Further properties of [feed.py] *)

Section chain_more.
Import feed.
Context {C : Collaborators} {V : VarInt}.

Lemma quick_blobs_follows (d : Disk) (blobs : list Blob) :
  forall (fuel : nat) (ptr_ content : bytes),
    follows d ptr_ blobs ->
    (length blobs <= fuel)%nat ->
    quick_blobs fuel d ptr_ content
    = Ok (content ++ concat (map blob_payload blobs)).
Proof.
  induction blobs as [|b blobs IH]; intros fuel ptr_ content Hf Hfuel.
  - cbn [follows] in Hf. subst ptr_. cbn [map concat]. rewrite app_nil_r.
    destruct fuel; reflexivity.
  - destruct Hf as (Hnz & Hget & Hf).
    destruct fuel as [|fuel]; [simpl in Hfuel; lia|].
    cbn [quick_blobs].
    replace (bytes_eqb ptr_ (zeros 20)) with false
      by (symmetry; apply bytes_eqb_neq; exact Hnz).
    rewrite Hget. cbn [bind].
    rewrite IH by (simpl in Hfuel; try exact Hf; lia).
    cbn [map concat]. rewrite <- app_assoc. reflexivity.
Qed.

Lemma getitem_ok_range (self : Feed) (d : Disk) (seq : Z) (pkt : option Packet) :
  __getitem__ self d seq = Ok pkt ->
  anchor_seq self < remap self seq <= front_seq self /\
  0 <= remap self seq < 2 ^ 32.
Proof.
  unfold __getitem__. fold (remap self seq). intros H.
  destruct (Z.gtb_spec (remap self seq) (front_seq self)); [discriminate H|].
  destruct (Z.leb_spec (remap self seq) (anchor_seq self)); [discriminate H|].
  cbn [orb] in H.
  destruct (int_to_bytes_big 4 (remap self seq)) as [b| |] eqn:E;
    cbn [bind] in H; try discriminate H.
  apply int_to_bytes_big_inv in E. destruct E as [_ E].
  change (256 ^ Z.of_nat 4) with (2 ^ 32) in E. lia.
Qed.

(** The two branches of [get_bytes_quick] on a sequence number in range. *)
Lemma get_bytes_quick_chain20 (fuel : nat) (self : Feed) (d : Disk) (i : Z)
  (size num_bytes : Z) :
  let raw_pkt := read_frame d (128 * (remap self i - anchor_seq self)) in
  let payload := Py.slice raw_pkt 8 56 in
  anchor_seq self < remap self i <= front_seq self ->
  Py.slice raw_pkt 7 8 = PacketType_chain20 ->
  from_var_int payload = Ok (size, num_bytes) ->
  get_bytes_quick fuel self d i
  = (content <- quick_blobs fuel d (Py.slice_from payload (-20))
                  (Py.slice payload num_bytes (-20)) ;;
     Ok (Py.slice_to content size)).
Proof.
  intros raw_pkt payload Hr Ht Hv.
  unfold get_bytes_quick. fold (remap self i).
  replace ((remap self i >? front_seq self)
           || (remap self i <=? anchor_seq self)) with false
    by (symmetry; apply orb_false_iff;
        split; [rewrite Z.gtb_ltb; apply Z.ltb_ge|apply Z.leb_gt]; lia).
  cbv zeta. fold raw_pkt. fold payload. rewrite Ht.
  replace (bytes_eqb PacketType_chain20 PacketType_chain20) with true
    by (symmetry; apply bytes_eqb_eq; reflexivity).
  cbn [negb]. rewrite Hv. reflexivity.
Qed.

Lemma get_bytes_quick_other (fuel : nat) (self : Feed) (d : Disk) (i : Z) :
  let raw_pkt := read_frame d (128 * (remap self i - anchor_seq self)) in
  anchor_seq self < remap self i <= front_seq self ->
  Py.slice raw_pkt 7 8 <> PacketType_chain20 ->
  get_bytes_quick fuel self d i = Ok (Py.slice raw_pkt 8 56).
Proof.
  intros raw_pkt Hr Ht.
  unfold get_bytes_quick. fold (remap self i).
  replace ((remap self i >? front_seq self)
           || (remap self i <=? anchor_seq self)) with false
    by (symmetry; apply orb_false_iff;
        split; [rewrite Z.gtb_ltb; apply Z.ltb_ge|apply Z.leb_gt]; lia).
  cbv zeta. fold raw_pkt.
  replace (bytes_eqb (Py.slice raw_pkt 7 8) PacketType_chain20) with false
    by (symmetry; apply bytes_eqb_neq; exact Ht).
  reflexivity.
Qed.

(** X12. [get_bytes_quick] does not look at signatures: for a [chain20]
    frame whose payload decodes to [(size, num_bytes)] and whose pointers
    lead through the blobs [blobs] to the all-zero pointer, it returns the
    first [size] bytes of [payload[num_bytes:-20]] followed by the payloads
    of the blobs, whether or not the pointers are the signatures of the
    blobs. *)
Theorem get_bytes_quick_chain (fuel : nat) (self : Feed) (d : Disk) (i : Z)
  (size num_bytes : Z) (blobs : list Blob) :
  let raw_pkt := read_frame d (128 * (remap self i - anchor_seq self)) in
  let payload := Py.slice raw_pkt 8 56 in
  anchor_seq self < remap self i <= front_seq self ->
  Py.slice raw_pkt 7 8 = PacketType_chain20 ->
  from_var_int payload = Ok (size, num_bytes) ->
  follows d (Py.slice_from payload (-20)) blobs ->
  (length blobs <= fuel)%nat ->
  get_bytes_quick fuel self d i
  = Ok (Py.slice_to
          (Py.slice payload num_bytes (-20) ++ concat (map blob_payload blobs))
          size).
Proof.
  intros raw_pkt payload Hr Ht Hv Hf Hfuel.
  rewrite (get_bytes_quick_chain20 fuel self d i size num_bytes Hr Ht Hv).
  rewrite (quick_blobs_follows d blobs fuel _ _ Hf Hfuel). reflexivity.
Qed.

Lemma collect_blobs_inv (d : Disk) (fuel : nat) :
  forall (ptr_ : bytes) (acc r : list Blob),
    collect_blobs fuel d ptr_ acc = Ok r ->
    exists blobs,
      r = acc ++ blobs /\ follows d ptr_ blobs /\ (length blobs <= fuel)%nat.
Proof.
  induction fuel as [|fuel IH]; intros ptr_ acc r H.
  - cbn [collect_blobs] in H.
    destruct (bytes_eq_dec ptr_ (zeros 20)) as [E|E].
    + replace (bytes_eqb ptr_ (zeros 20)) with true in H
        by (symmetry; apply bytes_eqb_eq; exact E).
      inversion H. exists []. rewrite app_nil_r. cbn. auto.
    + replace (bytes_eqb ptr_ (zeros 20)) with false in H
        by (symmetry; apply bytes_eqb_neq; exact E).
      discriminate H.
  - cbn [collect_blobs] in H.
    destruct (bytes_eq_dec ptr_ (zeros 20)) as [E|E].
    + replace (bytes_eqb ptr_ (zeros 20)) with true in H
        by (symmetry; apply bytes_eqb_eq; exact E).
      inversion H. exists []. rewrite app_nil_r. cbn. split; [reflexivity|].
      split; [exact E|lia].
    + replace (bytes_eqb ptr_ (zeros 20)) with false in H
        by (symmetry; apply bytes_eqb_neq; exact E).
      destruct (_get_blob d ptr_) as [[b|]| |] eqn:G; cbn [bind] in H;
        try discriminate H.
      apply IH in H. destruct H as (blobs & -> & Hf & Hl).
      exists (b :: blobs). rewrite <- app_assoc. split; [reflexivity|].
      split; [cbn [follows]; auto|cbn [length]; lia].
Qed.

Lemma verify_blobs_inv (blobs : list Blob) :
  forall ptr_ content c,
    verify_blobs blobs ptr_ content = Some c ->
    pointers_match ptr_ blobs /\
    c = content ++ concat (map blob_payload blobs).
Proof.
  induction blobs as [|b blobs IH]; intros ptr_ content c H.
  - cbn in H. inversion H. cbn. rewrite app_nil_r. auto.
  - cbn [verify_blobs] in H.
    destruct (bytes_eq_dec ptr_ (signature b)) as [E|E].
    + replace (bytes_eqb ptr_ (signature b)) with true in H
        by (symmetry; apply bytes_eqb_eq; exact E).
      cbn [negb] in H. apply IH in H. destruct H as [Hm ->].
      cbn [pointers_match map concat]. rewrite <- app_assoc. auto.
    + replace (bytes_eqb ptr_ (signature b)) with false in H
        by (symmetry; apply bytes_eqb_neq; exact E).
      discriminate H.
Qed.

(** What a content answer of [get_blob_chain] went through. *)
Lemma get_blob_chain_inv (fuel : nat) (d : Disk) (pkt : Packet) (c : bytes) :
  get_blob_chain fuel d pkt = Ok (Some c) ->
  pkt_type pkt = PacketType_chain20 /\
  exists size num_bytes blobs,
    from_var_int (payload pkt) = Ok (size, num_bytes) /\
    follows d (Py.slice_from (payload pkt) (-20)) blobs /\
    (length blobs <= fuel)%nat /\
    pointers_match (Py.slice_from (payload pkt) (-20)) blobs /\
    c = Py.slice_to
          (Py.slice (payload pkt) num_bytes (-20)
           ++ concat (map blob_payload blobs))
          size.
Proof.
  unfold get_blob_chain. intros H.
  destruct (bytes_eq_dec (pkt_type pkt) PacketType_chain20) as [Ek|Ek];
    [|replace (bytes_eqb (pkt_type pkt) PacketType_chain20) with false in H
        by (symmetry; apply bytes_eqb_neq; exact Ek);
      discriminate H].
  split; [exact Ek|].
  destruct (negb (bytes_eqb (pkt_type pkt) PacketType_chain20));
    [discriminate H|].
  destruct (collect_blobs fuel d _ []) as [r| |] eqn:Ec; cbn [bind] in H;
    try discriminate H.
  apply collect_blobs_inv in Ec. destruct Ec as (blobs & -> & Hf & Hl).
  cbn [app] in H. unfold _verify_chain in H.
  destruct (from_var_int (payload pkt)) as [[size num_bytes]| |] eqn:Ev;
    cbn [bind] in H; try discriminate H.
  destruct (verify_blobs blobs _ _) as [content|] eqn:Eb; [|discriminate H].
  apply verify_blobs_inv in Eb. destruct Eb as [Hm ->].
  inversion H. exists size, num_bytes, blobs. auto.
Qed.

(** X13. [get_blob_chain] returns no content that was not verified: when it
    returns content, the pointers from the head packet lead through blobs to
    the all-zero pointer, every pointer is the signature of the blob it
    leads to, and the content is the head content followed by the payloads
    of these blobs, cut to the decoded size. *)
Theorem get_blob_chain_sound (fuel : nat) (d : Disk) (pkt : Packet) (c : bytes) :
  get_blob_chain fuel d pkt = Ok (Some c) ->
  exists size num_bytes blobs,
    from_var_int (payload pkt) = Ok (size, num_bytes) /\
    follows d (Py.slice_from (payload pkt) (-20)) blobs /\
    (length blobs <= fuel)%nat /\
    pointers_match (Py.slice_from (payload pkt) (-20)) blobs /\
    c = Py.slice_to
          (Py.slice (payload pkt) num_bytes (-20)
           ++ concat (map blob_payload blobs))
          size.
Proof.
  intros H. destruct (get_blob_chain_inv fuel d pkt c H) as [_ Hc]. exact Hc.
Qed.

(** X14. The quick path agrees with the validating one: when the packet
    that [self[i]] parses has the kind and the payload that stand in the
    frame, the kinds [plain48] and [chain20] differ, and [get_bytes(i)]
    returns content, then [get_bytes_quick(i)] returns the same content. *)
Theorem get_bytes_quick_agrees (fuel : nat) (self : Feed) (d : Disk) (i : Z)
  (pkt : Packet) (c : bytes) :
  let raw_pkt := read_frame d (128 * (remap self i - anchor_seq self)) in
  PacketType_plain48 <> PacketType_chain20 ->
  __getitem__ self d i = Ok (Some pkt) ->
  pkt_type pkt = Py.slice raw_pkt 7 8 ->
  payload pkt = Py.slice raw_pkt 8 56 ->
  get_bytes fuel self d i = Ok (Some c) ->
  get_bytes_quick fuel self d i = Ok c.
Proof.
  intros raw_pkt Hkinds Hg Ht Hp H.
  destruct (getitem_ok_range _ _ _ _ Hg) as [Hr _].
  unfold get_bytes in H. rewrite Hg in H. cbn [bind] in H.
  destruct (bytes_eq_dec (pkt_type pkt) PacketType_chain20) as [E|E].
  - replace (bytes_eqb (pkt_type pkt) PacketType_plain48) with false in H
      by (symmetry; apply bytes_eqb_neq; congruence).
    replace (bytes_eqb (pkt_type pkt) PacketType_chain20) with true in H
      by (symmetry; apply bytes_eqb_eq; exact E).
    destruct (get_blob_chain_inv _ _ _ _ H)
      as (_ & size & num_bytes & blobs & Hv & Hf & Hl & _ & ->).
    rewrite Hp in *.
    rewrite (get_bytes_quick_chain20 fuel self d i size num_bytes Hr);
      [|fold raw_pkt; congruence|exact Hv].
    rewrite (quick_blobs_follows d blobs fuel _ _ Hf Hl). reflexivity.
  - rewrite (get_bytes_quick_other fuel self d i Hr)
      by (fold raw_pkt; congruence).
    fold raw_pkt. rewrite <- Hp.
    replace (bytes_eqb (pkt_type pkt) PacketType_chain20) with false in H
      by (symmetry; apply bytes_eqb_neq; exact E).
    repeat match type of H with
           | (if ?b then _ else _) = _ => destruct b; cbv iota in H
           end;
      first [discriminate H | inversion H; reflexivity].
Qed.

Lemma write_blob_other (blobs : list Blob) :
  forall (d : Disk) (k : bytes),
    ~ In k (map signature blobs) ->
    blob_file (blob_files (snd (_write_blob blobs d))) k
    = blob_file (blob_files d) k.
Proof.
  induction blobs as [|b blobs IH]; intros d k Hk; [reflexivity|].
  cbn [_write_blob]. destruct (blob_writable (signature b)); [|reflexivity].
  rewrite IH by (intros Hin; apply Hk; right; exact Hin).
  cbn [blob_files blob_file].
  replace (bytes_eqb k (signature b)) with false; [reflexivity|].
  symmetry. apply bytes_eqb_neq. intros ->. apply Hk. left. reflexivity.
Qed.

Lemma write_blob_file (blobs : list Blob) :
  forall (d : Disk) (b : Blob),
    NoDup (map signature blobs) ->
    forallb (fun b => blob_writable (signature b)) blobs = true ->
    In b blobs ->
    blob_file (blob_files (snd (_write_blob blobs d))) (signature b)
    = Some (blob_wire b).
Proof.
  induction blobs as [|x blobs IH]; intros d b Hnd Hw Hin; [contradiction|].
  cbn [forallb] in Hw. apply andb_true_iff in Hw. destruct Hw as [Hx Hw].
  cbn [map] in Hnd. inversion Hnd as [|? ? Hnotin Hnd']. subst.
  cbn [_write_blob]. rewrite Hx.
  destruct Hin as [->|Hin].
  - rewrite write_blob_other by exact Hnotin.
    cbn [blob_files blob_file].
    replace (bytes_eqb (signature b) (signature b)) with true
      by (symmetry; apply bytes_eqb_eq; reflexivity).
    reflexivity.
  - apply IH; assumption.
Qed.

(** X16. What [_write_blob] wrote, [_get_blob] reads: after a list of
    writable blobs with pairwise different signatures and wire forms of 120
    bytes was written, [_get_blob] at the signature of each of them builds
    the blob from the first 100 and the last 20 bytes of its wire form. *)
Theorem write_then_get_blob (blobs : list Blob) (d : Disk) (b : Blob) :
  NoDup (map signature blobs) ->
  Forall (fun b => blob_writable (signature b) = true) blobs ->
  In b blobs ->
  length (blob_wire b) = 120%nat ->
  _get_blob (snd (_write_blob blobs d)) (signature b)
  = Ok (Some (new_Blob (firstn 100 (blob_wire b)) (skipn 100 (blob_wire b)))).
Proof.
  intros Hnd Hw Hin Hlen. unfold _get_blob.
  rewrite write_blob_file; try assumption.
  - rewrite firstn_all2 by lia. unfold Py.len. rewrite Hlen. reflexivity.
  - apply forallb_forall. rewrite Forall_forall in Hw. exact Hw.
Qed.

End chain_more.

Section topology_more.
Import feed.
Context {C : Collaborators} {V : VarInt}.

(** X17. [get_parent] answers [None] for a feed whose anchor is not 0, and
    raises [IndexError] for a feed with anchor 0 that holds no packet: the
    read of [self[1]] is not guarded. *)
Theorem get_parent_edges (self : Feed) (d : Disk) :
  (anchor_seq self <> 0 -> get_parent self d = Ok None) /\
  (anchor_seq self = 0 -> front_seq self < 1 ->
   get_parent self d = Raise IndexError).
Proof.
  unfold get_parent. split.
  - intros Ha. destruct (Z.eqb_spec (anchor_seq self) 0); [contradiction|].
    reflexivity.
  - intros Ha Hf. rewrite Ha. cbn [Z.eqb negb].
    rewrite getitem_out_of_range; [reflexivity|].
    right. unfold remap. cbn. lia.
Qed.

(** X18. [get_prev] never fails on the read of [self[1]]: whenever sequence
    number 1 is out of range (the feed holds no packet, or its anchor is 1
    or more), it returns [None]. *)
Theorem get_prev_out_of_range (self : Feed) (d : Disk) :
  front_seq self < 1 \/ 1 <= anchor_seq self ->
  get_prev self d = Ok None.
Proof.
  intros H. unfold get_prev.
  rewrite getitem_out_of_range; [reflexivity|].
  unfold remap. cbn. destruct H; [right|left]; lia.
Qed.

(** X19. A feed is not both a child and a continuation: when the kinds
    [ischild] and [iscontn] differ and [get_parent] returns a feed id,
    [get_prev] returns [None]. *)
Theorem get_parent_excludes_prev (self : Feed) (d : Disk) (parent : bytes) :
  PacketType_ischild <> PacketType_iscontn ->
  get_parent self d = Ok (Some parent) ->
  get_prev self d = Ok None.
Proof.
  intros Hk. unfold get_parent, get_prev.
  destruct (negb (anchor_seq self =? 0)); [discriminate|].
  destruct (__getitem__ self d 1) as [[p|]| |]; cbn [bind attr];
    try discriminate.
  destruct (bytes_eq_dec (pkt_type p) PacketType_ischild) as [E|E].
  - intros _. rewrite E.
    replace (bytes_eqb PacketType_ischild PacketType_iscontn) with false
      by (symmetry; apply bytes_eqb_neq; exact Hk).
    reflexivity.
  - replace (bytes_eqb (pkt_type p) PacketType_ischild) with false
      by (symmetry; apply bytes_eqb_neq; exact E).
    discriminate.
Qed.

(** X20. [has_ended] and [get_contn] agree: on a feed whose anchor is not
    negative, [has_ended()] is true exactly when [get_contn()] returns a
    continuation, which is then the first 32 bytes of the payload of the
    last packet. *)
Theorem has_ended_iff_contn (self : Feed) (d : Disk) :
  0 <= anchor_seq self ->
  (has_ended self d = Ok true <-> exists c, get_contn self d = Ok (Some c)) /\
  (forall c, get_contn self d = Ok (Some c) ->
             exists p, __getitem__ self d (-1) = Ok (Some p) /\
                       c = Py.slice_to (payload p) 32).
Proof.
  intros Ha. split; [split|].
  - unfold has_ended, get_contn. intros H.
    destruct (len_ self) as [n| |]; cbn [bind] in H; try discriminate H.
    destruct (n <? 1); [discriminate H|].
    destruct (__getitem__ self d (-1)) as [[p|]| |]; cbn [bind attr] in *;
      try discriminate H.
    inversion H as [E]. rewrite E. cbn [negb]. eauto.
  - intros [c H]. unfold has_ended, get_contn in *.
    destruct (__getitem__ self d (-1)) as [[p|]| |] eqn:G; cbn [bind attr] in *;
      try discriminate H.
    apply getitem_ok_range in G. destruct G as [G1 G2].
    assert (R : remap self (-1) = front_seq self) by (unfold remap; cbn; lia).
    rewrite R in *.
    unfold len_, __len__.
    destruct (Z.ltb_spec (front_seq self) 0); [lia|].
    destruct (Z.leb_spec (2 ^ 63) (front_seq self)); [lia|].
    cbn [bind]. destruct (Z.ltb_spec (front_seq self) 1); [lia|].
    destruct (bytes_eqb (pkt_type p) PacketType_contdas); [reflexivity|].
    discriminate H.
  - intros c H. unfold get_contn in H.
    destruct (__getitem__ self d (-1)) as [[p|]| |]; cbn [bind attr] in *;
      try discriminate H.
    destruct (bytes_eqb (pkt_type p) PacketType_contdas); cbn [negb] in H;
      [|discriminate H].
    inversion H. eauto.
Qed.

Lemma range_cons (a b : Z) : a < b -> Py.range a b = a :: Py.range (a + 1) b.
Proof.
  intros H. unfold Py.range.
  replace (Z.to_nat (b - a)) with (S (Z.to_nat (b - (a + 1)))) by lia.
  cbn [seq map]. f_equal; [lia|].
  rewrite <- seq_shift, map_map. apply map_ext. intros k. lia.
Qed.

Lemma range_nil (a b : Z) : b <= a -> Py.range a b = [].
Proof.
  intros H. unfold Py.range. replace (Z.to_nat (b - a)) with 0%nat by lia.
  reflexivity.
Qed.

Lemma for_next_range {S : Type} (self : Feed) (d : Disk)
  (body : S -> option Packet -> result S) (fuel : nat) :
  forall (_n : Z) (st : S),
    (Z.to_nat (front_seq self - _n) < fuel)%nat ->
    for_next fuel self d _n body st
    = for_each (Py.range (_n + 1) (front_seq self + 1))
        (fun st i => pkt <- __getitem__ self d i ;; body st pkt) st.
Proof.
  induction fuel as [|fuel IH]; intros _n st Hf; [lia|].
  cbn [for_next]. unfold __next__.
  destruct (Z.gtb_spec (_n + 1) (front_seq self)).
  - rewrite range_nil by lia. reflexivity.
  - rewrite range_cons by lia. cbn [for_each].
    destruct (__getitem__ self d (_n + 1)) as [pkt| |]; cbn [bind];
      try reflexivity.
    destruct (body st pkt) as [st'| |]; cbn [bind]; try reflexivity.
    apply IH. lia.
Qed.

(** X21. Iterating over a feed visits the sequence numbers
    [anchor_seq + 1 .. front_seq] in ascending order, reads each packet with
    [__getitem__], and stops after [front_seq]; [front_seq - anchor_seq + 1]
    calls of [__next__] are enough. *)
Theorem for_feed_range {S : Type} (fuel : nat) (self : Feed) (d : Disk)
  (body : S -> option Packet -> result S) (st : S) :
  (Z.to_nat (front_seq self - anchor_seq self) < fuel)%nat ->
  for_feed fuel self d body st
  = for_each (Py.range (anchor_seq self + 1) (front_seq self + 1))
      (fun st i => pkt <- __getitem__ self d i ;; body st pkt) st.
Proof.
  intros Hf. unfold for_feed, __iter__. apply for_next_range. exact Hf.
Qed.

Lemma keep_mkchild_packets (self : Feed) (d : Disk) (seqs : list Z) :
  forall (pkts acc : list Packet),
    map (__getitem__ self d) seqs = map (fun p => Ok (Some p)) pkts ->
    for_each seqs
      (fun st i => pkt <- __getitem__ self d i ;; keep_mkchild st pkt) acc
    = Ok (acc ++ filter (fun p => bytes_eqb (pkt_type p) PacketType_mkchild) pkts).
Proof.
  induction seqs as [|i seqs IH]; intros pkts acc H.
  - destruct pkts; [|discriminate H]. cbn. rewrite app_nil_r. reflexivity.
  - destruct pkts as [|p pkts]; [discriminate H|].
    cbn [map] in H. inversion H as [[Hi Hrest]].
    cbn [for_each filter]. rewrite Hi. cbn [bind keep_mkchild].
    destruct (bytes_eqb (pkt_type p) PacketType_mkchild); cbn [bind].
    + rewrite (IH pkts) by exact Hrest. rewrite <- app_assoc. reflexivity.
    + apply IH. exact Hrest.
Qed.

(** X22. [get_children] returns, in feed order, the first 32 bytes of the
    payload of every [mkchild] packet: when the packets at
    [anchor_seq + 1 .. front_seq] are [pkts], the answer is that slice of
    each packet of [pkts] whose kind is [mkchild]; on a feed without
    packets it is the empty list. *)
Theorem get_children_packets (fuel : nat) (self : Feed) (d : Disk)
  (pkts : list Packet) :
  (Z.to_nat (front_seq self - anchor_seq self) < fuel)%nat ->
  map (__getitem__ self d)
    (Py.range (anchor_seq self + 1) (front_seq self + 1))
  = map (fun p => Ok (Some p)) pkts ->
  get_children fuel self d
  = Ok (map (fun p => Py.slice_to (payload p) 32)
          (filter (fun p => bytes_eqb (pkt_type p) PacketType_mkchild) pkts)).
Proof.
  intros Hf Hp. unfold get_children, for_feed, __iter__.
  rewrite for_next_range by exact Hf.
  rewrite (keep_mkchild_packets self d _ pkts []) by exact Hp.
  reflexivity.
Qed.

End topology_more.

Section append_more.
Import feed.
Context {C : Collaborators} {V : VarInt}.

Lemma slice_to_firstn {A : Type} (l : list A) (n : nat) :
  Py.slice_to l (Z.of_nat n) = firstn n l.
Proof.
  unfold Py.slice_to. destruct (Z.ltb_spec (Z.of_nat n) 0); [lia|].
  rewrite Nat2Z.id. reflexivity.
Qed.

Lemma slice_from_skipn {A : Type} (l : list A) (n : nat) :
  Py.slice_from l (Z.of_nat n) = skipn n l.
Proof.
  unfold Py.slice_from. destruct (Z.ltb_spec (Z.of_nat n) 0); [lia|].
  rewrite Nat2Z.id. reflexivity.
Qed.

Lemma slice_firstn_skipn {A : Type} (l : list A) (i j : nat) :
  (i <= j <= length l)%nat ->
  Py.slice l (Z.of_nat i) (Z.of_nat j) = firstn (j - i) (skipn i l).
Proof.
  intros H. unfold Py.slice, Py.len.
  destruct (Z.ltb_spec (Z.of_nat i) 0); [lia|].
  destruct (Z.ltb_spec (Z.of_nat j) 0); [lia|].
  rewrite !Z.min_l by lia. f_equal; [lia|]. f_equal. lia.
Qed.

Lemma skipn_at {A : Type} (a x : list A) (n : nat) :
  length a = n -> skipn n (a ++ x) = x.
Proof. intros <-. apply skipn_prefix. Qed.

Lemma firstn_at {A : Type} (a x : list A) (n : nat) :
  length a = n -> firstn n (a ++ x) = a.
Proof. intros <-. apply firstn_prefix. Qed.

(** The file after the header rewrite, for a file that holds a header. *)
Lemma update_header_log (self : Feed) (d d' : Disk) :
  (128 <= length (log d))%nat ->
  _update_header self d = Ok d' ->
  length (front_mid self) = 20%nat /\
  0 <= front_seq self < 2 ^ 32 /\
  log d' = firstn 104 (log d)
           ++ (be_digits 4 (front_seq self) ++ front_mid self)
           ++ skipn 128 (log d).
Proof.
  intros Hlen H. unfold _update_header in H.
  destruct (int_to_bytes_big 4 (front_seq self)) as [seq_b| |] eqn:E;
    cbn [bind] in H; try discriminate H.
  apply int_to_bytes_big_inv in E. destruct E as [-> Hr].
  change (256 ^ Z.of_nat 4) with (2 ^ 32) in Hr.
  destruct (Z.eqb_spec (Py.len (be_digits 4 (front_seq self) ++ front_mid self)) 24)
    as [E24|]; [|discriminate H].
  cbn [negb] in H. injection H as Hd. subst d'. cbn [log set_log].
  unfold Py.len in E24. rewrite length_app, length_be_digits in E24.
  assert (H24 : length (be_digits 4 (front_seq self) ++ front_mid self) = 24%nat)
    by (rewrite length_app, length_be_digits; lia).
  destruct (header_rewrite (log d) _ H24 Hlen) as (Ho & _ & _ & _).
  split; [lia|]. split; [exact Hr|exact Ho].
Qed.

Lemma rewritten_header (file mid_ : bytes) (seq : Z) :
  (128 <= length file)%nat -> length mid_ = 20%nat -> 0 <= seq < 2 ^ 32 ->
  let file' := firstn 104 file ++ (be_digits 4 seq ++ mid_) ++ skipn 128 file in
  let header := firstn 128 file' in
  int_from_bytes_big (Py.slice header 104 108) = seq /\
  Py.slice header 108 128 = mid_ /\
  firstn 104 file' = firstn 104 file /\
  skipn 128 file' = skipn 128 file /\
  length file' = length file.
Proof.
  intros Hlen Hm Hr file' header.
  assert (H104 : length (firstn 104 file) = 104%nat)
    by (apply firstn_length_le; lia).
  assert (Hh : header = firstn 104 file ++ be_digits 4 seq ++ mid_).
  { unfold header, file'.
    replace 128%nat
      with (length (firstn 104 file ++ be_digits 4 seq ++ mid_))
      by (rewrite !length_app, H104, length_be_digits; lia).
    rewrite (app_assoc (firstn 104 file) (be_digits 4 seq ++ mid_)).
    apply firstn_prefix. }
  assert (Hhl : length header = 128%nat)
    by (rewrite Hh, !length_app, H104, length_be_digits; lia).
  split; [|split; [|split; [|split]]].
  - change 104 with (Z.of_nat 104). change 108 with (Z.of_nat 108).
    rewrite slice_firstn_skipn by lia. rewrite Hh.
    rewrite (skipn_at _ _ 104 H104).
    rewrite (firstn_at _ _ (108 - 104) (length_be_digits 4 seq)).
    apply int_from_be_digits.
    change (256 ^ Z.of_nat 4) with (2 ^ 32). exact Hr.
  - change 108 with (Z.of_nat 108). change 128 with (Z.of_nat 128).
    rewrite slice_firstn_skipn by lia. rewrite Hh, app_assoc.
    rewrite (skipn_at _ _ 108)
      by (rewrite length_app, H104, length_be_digits; reflexivity).
    apply firstn_all2. lia.
  - apply (firstn_at _ _ 104 H104).
  - unfold file'. rewrite app_assoc.
    apply skipn_at. rewrite !length_app, H104, length_be_digits. lia.
  - unfold file'. rewrite !length_app, H104, length_be_digits, length_skipn. lia.
Qed.

(** X23. The header rewrite can be read back: on a file that holds a
    header (128 bytes or more), after [_update_header] the bytes
    [104 .. 108) are [front_seq] in big-endian and the bytes [108 .. 128)
    are [front_mid], as the constructor reads them; the first 104 bytes,
    everything from byte 128 on and the length of the file are as
    before. *)
Theorem update_header_read_back (self : Feed) (d d' : Disk) :
  (128 <= length (log d))%nat ->
  _update_header self d = Ok d' ->
  let header := firstn 128 (log d') in
  int_from_bytes_big (Py.slice header 104 108) = front_seq self /\
  Py.slice header 108 128 = front_mid self /\
  firstn 104 (log d') = firstn 104 (log d) /\
  skipn 128 (log d') = skipn 128 (log d) /\
  length (log d') = length (log d).
Proof.
  intros Hlen H header.
  destruct (update_header_log self d d' Hlen H) as (Hm & Hr & E).
  unfold header. rewrite E.
  exact (rewritten_header (log d) (front_mid self) (front_seq self) Hlen Hm Hr).
Qed.

(** X24. On a file shorter than 104 bytes, [_update_header] does not write
    at offset 104: the slices of the file are not padded, so the 24 bytes of
    [front_seq] and [front_mid] are put right after what the file holds and
    the file grows by 24 bytes. *)
Theorem update_header_short_file (self : Feed) (d d' : Disk) :
  (length (log d) <= 104)%nat ->
  _update_header self d = Ok d' ->
  log d' = log d ++ be_digits 4 (front_seq self) ++ front_mid self.
Proof.
  intros Hlen H. unfold _update_header in H.
  destruct (int_to_bytes_big 4 (front_seq self)) as [seq_b| |] eqn:E;
    cbn [bind] in H; try discriminate H.
  apply int_to_bytes_big_inv in E. destruct E as [-> _].
  destruct (negb _); [discriminate H|].
  injection H as Hd. subst d'. cbn [log set_log]. unfold overwrite.
  change 104 with (Z.of_nat 104). change 128 with (Z.of_nat 128).
  rewrite slice_to_firstn, slice_from_skipn.
  rewrite firstn_all2 by lia. rewrite (skipn_all2 (n := 128)) by lia.
  rewrite app_nil_r. rewrite skipn_all2; [apply app_nil_r|].
  rewrite length_app. lia.
Qed.

Lemma skipn_past_header (file new_info : bytes) (n : nat) :
  length new_info = 24%nat ->
  (128 <= n)%nat -> (128 <= length file)%nat ->
  skipn n (firstn 104 file ++ new_info ++ skipn 128 file) = skipn n file.
Proof.
  intros H24 Hn Hf.
  assert (H104 : length (firstn 104 file) = 104%nat)
    by (apply firstn_length_le; lia).
  rewrite app_assoc, skipn_app.
  rewrite skipn_all2 by (rewrite length_app; lia).
  rewrite length_app, H104, H24. cbn [app].
  rewrite skipn_skipn. f_equal. lia.
Qed.

(** The frame that a successful [append_pkt] leaves at the end of the file
    is the wire form of the packet. *)
Lemma appended_frame (self self' : Feed) (d d' : Disk) (p : Packet) :
  size_invariant self d ->
  anchor_seq self <= front_seq self ->
  append_pkt self d (Some p) = Ok (true, self', d') ->
  read_frame d' (128 * (front_seq self + 1 - anchor_seq self)) = wire p.
Proof.
  intros Hinv Hle H.
  destruct (append_pkt_success _ _ _ _ _ H)
    as (p0 & seq_b & Ep & _ & H128 & _ & H24 & -> & ->).
  inversion Ep. subst p0.
  unfold size_invariant, Py.len in Hinv.
  assert (Hfile : (128 <= length (log d ++ zeros 8 ++ wire p))%nat)
    by (rewrite length_app; lia).
  destruct (header_rewrite _ _ H24 Hfile) as (Ho & _ & _ & _).
  unfold read_frame. cbn [log set_log]. rewrite Ho.
  change (Py.slice_to (log d ++ zeros 8 ++ wire p) 104)
    with (firstn 104 (log d ++ zeros 8 ++ wire p)).
  change (Py.slice_from (log d ++ zeros 8 ++ wire p) 128)
    with (skipn 128 (log d ++ zeros 8 ++ wire p)).
  rewrite skipn_past_header by (try assumption; lia).
  replace (Z.to_nat (128 * (front_seq self + 1 - anchor_seq self)))
    with (length (log d)) by lia.
  rewrite skipn_prefix, firstn_all2 by lia.
  reflexivity.
Qed.

(** The last message id of the cache of a well-formed feed. *)
Lemma last_mid (self : Feed) :
  well_formed self ->
  anchor_seq self <= front_seq self ->
  exists prev,
    Py.getitem (_mids self) (front_seq self - anchor_seq self) = Ok prev /\
    Py.getitem (_mids self) (-1) = Ok prev.
Proof.
  intros (Ha & Hf & Hm) Hle. unfold mids_invariant in Hm.
  destruct (getitem_in_range (_mids self) (front_seq self - anchor_seq self))
    as (prev & Hprev); [lia|].
  exists prev. split; [exact Hprev|].
  unfold Py.getitem in *. cbn [Z.ltb Z.compare].
  destruct (Z.ltb_spec (front_seq self - anchor_seq self) 0); [lia|].
  destruct (Z.ltb_spec (front_seq self - anchor_seq self) 0); [lia|].
  destruct (Z.ltb_spec (Py.len (_mids self) + -1) 0); [lia|].
  replace (Py.len (_mids self) + -1) with (front_seq self - anchor_seq self)
    by lia.
  exact Hprev.
Qed.

(** X25. What was appended is read back: after a successful
    [append_pkt(p)] on a well-formed feed with the file-size invariant,
    [self[-1]] hands to the packet parser the feed id, the new [front_seq]
    in four bytes, the message id that was the last of the cache, and the
    wire form of [p], exactly. *)
Theorem append_pkt_read_back (self self' : Feed) (d d' : Disk) (p : Packet) :
  well_formed self ->
  anchor_seq self <= front_seq self ->
  size_invariant self d ->
  append_pkt self d (Some p) = Ok (true, self', d') ->
  exists prev,
    Py.getitem (_mids self) (-1) = Ok prev /\
    __getitem__ self' d' (-1)
    = Ok (pkt_from_bytes (fid self) (be_digits 4 (front_seq self + 1)) prev
            (wire p)).
Proof.
  intros Hwf Hle Hinv H.
  destruct (last_mid self Hwf Hle) as (prev & Hprev & Hlast).
  destruct Hwf as (Ha & Hf & Hm).
  pose proof (appended_frame _ _ _ _ _ Hinv Hle H) as Hframe.
  destruct (append_pkt_success _ _ _ _ _ H)
    as (p0 & seq_b & Ep & _ & _ & Hseq & _ & Es & Ed).
  inversion Ep. subst p0. clear Ep.
  apply int_to_bytes_big_inv in Hseq. destruct Hseq as [-> Hr].
  change (256 ^ Z.of_nat 4) with (2 ^ 32) in Hr.
  unfold mids_invariant in Hm.
  exists prev. split; [exact Hlast|].
  unfold __getitem__. rewrite Es.
  cbn [front_seq anchor_seq fid _mids set_mids set_front].
  cbn [Z.ltb Z.compare].
  replace (front_seq self + 1 + -1 + 1) with (front_seq self + 1) by lia.
  destruct (Z.gtb_spec (front_seq self + 1) (front_seq self + 1)); [lia|].
  destruct (Z.leb_spec (front_seq self + 1) (anchor_seq self)); [lia|].
  cbn [orb]. rewrite Hframe.
  rewrite int_to_bytes_big_ok
    by (change (256 ^ Z.of_nat 4) with (2 ^ 32); lia).
  cbn [bind].
  replace (front_seq self + 1 - anchor_seq self - 1)
    with (front_seq self - anchor_seq self) by lia.
  assert (Hp' : Py.getitem (_mids self ++ [mid p])
                  (front_seq self - anchor_seq self) = Ok prev).
  { unfold Py.getitem in *.
    destruct (Z.ltb_spec (front_seq self - anchor_seq self) 0); [lia|].
    destruct (Z.ltb_spec (front_seq self - anchor_seq self) 0); [lia|].
    rewrite nth_error_app1 by (unfold Py.len in Hm; lia). exact Hprev. }
  rewrite Hp'. reflexivity.
Qed.

End append_more.

Section reopen.
Import feed.
Context {C : Collaborators} {V : VarInt}.

Lemma range_snoc (a b : Z) : a <= b -> Py.range a (b + 1) = Py.range a b ++ [b].
Proof.
  intros H. unfold Py.range.
  replace (Z.to_nat (b + 1 - a)) with (Z.to_nat (b - a) + 1)%nat by lia.
  rewrite seq_app, map_app. cbn [seq map]. f_equal. f_equal. lia.
Qed.

Lemma in_range (a b x : Z) : In x (Py.range a b) -> a <= x < b.
Proof.
  unfold Py.range. intros H. apply in_map_iff in H.
  destruct H as (k & <- & Hk). apply in_seq in Hk. lia.
Qed.

Lemma for_each_ext_in {A S : Type} (xs : list A)
  (f g : S -> A -> result S) :
  (forall st x, In x xs -> f st x = g st x) ->
  forall st, for_each xs f st = for_each xs g st.
Proof.
  induction xs as [|x xs IH]; intros H st; [reflexivity|].
  cbn [for_each]. rewrite (H st x) by (left; reflexivity).
  destruct (g st x); cbn [bind]; try reflexivity.
  apply IH. intros st' y Hy. apply H. right. exact Hy.
Qed.

Lemma slice_within_prefix {A : Type} (h1 h2 : list A) (n i j : nat) :
  firstn n h1 = firstn n h2 ->
  (i <= j <= n)%nat -> (n <= length h1)%nat -> (n <= length h2)%nat ->
  Py.slice h1 (Z.of_nat i) (Z.of_nat j) = Py.slice h2 (Z.of_nat i) (Z.of_nat j).
Proof.
  intros E Hij H1 H2.
  rewrite !slice_firstn_skipn by lia.
  rewrite !firstn_skipn_comm.
  replace (firstn (i + (j - i)) h1) with (firstn (i + (j - i)) (firstn n h1))
    by (rewrite firstn_firstn; f_equal; lia).
  replace (firstn (i + (j - i)) h2) with (firstn (i + (j - i)) (firstn n h2))
    by (rewrite firstn_firstn; f_equal; lia).
  rewrite E. reflexivity.
Qed.

(** What a successful [append_pkt] ran. *)
Lemma append_pkt_steps (self self' : Feed) (d d' : Disk) (p : Packet) :
  append_pkt self d (Some p) = Ok (true, self', d') ->
  length (zeros 8 ++ wire p) = 128%nat /\
  _update_header (set_front self (front_seq self + 1) (mid p))
    (set_log d (log d ++ zeros 8 ++ wire p)) = Ok d' /\
  self' = set_mids (set_front self (front_seq self + 1) (mid p))
            (_mids self ++ [mid p]).
Proof.
  unfold append_pkt. intros H.
  destruct (has_ended self d) as [[|]| |]; cbn [bind] in H; try discriminate H.
  destruct (Z.eqb_spec (Py.len (zeros 8 ++ wire p)) 128) as [E|];
    cbn [negb] in H; [|discriminate H].
  destruct (_update_header _ _) as [d1| |] eqn:Eu; cbn [bind] in H;
    try discriminate H.
  unfold Py.len in E. split; [lia|].
  injection H as Hs Hd. subst d1. split; [reflexivity|].
  symmetry. exact Hs.
Qed.

(** The frames written before are read as before. *)
Lemma old_frame_kept (logd frame tail' : bytes) (k n : Z) :
  1 <= k <= n ->
  Z.of_nat (length logd) = 128 * (n + 1) ->
  skipn 128 tail' = skipn 128 logd ++ frame ->
  firstn 128 (skipn (Z.to_nat (128 * k)) tail')
  = firstn 128 (skipn (Z.to_nat (128 * k)) logd).
Proof.
  intros Hk Hlen Ht.
  replace (Z.to_nat (128 * k)) with (Z.to_nat (128 * (k - 1)) + 128)%nat by lia.
  rewrite <- !skipn_skipn, Ht.
  rewrite skipn_app.
  assert (Hl : length (skipn 128 logd) = Z.to_nat (128 * n))
    by (rewrite length_skipn; lia).
  replace (Z.to_nat (128 * (k - 1)) - length (skipn 128 logd))%nat with 0%nat
    by lia.
  rewrite skipn_O, firstn_app.
  replace (128 - length (skipn (Z.to_nat (128 * (k - 1))) (skipn 128 logd)))%nat
    with 0%nat by (rewrite length_skipn; lia).
  rewrite firstn_O. apply app_nil_r.
Qed.

(** X27. Reopening after an append gives the object at hand: when the feed
    object [self] was read from the file by the constructor, the file has
    the size the invariant states, and [append_pkt(p)] succeeded, then the
    constructor on the new file yields the new object, with the same
    header fields, the new [front_seq] and [front_mid], and the cache of
    message ids extended by [p.mid] (given that the packet parser accepts
    the wire form of [p] at its place and derives [p.mid] from it). *)
Theorem reopen_after_append (self self' : Feed) (d d' : Disk) (p : Packet) :
  __init__ d = Ok self ->
  size_invariant self d ->
  anchor_seq self <= front_seq self ->
  append_pkt self d (Some p) = Ok (true, self', d') ->
  (forall prev, Py.getitem (_mids self) (-1) = Ok prev ->
                exists q, pkt_from_bytes (fid self)
                            (be_digits 4 (front_seq self + 1)) prev (wire p)
                          = Some q /\ mid q = mid p) ->
  __init__ d' = Ok self'.
Proof.
  intros Hinit Hinv Hle Happ Hcodec.
  pose proof (init_well_formed _ _ Hinit) as Hwf.
  destruct (last_mid self Hwf Hle) as (prev & _ & Hprev).
  destruct (Hcodec prev Hprev) as (q & Hq & Hmid).
  pose proof (appended_frame _ _ _ _ _ Hinv Hle Happ) as Hframe.
  destruct (append_pkt_steps _ _ _ _ _ Happ) as (H128 & Hupd & Es).
  unfold size_invariant, Py.len in Hinv.
  assert (Hlogd : (128 <= length (log d))%nat) by lia.
  assert (Hlog1 : (128 <= length (log (set_log d (log d ++ zeros 8 ++ wire p))))%nat)
    by (cbn [log set_log]; rewrite length_app; lia).
  destruct (update_header_log _ _ _ Hlog1 Hupd) as (Hm1 & Hr1 & E1).
  pose proof (rewritten_header _ _ _ Hlog1 Hm1 Hr1) as R.
  cbv zeta in R. rewrite <- E1 in R.
  destruct R as (Hfront & Hfmid & H104 & Hskip & Hlen').
  cbn [front_seq set_front] in Hr1.
  cbn [log set_log front_seq front_mid set_front] in Hfront, Hfmid, H104, Hskip, Hlen'.
  assert (H104' : firstn 104 (log d') = firstn 104 (log d))
    by (rewrite H104, firstn_app;
        replace (104 - length (log d))%nat with 0%nat by lia;
        rewrite firstn_O; apply app_nil_r).
  assert (Hskip' : skipn 128 (log d') = skipn 128 (log d) ++ zeros 8 ++ wire p)
    by (rewrite Hskip, skipn_app;
        replace (128 - length (log d))%nat with 0%nat by lia;
        rewrite skipn_O; reflexivity).
  assert (Hlend' : (128 <= length (log d'))%nat)
    by (rewrite Hlen', length_app; lia).
  (* the header fields before byte 104 *)
  assert (Hfield : forall i j : nat, (i <= j <= 104)%nat ->
             Py.slice (firstn 128 (log d')) (Z.of_nat i) (Z.of_nat j)
             = Py.slice (firstn 128 (log d)) (Z.of_nat i) (Z.of_nat j)).
  { intros i j Hij. apply (slice_within_prefix _ _ 104); try exact Hij.
    - rewrite !firstn_firstn. exact H104'.
    - rewrite length_firstn. lia.
    - rewrite length_firstn. lia. }
  (* what the constructor had read *)
  unfold __init__ in Hinit.
  destruct (_get_mids _ _ _ d) as [mids| |] eqn:Emids; cbn [bind] in Hinit;
    try discriminate Hinit.
  injection Hinit as Hself.
  assert (Efid : fid self = Py.slice (firstn 128 (log d)) 12 44)
    by (rewrite <- Hself; reflexivity).
  assert (Eanchor : anchor_seq self
                    = int_from_bytes_big (Py.slice (firstn 128 (log d)) 80 84))
    by (rewrite <- Hself; reflexivity).
  assert (Efront : front_seq self
                   = int_from_bytes_big (Py.slice (firstn 128 (log d)) 104 108))
    by (rewrite <- Hself; reflexivity).
  assert (Emids' : _mids self = mids) by (rewrite <- Hself; reflexivity).
  rewrite <- Efid, <- Eanchor, <- Efront in Emids.
  (* the constructor on the new file *)
  assert (F1 : Py.slice (firstn 128 (log d')) 12 44
               = Py.slice (firstn 128 (log d)) 12 44)
    by (apply (Hfield 12%nat 44%nat); lia).
  assert (F2 : Py.slice (firstn 128 (log d')) 44 76
               = Py.slice (firstn 128 (log d)) 44 76)
    by (apply (Hfield 44%nat 76%nat); lia).
  assert (F3 : Py.slice (firstn 128 (log d')) 76 80
               = Py.slice (firstn 128 (log d)) 76 80)
    by (apply (Hfield 76%nat 80%nat); lia).
  assert (F4 : Py.slice (firstn 128 (log d')) 80 84
               = Py.slice (firstn 128 (log d)) 80 84)
    by (apply (Hfield 80%nat 84%nat); lia).
  assert (F5 : Py.slice (firstn 128 (log d')) 84 104
               = Py.slice (firstn 128 (log d)) 84 104)
    by (apply (Hfield 84%nat 104%nat); lia).
  unfold __init__. cbv zeta.
  rewrite F1, F2, F3, F4, F5, Hfmid.
  rewrite <- Efid, <- Eanchor, Hfront.
  assert (Hmids : _get_mids (fid self) (anchor_seq self) (front_seq self + 1) d'
                  = Ok (mids ++ [mid p])).
  { unfold _get_mids in *.
    rewrite range_snoc by lia. rewrite for_each_app.
    rewrite (for_each_ext_in _ _
               (fun mids0 i =>
                  i_b <- int_to_bytes_big 4 i ;;
                  prev0 <- Py.getitem mids0 (-1) ;;
                  m <- attr (pkt_from_bytes (fid self) i_b prev0
                               (read_frame d (128 * (i - anchor_seq self))))
                         mid ;;
                  Ok (mids0 ++ [m]))).
    - rewrite Emids. cbn [bind for_each]. rewrite Hframe.
      rewrite int_to_bytes_big_ok
        by (change (256 ^ Z.of_nat 4) with (2 ^ 32); exact Hr1).
      cbn [bind]. rewrite <- Emids', Hprev. cbn [bind].
      rewrite Hq. cbn [attr bind]. rewrite Hmid. reflexivity.
    - intros st x Hx. apply in_range in Hx. cbv zeta. unfold read_frame.
      rewrite (old_frame_kept (log d) (zeros 8 ++ wire p) (log d')
                 (x - anchor_seq self) (front_seq self - anchor_seq self));
        [reflexivity|lia|lia|exact Hskip']. }
  rewrite Hmids. cbn [bind]. f_equal.
  rewrite Es, <- Hself. unfold set_mids, set_front.
  cbn [fid parent_id parent_seq anchor_seq anchor_mid front_seq front_mid _mids].
  reflexivity.
Qed.

End reopen.

Section invariant_more.
Import feed.
Context {C : Collaborators} {V : VarInt}.

Lemma for_each_extends {A B : Type} (xs : list A)
  (body : list B -> A -> result (list B)) :
  (forall st x st', body st x = Ok st' -> exists m, st' = st ++ [m]) ->
  forall st st', for_each xs body st = Ok st' -> exists l, st' = st ++ l.
Proof.
  intros Hbody. induction xs as [|x xs IH]; intros st st' H.
  - cbn in H. inversion H. exists []. rewrite app_nil_r. reflexivity.
  - cbn [for_each] in H. destruct (body st x) as [st1| |] eqn:E;
      cbn [bind] in H; try discriminate H.
    apply Hbody in E. destruct E as (m & ->).
    apply IH in H. destruct H as (l & ->).
    exists (m :: l). rewrite <- app_assoc. reflexivity.
Qed.

Lemma get_mids_head (fid_ : bytes) (anchor front : Z) (d : Disk)
  (mids : list bytes) :
  _get_mids fid_ anchor front d = Ok mids ->
  exists rest, mids = Py.slice_to fid_ 20 :: rest.
Proof.
  unfold _get_mids. intros H. apply for_each_extends in H.
  - destruct H as (l & ->). exists l. reflexivity.
  - clear. intros st x st' H.
    destruct (int_to_bytes_big 4 x); cbn [bind] in H; try discriminate H.
    destruct (Py.getitem st (-1)); cbn [bind] in H; try discriminate H.
    destruct (attr _ _) as [m| |]; cbn [bind] in H; try discriminate H.
    inversion H. exists m. reflexivity.
Qed.

(** X28. What the constructor establishes: both sequence numbers fit four
    bytes, the cache of message ids holds one entry per sequence number of
    [anchor_seq + 1 .. front_seq] after its first entry, and the first entry
    is the first 20 bytes of the feed id. *)
Theorem init_invariant (d : Disk) (self : Feed) :
  __init__ d = Ok self ->
  0 <= anchor_seq self < 2 ^ 32 /\
  0 <= front_seq self < 2 ^ 32 /\
  Py.len (_mids self) = Z.max 0 (front_seq self - anchor_seq self) + 1 /\
  Py.getitem (_mids self) 0 = Ok (Py.slice_to (fid self) 20).
Proof.
  intros H. destruct (init_well_formed d self H) as (_ & Hf & Hm).
  unfold __init__ in H.
  destruct (_get_mids _ _ _ d) as [mids| |] eqn:E; cbn [bind] in H;
    try discriminate H.
  apply get_mids_head in E. destruct E as (rest & ->).
  inversion H. subst self. cbn [anchor_seq front_seq fid _mids] in *.
  split; [apply (u32_field _ 80); lia|].
  split; [exact Hf|]. split; [exact Hm|reflexivity].
Qed.

(** X29. A successful [append_pkt] keeps the feed object well formed: it
    was given a packet, [front_seq] is one more than before and still fits
    four bytes, [front_mid] is the message id of the packet, and the cache
    of message ids has this id as its new last entry. *)
Theorem append_pkt_invariant (self self' : Feed) (d d' : Disk)
  (pkt : option Packet) :
  well_formed self ->
  anchor_seq self <= front_seq self ->
  append_pkt self d pkt = Ok (true, self', d') ->
  well_formed self' /\
  exists p,
    pkt = Some p /\
    front_seq self' = front_seq self + 1 /\
    front_mid self' = mid p /\
    _mids self' = _mids self ++ [mid p].
Proof.
  intros Hwf Hle H.
  split; [exact (append_pkt_well_formed self self' d d' pkt Hwf Hle H)|].
  destruct (append_pkt_success _ _ _ _ _ H)
    as (p & seq_b & Ep & _ & _ & _ & _ & -> & _).
  exists p. repeat split. exact Ep.
Qed.

End invariant_more.

(** ** The further properties at concrete inputs *)

Lemma get_bytes_quick_chain_witness :
  feed.get_bytes_quick (C := Sample.collaborators) (V := Sample.var_int) 3
    (fst Sample.chained) (snd Sample.chained) 1
  = Ok Sample.content250.
Proof.
  refine (get_bytes_quick_chain (C := Sample.collaborators)
            (V := Sample.var_int) 3 (fst Sample.chained) (snd Sample.chained) 1
            250 2 (snd Sample.chain250) _ _ _ _ _).
  - cbn. lia.
  - reflexivity.
  - reflexivity.
  - cbn; repeat split; try discriminate; reflexivity.
  - cbn. lia.
Defined.

Lemma get_blob_chain_sound_witness :
  exists size num_bytes blobs,
    from_var_int (VarInt := Sample.var_int) (feed.payload Sample.head250)
    = Ok (size, num_bytes) /\
    feed.follows (C := Sample.collaborators) Sample.disk250
      (Py.slice_from (feed.payload Sample.head250) (-20)) blobs /\
    (length blobs <= 3)%nat /\
    feed.pointers_match (Py.slice_from (feed.payload Sample.head250) (-20)) blobs /\
    Sample.content250
    = Py.slice_to
        (Py.slice (feed.payload Sample.head250) num_bytes (-20)
         ++ concat (map feed.blob_payload blobs))
        size.
Proof.
  apply (get_blob_chain_sound (C := Sample.collaborators) (V := Sample.var_int)
           3 Sample.disk250 Sample.head250 Sample.content250).
  vm_compute. reflexivity.
Defined.

Lemma get_bytes_quick_agrees_witness :
  feed.get_bytes_quick (C := Sample.collaborators) (V := Sample.var_int) 3
    (fst Sample.chained) (snd Sample.chained) 1
  = Ok Sample.content250.
Proof.
  apply (get_bytes_quick_agrees (C := Sample.collaborators)
           (V := Sample.var_int) 3 (fst Sample.chained) (snd Sample.chained) 1
           Sample.head250 Sample.content250).
  - discriminate.
  - vm_compute. reflexivity.
  - reflexivity.
  - reflexivity.
  - vm_compute. reflexivity.
Defined.

(** The quick path on the files whose blobs were overwritten: it still
    returns 250 bytes, where the verifying path returns [None]. *)
Example get_bytes_quick_tampered :
  exists c,
    feed.get_bytes_quick (C := Sample.collaborators) (V := Sample.var_int) 3
      (fst Sample.chained)
      {| feed.log := feed.log (snd Sample.chained);
         feed.blob_files := feed.blob_files Sample.tampered250 |} 1
    = Ok c /\ length c = 250%nat /\ c <> Sample.content250.
Proof.
  eexists. split; [vm_compute; reflexivity|]. split; [reflexivity|discriminate].
Qed.

Lemma write_then_get_blob_witness :
  feed._get_blob (C := Sample.collaborators)
    (snd (feed._write_blob (C := Sample.collaborators) (snd Sample.chain250)
            Sample.fresh_disk))
    (feed.signature (hd (Sample.blob_of [] []) (snd Sample.chain250)))
  = Ok (Some (feed.new_Blob (Collaborators := Sample.collaborators)
                (firstn 100
                   (feed.blob_wire (hd (Sample.blob_of [] []) (snd Sample.chain250))))
                (skipn 100
                   (feed.blob_wire (hd (Sample.blob_of [] []) (snd Sample.chain250)))))).
Proof.
  apply (write_then_get_blob (C := Sample.collaborators)).
  - cbn [map Sample.chain250 snd].
    repeat (constructor;
            [cbn; intros H; repeat (destruct H as [H|H]; [discriminate H|]);
             exact H|]).
    constructor.
  - repeat constructor.
  - left. reflexivity.
  - reflexivity.
Defined.

Lemma get_parent_edges_witness :
  feed.get_parent (C := Sample.collaborators) Sample.fresh_feed Sample.fresh_disk
  = Raise IndexError.
Proof.
  apply (proj2 (get_parent_edges (C := Sample.collaborators)
                  Sample.fresh_feed Sample.fresh_disk)).
  - reflexivity.
  - cbn. lia.
Defined.

Lemma get_prev_out_of_range_witness :
  feed.get_prev (C := Sample.collaborators) Sample.fresh_feed Sample.fresh_disk
  = Ok None.
Proof.
  apply (get_prev_out_of_range (C := Sample.collaborators)). left. cbn. lia.
Defined.

Lemma get_parent_excludes_prev_witness :
  feed.get_prev (C := Sample.collaborators) (fst Sample.child) (snd Sample.child)
  = Ok None.
Proof.
  apply (get_parent_excludes_prev (C := Sample.collaborators)
           (fst Sample.child) (snd Sample.child) (repeat x0d 32)).
  - discriminate.
  - vm_compute. reflexivity.
Defined.

Lemma has_ended_iff_contn_witness :
  (feed.has_ended (C := Sample.collaborators) (fst Sample.ended)
     (snd Sample.ended) = Ok true <->
   exists c, feed.get_contn (C := Sample.collaborators) (fst Sample.ended)
               (snd Sample.ended) = Ok (Some c)) /\
  (forall c,
      feed.get_contn (C := Sample.collaborators) (fst Sample.ended)
        (snd Sample.ended) = Ok (Some c) ->
      exists p,
        feed.__getitem__ (C := Sample.collaborators) (fst Sample.ended)
          (snd Sample.ended) (-1) = Ok (Some p) /\
        c = Py.slice_to (feed.payload p) 32).
Proof.
  apply (has_ended_iff_contn (C := Sample.collaborators)). cbn. lia.
Defined.

Lemma for_feed_range_witness :
  feed.for_feed (C := Sample.collaborators) 3 (fst Sample.with_child)
    (snd Sample.with_child) (feed.keep_mkchild (C := Sample.collaborators)) []
  = for_each
      (Py.range (feed.anchor_seq (fst Sample.with_child) + 1)
         (feed.front_seq (fst Sample.with_child) + 1))
      (fun st i =>
         pkt <- feed.__getitem__ (C := Sample.collaborators)
                  (fst Sample.with_child) (snd Sample.with_child) i ;;
         feed.keep_mkchild (C := Sample.collaborators) st pkt) [].
Proof.
  apply (for_feed_range (C := Sample.collaborators)). cbn. lia.
Defined.

Lemma get_children_packets_witness :
  feed.get_children (C := Sample.collaborators) 3 (fst Sample.with_child)
    (snd Sample.with_child)
  = Ok (map (fun p => Py.slice_to (feed.payload p) 32)
          (filter (fun p => bytes_eqb (feed.pkt_type p)
                              (feed.PacketType_mkchild
                                 (Collaborators := Sample.collaborators)))
             [Sample.plain; Sample.packet_of Sample.mkchild_pkt])).
Proof.
  apply (get_children_packets (C := Sample.collaborators)).
  - cbn. lia.
  - vm_compute. reflexivity.
Defined.

(** The feed that announces a child has one child, the one it names. *)
Example get_children_sample :
  feed.get_children (C := Sample.collaborators) 3 (fst Sample.with_child)
    (snd Sample.with_child)
  = Ok [repeat x0e 32].
Proof. vm_compute. reflexivity. Qed.

Lemma update_header_read_back_witness :
  int_from_bytes_big (Py.slice (firstn 128 (feed.log Sample.rewritten)) 104 108)
  = feed.front_seq Sample.moved_front /\
  Py.slice (firstn 128 (feed.log Sample.rewritten)) 108 128
  = feed.front_mid Sample.moved_front /\
  firstn 104 (feed.log Sample.rewritten) = firstn 104 (feed.log Sample.fresh_disk) /\
  skipn 128 (feed.log Sample.rewritten) = skipn 128 (feed.log Sample.fresh_disk) /\
  length (feed.log Sample.rewritten) = length (feed.log Sample.fresh_disk).
Proof.
  apply (update_header_read_back Sample.moved_front Sample.fresh_disk
           Sample.rewritten).
  - cbn. lia.
  - vm_compute. reflexivity.
Defined.

Lemma update_header_short_file_witness :
  feed.log Sample.short_rewritten
  = feed.log Sample.short_disk
    ++ be_digits 4 (feed.front_seq Sample.moved_front)
    ++ feed.front_mid Sample.moved_front.
Proof.
  apply (update_header_short_file Sample.moved_front Sample.short_disk
           Sample.short_rewritten).
  - cbn. lia.
  - vm_compute. reflexivity.
Defined.

Lemma append_pkt_read_back_witness :
  exists prev,
    Py.getitem (feed._mids Sample.fresh_feed) (-1) = Ok prev /\
    feed.__getitem__ (C := Sample.collaborators) (fst Sample.one_packet)
      (snd Sample.one_packet) (-1)
    = Ok (feed.pkt_from_bytes (Collaborators := Sample.collaborators)
            (feed.fid Sample.fresh_feed)
            (be_digits 4 (feed.front_seq Sample.fresh_feed + 1)) prev
            (feed.wire Sample.plain)).
Proof.
  apply (append_pkt_read_back (C := Sample.collaborators) Sample.fresh_feed
           (fst Sample.one_packet) Sample.fresh_disk (snd Sample.one_packet)
           Sample.plain).
  - unfold feed.well_formed, feed.mids_invariant. cbn. lia.
  - cbn. lia.
  - vm_compute. reflexivity.
  - vm_compute. reflexivity.
Defined.

Lemma reopen_after_append_witness :
  feed.__init__ (C := Sample.collaborators) (snd Sample.one_packet)
  = Ok (fst Sample.one_packet).
Proof.
  apply (reopen_after_append (C := Sample.collaborators) Sample.fresh_feed
           (fst Sample.one_packet) Sample.fresh_disk (snd Sample.one_packet)
           Sample.plain).
  - vm_compute. reflexivity.
  - vm_compute. reflexivity.
  - cbn. lia.
  - vm_compute. reflexivity.
  - intros prev _. eexists. split; [vm_compute; reflexivity|reflexivity].
Defined.

Lemma init_invariant_witness :
  0 <= feed.anchor_seq (fst Sample.ended) < 2 ^ 32 /\
  0 <= feed.front_seq (fst Sample.ended) < 2 ^ 32 /\
  Py.len (feed._mids (fst Sample.ended))
  = Z.max 0 (feed.front_seq (fst Sample.ended)
             - feed.anchor_seq (fst Sample.ended)) + 1 /\
  Py.getitem (feed._mids (fst Sample.ended)) 0
  = Ok (Py.slice_to (feed.fid (fst Sample.ended)) 20).
Proof.
  apply (init_invariant (C := Sample.collaborators) (snd Sample.ended)).
  vm_compute. reflexivity.
Defined.

Lemma append_pkt_invariant_witness :
  feed.well_formed (fst Sample.one_packet) /\
  exists p,
    Sample.plain_pkt = Some p /\
    feed.front_seq (fst Sample.one_packet) = feed.front_seq Sample.fresh_feed + 1 /\
    feed.front_mid (fst Sample.one_packet) = feed.mid p /\
    feed._mids (fst Sample.one_packet)
    = feed._mids Sample.fresh_feed ++ [feed.mid p].
Proof.
  apply (append_pkt_invariant (C := Sample.collaborators) Sample.fresh_feed
           (fst Sample.one_packet) Sample.fresh_disk (snd Sample.one_packet)
           Sample.plain_pkt).
  - unfold feed.well_formed, feed.mids_invariant. cbn. lia.
  - cbn. lia.
  - vm_compute. reflexivity.
Defined.
